(** * Quant: fact normalisation, fiscal-period reconciliation and ratios

    A shallow embedding of the decision logic of the repository:
    - [Teste2]      : src/Quant/Teste2.py (XBRL company facts, quarterly
                      reconciliation, latest-filed tie-break);
    - [DirectSearch]: src/Quant/Aquisição/Teste2.py (tag search in filings);
    - [ClearData]   : src/Quant/Aquisição/Clear_Data.py (free-text extraction
                      and the per-period record);
    - [Ratios]      : src/Quant/Aquisição/Data_to_db.py and get_data.py
                      (the ratio dictionaries).

    Python dictionaries are finite maps ([gmap]); exceptions are an explicit
    result type; monetary amounts of the XBRL facts are integers ([Z]),
    parsed literals and ratios are rationals ([Q], exact arithmetic instead
    of binary floating point). *)

From Stdlib Require Import ZArith QArith Qabs String Ascii List Permutation Sorted Lia.
From Stdlib Require OrderedTypeEx DecimalString.
From stdpp Require Import gmap strings.

Local Open Scope string_scope.
Local Open Scope Z_scope.

(** ** Python values: exceptions, truthiness, comparisons *)

Inductive exn : Type := TypeError | ZeroDivisionError.

Inductive result (A : Type) : Type :=
| Ok (a : A)
| Raise (e : exn).
Arguments Ok {A} a.
Arguments Raise {A} e.

Definition bind {A B : Type} (r : result A) (k : A -> result B) : result B :=
  match r with
  | Ok a => k a
  | Raise e => Raise e
  end.

Notation "'let*' x := c 'in' k" := (bind c (fun x => k))
  (at level 10, x name, c at level 100, k at level 200).

Module Py.

(** [a > b] on two [str] values: lexicographic on code points. *)
Definition str_gt (a b : string) : bool :=
  match String.compare a b with
  | Gt => true
  | _ => false
  end.

(** [a > b] where either side may be [None]: Python 3 refuses to order
    [None] against anything. *)
Definition gt (a b : option string) : result bool :=
  match a, b with
  | Some x, Some y => Ok (str_gt x y)
  | _, _ => Raise TypeError
  end.

(** Truth value of an [int] that may be [None]. *)
Definition truthy_int (v : option Z) : bool :=
  match v with
  | Some z => negb (z =? 0)
  | None => false
  end.

(** Truth value of a [str]. *)
Definition truthy_str (s : string) : bool := negb (String.eqb s "").

(** [a < b] on numbers. *)
Definition Qltb (a b : Q) : bool :=
  match (a ?= b)%Q with
  | Lt => true
  | _ => false
  end.

(** Truth value of a number that may be [None]. *)
Definition truthy_num (v : option Q) : bool :=
  match v with
  | Some q => negb (Qeq_bool q 0)
  | None => false
  end.

Definition digit_of (c : ascii) : option Z :=
  let n := Z.of_N (N_of_ascii c) in
  if (48 <=? n) && (n <=? 57) then Some (n - 48) else None.

(** Reads the leading decimal digits of [s]: their value, how many there
    are, and what follows them. *)
Fixpoint read_digits (s : string) (acc : Z) (n : nat) : Z * nat * string :=
  match s with
  | String c s' =>
      match digit_of c with
      | Some d => read_digits s' (10 * acc + d) (S n)
      | None => (acc, n, s)
      end
  | EmptyString => (acc, n, s)
  end.

Definition float_unsigned (s : string) : option Q :=
  let '(i, ni, rest) := read_digits s 0 0 in
  match rest with
  | EmptyString => if Nat.eqb ni 0 then None else Some (inject_Z i)
  | String c rest' =>
      if Ascii.eqb c "." then
        let '(f, nf, rest'') := read_digits rest' 0 0 in
        match rest'' with
        | EmptyString =>
            if Nat.eqb (ni + nf) 0 then None
            else Some (inject_Z i + (f # Z.to_pos (10 ^ Z.of_nat nf)))%Q
        | _ => None
        end
      else None
  end.

(** [float(s)] on the decimal literals [[+-]digits[.digits]] (at least one
    digit): the number, exactly; [None] stands for [ValueError], the only
    exception [float] raises on a [str].  Exponents, blanks, underscores
    and inf/nan, which Python also reads, are outside this reader. *)
Definition float (s : string) : option Q :=
  match s with
  | String c s' =>
      if Ascii.eqb c "-" then Qopp <$> float_unsigned s'
      else if Ascii.eqb c "+" then float_unsigned s'
      else float_unsigned s
  | EmptyString => None
  end.

(** [s.replace(',', '')] *)
Fixpoint remove_commas (s : string) : string :=
  match s with
  | String c s' =>
      if Ascii.eqb c "," then remove_commas s' else String c (remove_commas s')
  | EmptyString => EmptyString
  end.

(** A dictionary literal, or successive assignments [d[k] = v]. *)
Definition dict_of {V : Type} (l : list (string * V)) : gmap string V :=
  fold_left (fun d kv => <[fst kv := snd kv]> d) l ∅.

End Py.

(** ** src/Quant/Teste2.py *)

Module Teste2.

Definition NUM_QUARTERS : nat := 8.

(** One element of [us_gaap[metric]['units'][units]]: a JSON object.  A
    field is [None] when the key is missing, which is what [item.get(k)]
    returns. *)
Record fact : Type := {
  form : option string;
  fy : option Z;
  fp : option string;
  end_ : option string;
  val : option Z;
  filed : option string
}.

(** [item.get('form') in ['10-Q', '10-K']] *)
Definition is_10Q_or_10K (item : fact) : bool :=
  match form item with
  | Some f => String.eqb f "10-Q" || String.eqb f "10-K"
  | None => false
  end.

(** [key=lambda x: (x.get('end', ''), x.get('filed', ''))] *)
Definition sort_key (x : fact) : string * string :=
  (default "" (end_ x), default "" (filed x)).

(** Order of Python tuples of two strings. *)
Definition key_compare (a b : string * string) : comparison :=
  match String.compare (fst a) (fst b) with
  | Eq => String.compare (snd a) (snd b)
  | c => c
  end.

Definition key_lt (a b : string * string) : bool :=
  match key_compare a b with
  | Lt => true
  | _ => false
  end.

(** [list.sort(key=..., reverse=True)]: a stable sort, larger keys first;
    elements with equal keys keep the order they had. *)
Fixpoint insert_desc (x : fact) (l : list fact) : list fact :=
  match l with
  | [] => [x]
  | y :: l' =>
      if key_lt (sort_key x) (sort_key y) then y :: insert_desc x l'
      else x :: y :: l'
  end.

Definition sort_desc (l : list fact) : list fact :=
  fold_right insert_desc [] l.

(** [extract_quarterly_data]: the argument is [None] when the metric is not
    in [us_gaap] (or the lookups raise [KeyError]/[TypeError]), and
    [Some metric_data] for the list found under the requested unit. *)
Definition extract_quarterly_data (metric_data : option (list fact))
  : list fact * bool :=
  match metric_data with
  | None => ([], false)
  | Some metric_data =>
      let data := List.filter is_10Q_or_10K metric_data in
      (sort_desc data, true)
  end.

(** [format_value]: [float(value)], the identity on the integers a double
    represents exactly. *)
Definition format_value (value : option Z) : option Z := value.

(** The dictionary stored under [fiscal_years[fy][key]]. *)
Record entry : Type := {
  e_value : option Z;
  e_end_date : string;
  e_filed : option string;
  e_fp : string
}.

(** Body of the loop [for item in all_data] of [process_company]. *)
Definition store_fact (fiscal_years : gmap Z (gmap string entry)) (item : fact)
  : result (gmap Z (gmap string entry)) :=
  match fy item, end_ item with
  | Some y, Some end_date =>
      if (y =? 0) || negb (Py.truthy_str end_date) then Ok fiscal_years
      else
        let fp := default "FY" (fp item) in
        let year_data := default ∅ (fiscal_years !! y) in
        let key := if negb (String.eqb fp "FY") then fp else "FY" in
        let new := {| e_value := val item; e_end_date := end_date;
                      e_filed := filed item; e_fp := fp |} in
        match year_data !! key with
        | None => Ok (<[y := <[key := new]> year_data]> fiscal_years)
        | Some old =>
            let* newer := Py.gt (filed item) (e_filed old) in
            Ok (if newer : bool
                then <[y := <[key := new]> year_data]> fiscal_years
                else fiscal_years)
        end
  | _, _ => Ok fiscal_years
  end.

Fixpoint collect (fiscal_years : gmap Z (gmap string entry))
  (all_data : list fact) : result (gmap Z (gmap string entry)) :=
  match all_data with
  | [] => Ok fiscal_years
  | item :: rest =>
      let* fiscal_years' := store_fact fiscal_years item in
      collect fiscal_years' rest
  end.

(** Rows handed to [insert_data]; company, statement and unit are the same
    for all rows of one metric and are left out. *)
Inductive value_type : Type := YTD | Quarterly | Full_Year.

Record row : Type := {
  r_fy : Z;
  r_fp : string;
  r_end_date : string;
  r_filed : option string;
  r_value_type : value_type;
  r_value : option Z
}.

Record emit_state : Type := {
  rows : list row;
  quarters_shown : nat;
  ytd_shown : bool
}.

Definition quarters : list string := ["Q4"; "Q3"; "Q2"; "Q1"].

(** [{'Q4': 'Q3', 'Q3': 'Q2', 'Q2': 'Q1', 'Q1': None}[q]] *)
Definition prev_q (q : string) : option string :=
  if String.eqb q "Q4" then Some "Q3"
  else if String.eqb q "Q3" then Some "Q2"
  else if String.eqb q "Q2" then Some "Q1"
  else None.

(** The value inserted as 'Quarterly' for quarter [q]. *)
Definition quarterly_value (year_data : gmap string entry) (q : string)
  (q_data : entry) : option Z :=
  let quarterly_value := e_value q_data in
  match prev_q q with
  | Some prev_q =>
      match year_data !! prev_q with
      | Some prev_data =>
          let prev_value := e_value prev_data in
          if Py.truthy_int prev_value && Py.truthy_int quarterly_value then
            match quarterly_value, prev_value with
            | Some v, Some p => Some (v - p)
            | _, _ => quarterly_value
            end
          else quarterly_value
      | None => quarterly_value
      end
  | None => quarterly_value
  end.

Definition add_row (s : emit_state) (r : row) (shown : nat) (ytd : bool)
  : emit_state :=
  {| rows := (rows s ++ [r])%list; quarters_shown := shown; ytd_shown := ytd |}.

(** [if not ytd_shown: ...] *)
Definition emit_ytd (y : Z) (year_data : gmap string entry) (s : emit_state)
  : emit_state :=
  if ytd_shown s then s
  else
    match List.find (fun q => bool_decide (is_Some (year_data !! q))) quarters with
    | Some latest_q =>
        match year_data !! latest_q with
        | Some q_data =>
            add_row s {| r_fy := y; r_fp := latest_q;
                         r_end_date := e_end_date q_data;
                         r_filed := e_filed q_data; r_value_type := YTD;
                         r_value := format_value (e_value q_data) |}
                    (quarters_shown s) true
        | None => s
        end
    | None => s
    end.

(** One iteration of [for q in ['Q4', 'Q3', 'Q2', 'Q1']]; after the
    [break] the remaining iterations do nothing. *)
Definition emit_quarter (y : Z) (year_data : gmap string entry)
  (s : emit_state) (q : string) : emit_state :=
  if (NUM_QUARTERS <=? quarters_shown s)%nat then s
  else
    match year_data !! q with
    | Some q_data =>
        add_row s {| r_fy := y; r_fp := q; r_end_date := e_end_date q_data;
                     r_filed := e_filed q_data; r_value_type := Quarterly;
                     r_value := format_value (quarterly_value year_data q q_data) |}
                (S (quarters_shown s)) (ytd_shown s)
    | None => s
    end.

(** One iteration of [for fy in sorted_years]. *)
Definition emit_year (fiscal_years : gmap Z (gmap string entry))
  (s : emit_state) (y : Z) : emit_state :=
  if (NUM_QUARTERS <=? quarters_shown s)%nat then s
  else
    let year_data := default ∅ (fiscal_years !! y) in
    let s1 := emit_ytd y year_data s in
    let s2 := fold_left (emit_quarter y year_data) quarters s1 in
    match year_data !! "FY" with
    | Some fy_data =>
        if (quarters_shown s2 <? NUM_QUARTERS)%nat then
          add_row s2 {| r_fy := y; r_fp := "FY";
                        r_end_date := e_end_date fy_data;
                        r_filed := e_filed fy_data; r_value_type := Full_Year;
                        r_value := format_value (e_value fy_data) |}
                  (quarters_shown s2) (ytd_shown s2)
        else s2
    | None => s2
    end.

(** [sorted(fiscal_years.keys(), reverse=True)] *)
Fixpoint insert_year (y : Z) (l : list Z) : list Z :=
  match l with
  | [] => [y]
  | x :: l' => if y <? x then x :: insert_year y l' else y :: x :: l'
  end.

Definition sorted_years (fiscal_years : gmap Z (gmap string entry)) : list Z :=
  fold_right insert_year [] (elements (dom fiscal_years)).

Definition emit (fiscal_years : gmap Z (gmap string entry)) : list row :=
  rows (fold_left (emit_year fiscal_years) (sorted_years fiscal_years)
          {| rows := []; quarters_shown := 0; ytd_shown := false |}).

(** The body of [process_company] for one metric: the rows inserted, or
    the exception that escapes. *)
Definition process_metric (metric_data : option (list fact))
  : result (list row) :=
  let '(all_data, found) := extract_quarterly_data metric_data in
  if found && negb (Nat.eqb (length all_data) 0) then
    let* fiscal_years := collect ∅ all_data in
    Ok (emit fiscal_years)
  else Ok [].

End Teste2.

(** ** src/Quant/Aquisição/Teste2.py *)

Module DirectSearch.

Definition is_space (c : ascii) : bool :=
  let n := N_of_ascii c in
  ((9 <=? n) && (n <=? 13) || (28 <=? n) && (n <=? 32))%N.

Fixpoint lstrip (s : string) : string :=
  match s with
  | String c s' => if is_space c then lstrip s' else s
  | EmptyString => EmptyString
  end.

Definition str_rev (s : string) : string :=
  string_of_list_ascii (List.rev (list_ascii_of_string s)).

(** [s.strip()] on ASCII text *)
Definition strip (s : string) : string := str_rev (lstrip (str_rev (lstrip s))).

Definition startswith (c : ascii) (s : string) : bool :=
  match s with
  | String c' _ => Ascii.eqb c' c
  | EmptyString => false
  end.

Definition endswith (c : ascii) (s : string) : bool := startswith c (str_rev s).

(** [s[1:-1]] *)
Definition slice_1_m1 (s : string) : string :=
  string_of_list_ascii (removelast (List.tl (list_ascii_of_string s))).

Section Search.

(** [re.findall(pattern, content, re.IGNORECASE)]: the captured group of
    each match, in document order. *)
Variable findall : string -> string -> list string.

(** [float] of the text between two tags. *)
Variable float : string -> option Q.

(** The body of the [try] block for one match: the value it reads, if the
    text is not empty and [float] accepts it. *)
Definition read_value (match_ : string) : option Q :=
  let value_text := strip match_ in
  if negb (Py.truthy_str value_text) then None
  else
    let value_text := Py.remove_commas value_text in
    let is_negative := startswith "(" value_text && endswith ")" value_text in
    let value_text := if is_negative then slice_1_m1 value_text else value_text in
    match float value_text with
    | Some value => Some (if is_negative then - value else value)%Q
    | None => None
    end.

(** [abs(value) > 0.01] *)
Definition significant (value : Q) : bool := Py.Qltb (1 # 100) (Qabs value).

(** [for match in matches]: the value assigned to [values[tag]] before the
    [break], if any. *)
Fixpoint first_significant (matches : list string) : option Q :=
  match matches with
  | [] => None
  | match_ :: rest =>
      match read_value match_ with
      | Some value =>
          if significant value then Some value else first_significant rest
      | None => first_significant rest
      end
  end.

Definition patterns (tag : string) : list string :=
  [ "<us-gaap:" +:+ tag +:+ "[^>]*>([^<]+)</us-gaap:" +:+ tag +:+ ">";
    "<" +:+ tag +:+ "[^>]*>([^<]+)</" +:+ tag +:+ ">";
    "<[^>]*:" +:+ tag +:+ "[^>]*>([^<]+)</[^>]*:" +:+ tag +:+ ">" ].

(** [for pattern in patterns] for one tag. *)
Definition search_tag (content : string) (values : gmap string Q)
  (tag : string) : gmap string Q :=
  fold_left
    (fun values pattern =>
       match first_significant (findall pattern content) with
       | Some value => <[tag := value]> values
       | None => values
       end)
    (patterns tag) values.

Definition extract_values_direct_search (content : string)
  (tag_variations : list string) : gmap string Q :=
  fold_left (search_tag content) tag_variations ∅.

End Search.

End DirectSearch.

(** ** src/Quant/Aquisição/Clear_Data.py *)

Module ClearData.

(** [if value < 1000 and value > 0: value = value * 1000000] *)
Definition scale (value : Q) : Q :=
  if Py.Qltb value 1000 && Py.Qltb 0 value then (value * 1000000)%Q else value.

Definition income_patterns : list (string * list string) :=
  [ ("revenue",
      [ "Total revenue\s*[\$]?\s*([\d,]+\.?\d*)";
        "Revenue\s*[\$]?\s*([\d,]+\.?\d*)";
        "Net sales\s*[\$]?\s*([\d,]+\.?\d*)";
        "Sales.*?[\$]?\s*([\d,]+\.?\d*)" ]);
    ("gross_profit",
      [ "Gross profit\s*[\$]?\s*([\d,]+\.?\d*)";
        "Gross margin\s*[\$]?\s*([\d,]+\.?\d*)" ]);
    ("operating_income",
      [ "Operating income\s*[\$]?\s*([\d,]+\.?\d*)";
        "Income from operations\s*[\$]?\s*([\d,]+\.?\d*)" ]);
    ("net_income",
      [ "Net income\s*[\$]?\s*([\d,]+\.?\d*)";
        "Net earnings\s*[\$]?\s*([\d,]+\.?\d*)";
        "Net loss\s*[\$]?\s*([\d,]+\.?\d*)" ]);
    ("cost_of_revenue",
      [ "Cost of revenue\s*[\$]?\s*([\d,]+\.?\d*)";
        "Cost of sales\s*[\$]?\s*([\d,]+\.?\d*)";
        "Cost of goods sold\s*[\$]?\s*([\d,]+\.?\d*)" ]);
    ("research_development",
      [ "Research and development\s*[\$]?\s*([\d,]+\.?\d*)";
        "R&D\s*[\$]?\s*([\d,]+\.?\d*)" ]);
    ("selling_general_admin",
      [ "Selling, general and administrative\s*[\$]?\s*([\d,]+\.?\d*)";
        "SG&A\s*[\$]?\s*([\d,]+\.?\d*)" ]) ].

Definition balance_patterns : list (string * list string) :=
  [ ("total_assets",
      [ "Total assets\s*[\$]?\s*([\d,]+\.?\d*)";
        "Total Assets\s*[\$]?\s*([\d,]+\.?\d*)" ]);
    ("total_liabilities",
      [ "Total liabilities\s*[\$]?\s*([\d,]+\.?\d*)";
        "Total Liabilities\s*[\$]?\s*([\d,]+\.?\d*)" ]);
    ("cash",
      [ "Cash and cash equivalents\s*[\$]?\s*([\d,]+\.?\d*)";
        "Cash\s*[\$]?\s*([\d,]+\.?\d*)";
        "Cash and equivalents\s*[\$]?\s*([\d,]+\.?\d*)" ]);
    ("accounts_receivable",
      [ "Accounts receivable\s*[\$]?\s*([\d,]+\.?\d*)";
        "Receivables\s*[\$]?\s*([\d,]+\.?\d*)" ]);
    ("inventory",
      [ "Inventory\s*[\$]?\s*([\d,]+\.?\d*)";
        "Inventories\s*[\$]?\s*([\d,]+\.?\d*)" ]);
    ("property_plant_equipment",
      [ "Property, plant and equipment\s*[\$]?\s*([\d,]+\.?\d*)";
        "PP&E\s*[\$]?\s*([\d,]+\.?\d*)" ]);
    ("total_debt",
      [ "Total debt\s*[\$]?\s*([\d,]+\.?\d*)";
        "Debt\s*[\$]?\s*([\d,]+\.?\d*)" ]);
    ("accounts_payable",
      [ "Accounts payable\s*[\$]?\s*([\d,]+\.?\d*)" ]) ].

Definition cash_flow_patterns : list (string * list string) :=
  [ ("operating_cash_flow",
      [ "Net cash provided by operating activities\s*[\$]?\s*([\d,]+\.?\d*)";
        "Cash from operating activities\s*[\$]?\s*([\d,]+\.?\d*)";
        "Operating cash flow\s*[\$]?\s*([\d,]+\.?\d*)" ]);
    ("investing_cash_flow",
      [ "Net cash used in investing activities\s*[\$]?\s*([\d,]+\.?\d*)";
        "Cash from investing activities\s*[\$]?\s*([\d,]+\.?\d*)" ]);
    ("financing_cash_flow",
      [ "Net cash used in financing activities\s*[\$]?\s*([\d,]+\.?\d*)";
        "Cash from financing activities\s*[\$]?\s*([\d,]+\.?\d*)" ]);
    ("capital_expenditures",
      [ "Capital expenditures\s*[\$]?\s*([\d,]+\.?\d*)";
        "CAPEX\s*[\$]?\s*([\d,]+\.?\d*)";
        "Purchase of property and equipment\s*[\$]?\s*([\d,]+\.?\d*)" ]);
    ("free_cash_flow",
      [ "Free cash flow\s*[\$]?\s*([\d,]+\.?\d*)" ]) ].

Section Extract.

(** [re.findall(pattern, content, re.IGNORECASE | re.MULTILINE)]: the
    captured group of each match, in document order. *)
Variable findall : string -> string -> list string.

(** [for pattern in pattern_list]: the value stored for the field before
    the [break], if any.  The captured text holds digits, commas and at
    most one dot, which [Py.float] reads as Python does. *)
Fixpoint extract_field (content : string) (pattern_list : list string)
  : option Q :=
  match pattern_list with
  | [] => None
  | pattern :: rest =>
      match last (findall pattern content) with
      | Some value_str =>
          match Py.float (Py.remove_commas value_str) with
          | Some value => Some (scale value)
          | None => extract_field content rest
          end
      | None => extract_field content rest
      end
  end.

(** [for field, pattern_list in patterns.items()] *)
Definition extract_fields (content : string)
  (patterns : list (string * list string)) : gmap string Q :=
  fold_left
    (fun data fp =>
       match extract_field content (snd fp) with
       | Some value => <[fst fp := value]> data
       | None => data
       end)
    patterns ∅.

Definition extract_income_statement_generic (content : string)
  : gmap string Q :=
  let income_data := extract_fields content income_patterns in
  match income_data !! "revenue", income_data !! "cost_of_revenue" with
  | Some revenue, Some cost_of_revenue =>
      <["gross_profit_calculated" := (revenue - cost_of_revenue)%Q]> income_data
  | _, _ => income_data
  end.

Definition extract_balance_sheet_generic (content : string)
  : gmap string Q :=
  let balance_data := extract_fields content balance_patterns in
  match balance_data !! "total_assets", balance_data !! "total_liabilities" with
  | Some total_assets, Some total_liabilities =>
      <["total_equity" := (total_assets - total_liabilities)%Q]> balance_data
  | _, _ => balance_data
  end.

Definition extract_cash_flow_generic (content : string) : gmap string Q :=
  let cash_flow_data := extract_fields content cash_flow_patterns in
  match cash_flow_data !! "free_cash_flow",
        cash_flow_data !! "operating_cash_flow",
        cash_flow_data !! "capital_expenditures" with
  | None, Some operating_cash_flow, Some capital_expenditures =>
      <["free_cash_flow_calculated" :=
          (operating_cash_flow + capital_expenditures)%Q]> cash_flow_data
  | _, _, _ => cash_flow_data
  end.

End Extract.

(** Values of the record built for the CSV: text or number. *)
Inductive pyval : Type :=
| PStr (s : string)
| PNum (q : Q).

(** [d.get(k, dflt)] *)
Definition get {V : Type} (d : gmap string V) (k : string) (dflt : V) : V :=
  default dflt (d !! k).

Definition prepare_data_for_csv_generic (period : gmap string string)
  (income_data balance_data cash_flow_data : gmap string Q) (ticker : string)
  : gmap string pyval :=
  let revenue := get income_data "revenue" 0%Q in
  let gross_profit :=
    get income_data "gross_profit" (get income_data "gross_profit_calculated" 0%Q) in
  let net_income := get income_data "net_income" 0%Q in
  let operating_income := get income_data "operating_income" 0%Q in
  let total_assets := get balance_data "total_assets" 0%Q in
  let total_liabilities := get balance_data "total_liabilities" 0%Q in
  let total_equity := get balance_data "total_equity" 0%Q in
  let total_debt := get balance_data "total_debt" 0%Q in
  let operating_cash_flow := get cash_flow_data "operating_cash_flow" 0%Q in
  let capital_expenditures := Qabs (get cash_flow_data "capital_expenditures" 0%Q) in
  let free_cash_flow :=
    get cash_flow_data "free_cash_flow"
      (get cash_flow_data "free_cash_flow_calculated" 0%Q) in
  let fiscal_year := get period "fiscal_year" "2024" in
  let fiscal_quarter := get period "fiscal_quarter" "Q1" in
  Py.dict_of
    [ ("ticker", PStr ticker);
      ("year", PStr fiscal_year);
      ("quarter", PStr fiscal_quarter);
      ("sector", PStr "Technology");
      ("revenue", PNum revenue);
      ("gross_profit", PNum gross_profit);
      ("ebitda", PNum operating_income);
      ("net_income", PNum net_income);
      ("total_assets", PNum total_assets);
      ("total_liabilities", PNum total_liabilities);
      ("total_debt", PNum total_debt);
      ("capex", PNum capital_expenditures);
      ("free_cash_flow", PNum free_cash_flow);
      ("operating_cash_flow", PNum operating_cash_flow);
      ("cogs", PNum (get income_data "cost_of_revenue" 0%Q));
      ("sga_expense", PNum (get income_data "selling_general_admin" 0%Q));
      ("rd_expense", PNum (get income_data "research_development" 0%Q));
      ("operating_income", PNum operating_income) ].

End ClearData.

(** ** The ratio dictionaries of Data_to_db.py and get_data.py *)

Module Ratios.

(** [a - b]; a [None] operand raises [TypeError]. *)
Definition sub (a b : option Q) : result Q :=
  match a, b with
  | Some x, Some y => Ok (x - y)%Q
  | _, _ => Raise TypeError
  end.

(** [a / b], Python's true division. *)
Definition truediv (a b : option Q) : result Q :=
  match a, b with
  | Some x, Some y =>
      if Qeq_bool y 0 then Raise ZeroDivisionError else Ok (x / y)%Q
  | _, _ => Raise TypeError
  end.

(** An operand used as it is. *)
Definition operand (a : option Q) : result Q :=
  match a with
  | Some x => Ok x
  | None => Raise TypeError
  end.

(** One entry [name: numerator / denominator if denominator else 0] of
    the dictionary; [percent] marks the entries written
    [(numerator / denominator * 100) if denominator else 0].  The
    numerator is only evaluated when the denominator is true. *)
Record ratio_expr : Type := {
  name : string;
  numerator : result Q;
  denominator : option Q;
  percent : bool
}.

Definition eval_ratio (r : ratio_expr) : result Q :=
  if Py.truthy_num (denominator r) then
    let* n := numerator r in
    let* q := truediv (Some n) (denominator r) in
    Ok (if percent r then q * 100 else q)%Q
  else Ok 0%Q.

(** The entries are evaluated in the order of the dictionary display; the
    first exception ends the evaluation. *)
Fixpoint eval_all (l : list ratio_expr) : result (list (string * option Q)) :=
  match l with
  | [] => Ok []
  | r :: rest =>
      let* v := eval_ratio r in
      let* vs := eval_all rest in
      Ok ((name r, Some v) :: vs)
  end.

(** [d.get(k, dflt)] on a parsed JSON object; a value is [None] for a
    JSON null. *)
Definition get (d : gmap string (option Q)) (k : string) (dflt : option Q)
  : option Q :=
  default dflt (d !! k).

(** A row of [financial_statements]; a column is [None] when it is NULL. *)
Record financial_row : Type := {
  total_assets : option Q;
  total_liabilities : option Q;
  total_debt : option Q;
  revenue : option Q;
  gross_profit : option Q;
  ebitda : option Q;
  net_income : option Q;
  operating_cash_flow : option Q;
  free_cash_flow : option Q
}.

Module DataToDb.

(** The entries with a denominator of [calculate_financial_ratios], for
    one row and its balance sheet. *)
Definition ratio_exprs (row : financial_row)
  (balance_data : gmap string (option Q)) : list ratio_expr :=
  let current_assets :=
    get balance_data "CurrentAssets" (get balance_data "TotalCurrentAssets" (Some 0%Q)) in
  let current_liabilities :=
    get balance_data "CurrentLiabilities"
      (get balance_data "TotalCurrentLiabilities" (Some 0%Q)) in
  let cash := get balance_data "CashAndCashEquivalents" (Some 0%Q) in
  let inventory := get balance_data "Inventory" (Some 0%Q) in
  let receivables :=
    get balance_data "AccountsReceivable"
      (get balance_data "AccountsReceivableNet" (Some 0%Q)) in
  let total_equity :=
    get balance_data "TotalEquity" (get balance_data "StockholdersEquity" (Some 0%Q)) in
  [ Build_ratio_expr "current_ratio" (operand current_assets) current_liabilities false;
    Build_ratio_expr "quick_ratio" (sub current_assets inventory) current_liabilities false;
    Build_ratio_expr "cash_ratio" (operand cash) current_liabilities false;
    Build_ratio_expr "debt_to_equity" (operand (total_debt row)) total_equity false;
    Build_ratio_expr "debt_to_assets" (operand (total_debt row)) (total_assets row) false;
    Build_ratio_expr "equity_multiplier" (operand (total_assets row)) total_equity false;
    Build_ratio_expr "roe" (operand (net_income row)) total_equity false;
    Build_ratio_expr "roa" (operand (net_income row)) (total_assets row) false;
    Build_ratio_expr "return_on_tangible_equity" (operand (net_income row)) total_equity false;
    Build_ratio_expr "gross_margin" (operand (gross_profit row)) (revenue row) true;
    Build_ratio_expr "operating_margin" (operand (net_income row)) (revenue row) true;
    Build_ratio_expr "net_margin" (operand (net_income row)) (revenue row) true;
    Build_ratio_expr "asset_turnover" (operand (revenue row)) (total_assets row) false;
    Build_ratio_expr "inventory_turnover" (operand (revenue row)) inventory false;
    Build_ratio_expr "receivables_turnover" (operand (revenue row)) receivables false;
    Build_ratio_expr "operating_cash_flow_ratio" (operand (operating_cash_flow row))
      current_liabilities false;
    Build_ratio_expr "free_cash_flow_margin" (operand (free_cash_flow row)) (revenue row) true ].

(** The dictionary [ratios] of [calculate_financial_ratios] (without the
    identifying keys), as the list of its items. *)
Definition ratios (row : financial_row) (balance_data : gmap string (option Q))
  : result (list (string * option Q)) :=
  let current_assets :=
    get balance_data "CurrentAssets" (get balance_data "TotalCurrentAssets" (Some 0%Q)) in
  let current_liabilities :=
    get balance_data "CurrentLiabilities"
      (get balance_data "TotalCurrentLiabilities" (Some 0%Q)) in
  let cash := get balance_data "CashAndCashEquivalents" (Some 0%Q) in
  let* with_denominator := eval_all (ratio_exprs row balance_data) in
  let* working_capital := sub current_assets current_liabilities in
  let* net_debt := sub (total_debt row) cash in
  Ok (with_denominator ++
      [("working_capital", Some working_capital); ("net_debt", Some net_debt)])%list.

End DataToDb.

Module GetData.

(** The entries with a denominator of [calculate_and_save_ratios]; the row
    supplies [revenue], [gross_profit], [ebitda], [net_income],
    [operating_cash_flow] and [free_cash_flow], the rest comes from the
    balance sheet. *)
Definition ratio_exprs (row : financial_row)
  (balance_data : gmap string (option Q)) : list ratio_expr :=
  let current_assets := get balance_data "Current Assets" (Some 0%Q) in
  let current_liabilities := get balance_data "Current Liabilities" (Some 0%Q) in
  let cash := get balance_data "Cash And Cash Equivalents" (Some 0%Q) in
  let inventory := get balance_data "Inventory" (Some 0%Q) in
  let receivables := get balance_data "Receivables" (Some 0%Q) in
  let total_assets := get balance_data "Total Assets" (Some 0%Q) in
  let total_equity := get balance_data "Total Equity Gross Minority Interest" (Some 0%Q) in
  let tangible_book_value := get balance_data "Tangible Book Value" total_equity in
  let total_debt := get balance_data "Total Debt" (Some 0%Q) in
  [ Build_ratio_expr "current_ratio" (operand current_assets) current_liabilities false;
    Build_ratio_expr "quick_ratio" (sub current_assets inventory) current_liabilities false;
    Build_ratio_expr "cash_ratio" (operand cash) current_liabilities false;
    Build_ratio_expr "debt_to_equity" (operand total_debt) total_equity false;
    Build_ratio_expr "debt_to_assets" (operand total_debt) total_assets false;
    Build_ratio_expr "equity_multiplier" (operand total_assets) total_equity false;
    Build_ratio_expr "roe" (operand (net_income row)) total_equity false;
    Build_ratio_expr "roa" (operand (net_income row)) total_assets false;
    Build_ratio_expr "return_on_tangible_equity" (operand (net_income row))
      tangible_book_value false;
    Build_ratio_expr "gross_margin" (operand (gross_profit row)) (revenue row) true;
    Build_ratio_expr "operating_margin" (operand (ebitda row)) (revenue row) true;
    Build_ratio_expr "net_margin" (operand (net_income row)) (revenue row) true;
    Build_ratio_expr "asset_turnover" (operand (revenue row)) total_assets false;
    Build_ratio_expr "inventory_turnover" (operand (revenue row)) inventory false;
    Build_ratio_expr "receivables_turnover" (operand (revenue row)) receivables false;
    Build_ratio_expr "operating_cash_flow_ratio" (operand (operating_cash_flow row))
      current_liabilities false;
    Build_ratio_expr "free_cash_flow_margin" (operand (free_cash_flow row)) (revenue row) true ].

(** The dictionary [ratios] of [calculate_and_save_ratios] (without the
    identifying keys), as the list of its items. *)
Definition ratios (row : financial_row) (balance_data : gmap string (option Q))
  : result (list (string * option Q)) :=
  let working_capital := get balance_data "Working Capital" (Some 0%Q) in
  let net_debt := get balance_data "Net Debt" (Some 0%Q) in
  let* with_denominator := eval_all (ratio_exprs row balance_data) in
  Ok (with_denominator ++
      [("working_capital", working_capital); ("net_debt", net_debt)])%list.

End GetData.

End Ratios.

(** * Specification vocabulary *)

Module Spec.

Import Teste2.

(** The slot [(fy, key)] of [fiscal_years] a fact is stored under, when
    the loop does not skip it. *)
Definition period_of (item : fact) : option (Z * string) :=
  match fy item, end_ item with
  | Some y, Some end_date =>
      if (y =? 0) || negb (Py.truthy_str end_date) then None
      else Some (y, default "FY" (fp item))
  | _, _ => None
  end.

(** What the loop stores for a fact it keeps. *)
Definition entry_of (item : fact) : entry :=
  {| e_value := val item; e_end_date := default "" (end_ item);
     e_filed := filed item; e_fp := default "FY" (fp item) |}.

Definition in_period (kk : Z * string) (item : fact) : bool :=
  bool_decide (period_of item = Some kk).

(** The duplicates of one period, in the order the loop meets them. *)
Definition group (kk : Z * string) (l : list fact) : list fact :=
  List.filter (in_period kk) l.

(** The tie-break on one slot, fact after fact. *)
Definition keep (cur : option entry) (item : fact) : result (option entry) :=
  match cur with
  | None => Ok (Some (entry_of item))
  | Some old =>
      let* newer := Py.gt (filed item) (e_filed old) in
      Ok (Some (if newer : bool then entry_of item else old))
  end.

Fixpoint pick (cur : option entry) (g : list fact) : result (option entry) :=
  match g with
  | [] => Ok cur
  | item :: rest => let* cur' := keep cur item in pick cur' rest
  end.

Definition lookup2 (fiscal_years : gmap Z (gmap string entry))
  (kk : Z * string) : option entry :=
  fiscal_years !! fst kk ≫= (fun year_data => year_data !! snd kk).

(** [filed y < filed b] and [filed y <= filed b] on facts whose filing
    dates are present. *)
Definition filed_lt (y b : fact) : Prop :=
  match filed y, filed b with
  | Some fy, Some fb => String.compare fy fb = Lt
  | _, _ => False
  end.

Definition filed_le (y b : fact) : Prop :=
  match filed y, filed b with
  | Some fy, Some fb => String.compare fy fb <> Gt
  | _, _ => False
  end.

(** The order the sort establishes between neighbours and beyond. *)
Definition key_ge (a b : fact) : Prop :=
  key_compare (sort_key a) (sort_key b) <> Lt.

(** Every year present in [fiscal_years] holds at least one period. *)
Definition no_empty (fiscal_years : gmap Z (gmap string entry)) : Prop :=
  forall y year_data, fiscal_years !! y = Some year_data -> year_data <> ∅.

(** The 'Quarterly' row of quarter [q], carrying [value]. *)
Definition quarterly_row (y : Z) (q : string) (q_data : entry)
  (value : option Z) : row :=
  {| r_fy := y; r_fp := q; r_end_date := e_end_date q_data;
     r_filed := e_filed q_data; r_value_type := Quarterly; r_value := value |}.

(** The facts as the loop of [process_company] meets them. *)
Definition all_data_of (metric_data : list fact) : list fact :=
  fst (extract_quarterly_data (Some metric_data)).

(** No two facts of one period agree on both dates and differ in value. *)
Definition no_tie (l : list fact) : Prop :=
  forall x y kk, In x l -> In y l ->
    period_of x = Some kk -> period_of y = Some kk ->
    end_ x = end_ y -> filed x = filed y -> val x = val y.

(** A pattern is successful on a content when it matches somewhere and its
    last match reads as a number. *)
Definition successful (findall : string -> string -> list string)
  (content pattern : string) : Prop :=
  exists value_str value,
    last (findall pattern content) = Some value_str /\
    Py.float (Py.remove_commas value_str) = Some value.

(** A tag has a significant match when one of its patterns matches a text
    that reads as a number above the threshold. *)
Definition has_significant (findall : string -> string -> list string)
  (float : string -> option Q) (content tag : string) (value : Q) : Prop :=
  exists pattern match_,
    In pattern (DirectSearch.patterns tag) /\
    In match_ (findall pattern content) /\
    DirectSearch.read_value float match_ = Some value /\
    DirectSearch.significant value = true.

(** The three statements of the free-text path, their pattern tables and
    their extraction functions. *)
Inductive statement : Type := Income | Balance | CashFlow.

Definition patterns_of (st : statement) : list (string * list string) :=
  match st with
  | Income => ClearData.income_patterns
  | Balance => ClearData.balance_patterns
  | CashFlow => ClearData.cash_flow_patterns
  end.

Definition extract_of (findall : string -> string -> list string)
  (st : statement) (content : string) : gmap string Q :=
  match st with
  | Income => ClearData.extract_income_statement_generic findall content
  | Balance => ClearData.extract_balance_sheet_generic findall content
  | CashFlow => ClearData.extract_cash_flow_generic findall content
  end.

(** What the three patterns of one tag leave in [values[tag]], if
    anything. *)
Definition tag_result (findall : string -> string -> list string)
  (float : string -> option Q) (content tag : string) : option Q :=
  fold_left
    (fun acc pattern =>
       match DirectSearch.first_significant float (findall pattern content) with
       | Some value => Some value
       | None => acc
       end)
    (DirectSearch.patterns tag) None.

(** One iteration of the loop over the fields of a pattern table. *)
Definition field_step (findall : string -> string -> list string)
  (content : string) (data : gmap string Q) (fp : string * list string)
  : gmap string Q :=
  match ClearData.extract_field findall content (snd fp) with
  | Some value => <[fst fp := value]> data
  | None => data
  end.

(** What one pattern of the tag search finds. *)
Definition found (findall : string -> string -> list string)
  (float : string -> option Q) (content pattern : string) : option Q :=
  DirectSearch.first_significant float (findall pattern content).

(** One pattern of a tag, on the value found so far and on [values]. *)
Definition found_step (findall : string -> string -> list string)
  (float : string -> option Q) (content : string) (acc : option Q)
  (pattern : string) : option Q :=
  match found findall float content pattern with
  | Some value => Some value
  | None => acc
  end.

Definition values_step (findall : string -> string -> list string)
  (float : string -> option Q) (content tag : string)
  (values : gmap string Q) (pattern : string) : gmap string Q :=
  match found findall float content pattern with
  | Some value => <[tag := value]> values
  | None => values
  end.

(** A [findall] given by a table: the matches of each pattern on one fixed
    content. *)
Definition findall_of (table : list (string * list string))
  (pattern content : string) : list string :=
  match List.find (fun pm => String.eqb (fst pm) pattern) table with
  | Some pm => snd pm
  | None => []
  end.

Definition mk_fact (form : string) (fy : Z) (fp end_ : string) (val : Z)
  (filed : string) : fact :=
  {| form := Some form; fy := Some fy; fp := Some fp; end_ := Some end_;
     val := Some val; filed := Some filed |}.




(** A field none of whose patterns matches anywhere in the content. *)
Definition unmatched (findall : string -> string -> list string)
  (content : string) (st : statement) (field : string) : Prop :=
  exists pattern_list,
    In (field, pattern_list) (patterns_of st) /\
    forall p, In p pattern_list -> findall p content = [].

(** The columns of the record that hold one extracted field as it is:
    statement, field, column. *)
Definition plain_columns : list (statement * string * string) :=
  [ (Income, "revenue", "revenue");
    (Income, "net_income", "net_income");
    (Income, "operating_income", "operating_income");
    (Income, "operating_income", "ebitda");
    (Income, "cost_of_revenue", "cogs");
    (Income, "selling_general_admin", "sga_expense");
    (Income, "research_development", "rd_expense");
    (Balance, "total_assets", "total_assets");
    (Balance, "total_liabilities", "total_liabilities");
    (Balance, "total_debt", "total_debt");
    (CashFlow, "operating_cash_flow", "operating_cash_flow");
    (CashFlow, "capital_expenditures", "capex") ].

(** The two fields the record reads with a derived field as fallback. *)
Definition fallback_fields : list (statement * string) :=
  [ (Income, "gross_profit"); (CashFlow, "free_cash_flow") ].

(** The fields of the pattern tables the record has no column for. *)
Definition fields_without_column : list (statement * string) :=
  [ (Balance, "cash"); (Balance, "accounts_receivable"); (Balance, "inventory");
    (Balance, "property_plant_equipment"); (Balance, "accounts_payable");
    (CashFlow, "investing_cash_flow"); (CashFlow, "financing_cash_flow") ].

End Spec.

(** Facts and filings used in the examples. *)

Module Examples.

Import Teste2 Spec.

Definition q1_100 : fact := mk_fact "10-Q" 2023 "Q1" "2023-03-31" 100 "2023-04-20".
Definition q2_250 : fact := mk_fact "10-Q" 2023 "Q2" "2023-06-30" 250 "2023-07-20".
Definition q3_400 : fact := mk_fact "10-Q" 2023 "Q3" "2023-09-30" 400 "2023-10-20".
Definition q4_500 : fact := mk_fact "10-K" 2023 "Q4" "2023-12-31" 500 "2024-01-20".
Definition fy_500 : fact := mk_fact "10-K" 2023 "FY" "2023-12-31" 500 "2024-01-20".
Definition q2_0 : fact := mk_fact "10-Q" 2023 "Q2" "2023-06-30" 0 "2023-07-20".

(** Two filings of the same period, the second filed later. *)
Definition dup_10 : fact := mk_fact "10-Q" 2023 "Q1" "2023-03-31" 10 "2023-01-01".
Definition dup_12 : fact := mk_fact "10-Q" 2023 "Q1" "2023-03-31" 12 "2023-04-01".

(** Two filings of the same period with the same filing date. *)
Definition tie_10 : fact := mk_fact "10-Q" 2023 "Q1" "2023-03-31" 10 "2023-04-01".
Definition tie_12 : fact := mk_fact "10-Q" 2023 "Q1" "2023-03-31" 12 "2023-04-01".

(** Two filings of the same period without a filing date. *)
Definition nofiled_10 : fact :=
  {| form := Some "10-Q"; fy := Some 2023; fp := Some "Q1";
     end_ := Some "2023-03-31"; val := Some 10; filed := None |}.
Definition nofiled_12 : fact :=
  {| form := Some "10-Q"; fy := Some 2023; fp := Some "Q1";
     end_ := Some "2023-03-31"; val := Some 12; filed := None |}.

(** [re.findall] on three filing texts, pattern by pattern (the patterns
    that are not listed match nowhere). *)
Definition reported_content : string :=
  "Total revenue 5000 Cost of revenue 3000 Gross profit 2500".

Definition reported_findall : string -> string -> list string :=
  findall_of
    [ ("Total revenue\s*[\$]?\s*([\d,]+\.?\d*)", ["5000"]);
      ("Revenue\s*[\$]?\s*([\d,]+\.?\d*)", ["5000"; "3000"]);
      ("Gross profit\s*[\$]?\s*([\d,]+\.?\d*)", ["2500"]);
      ("Cost of revenue\s*[\$]?\s*([\d,]+\.?\d*)", ["3000"]) ].

Definition zero_content : string := "Total revenue 0 Revenue 500".

Definition zero_findall : string -> string -> list string :=
  findall_of
    [ ("Total revenue\s*[\$]?\s*([\d,]+\.?\d*)", ["0"]);
      ("Revenue\s*[\$]?\s*([\d,]+\.?\d*)", ["0"; "500"]) ].

Definition repeated_content : string := "Revenue 7 Revenue 1.5".

Definition repeated_findall : string -> string -> list string :=
  findall_of [ ("Revenue\s*[\$]?\s*([\d,]+\.?\d*)", ["7"; "1.5"]) ].

Definition xbrl_content : string :=
  "<us-gaap:Revenues>500</us-gaap:Revenues><us-gaap:SalesRevenueNet>700</us-gaap:SalesRevenueNet>".

Definition xbrl_findall : string -> string -> list string :=
  findall_of
    [ ("<us-gaap:Revenues[^>]*>([^<]+)</us-gaap:Revenues>", ["500"]);
      ("<[^>]*:Revenues[^>]*>([^<]+)</[^>]*:Revenues>", ["500"]);
      ("<us-gaap:SalesRevenueNet[^>]*>([^<]+)</us-gaap:SalesRevenueNet>", ["700"]);
      ("<[^>]*:SalesRevenueNet[^>]*>([^<]+)</[^>]*:SalesRevenueNet>", ["700"]) ].

(** [FINANCIAL_TAGS['Revenue']] *)
Definition revenue_tags : list string :=
  [ "RevenueFromContractWithCustomerExcludingAssessedTax"; "Revenues";
    "SalesRevenueNet"; "RevenueFromContractWithCustomer";
    "SalesRevenueGoodsNet"; "SalesRevenueServicesNet" ].

Definition year_2023 (l : list fact) : gmap string entry :=
  Py.dict_of (List.map (fun item => (default "FY" (fp item), entry_of item)) l).


End Examples.

(** * Vocabulary of the further properties *)

Module Props.

Import Teste2 Spec.

Definition is_quarterly (r : row) : bool :=
  match r_value_type r with
  | Quarterly => true
  | _ => false
  end.

Definition is_ytd (r : row) : bool :=
  match r_value_type r with
  | YTD => true
  | _ => false
  end.

(** Whether a quarter has a slot in the year. *)
Definition present (year_data : gmap string entry) (q : string) : bool :=
  bool_decide (is_Some (year_data !! q)).

(** The number of quarter slots of one year, and of all years. *)
Definition quarter_slots (year_data : gmap string entry) : nat :=
  length (List.filter (present year_data) quarters).

Definition total_quarter_slots (fiscal_years : gmap Z (gmap string entry)) : nat :=
  list_sum
    (List.map (fun y => quarter_slots (default ∅ (fiscal_years !! y)))
       (sorted_years fiscal_years)).

(** A row repeats the dates of the slot it was made from, and carries
    the slot's value, differenced for a 'Quarterly' row. *)
Definition row_of_slot (fiscal_years : gmap Z (gmap string entry)) (r : row)
  : Prop :=
  exists e,
    lookup2 fiscal_years (r_fy r, r_fp r) = Some e /\
    r_end_date r = e_end_date e /\ r_filed r = e_filed e /\
    r_value r =
      match r_value_type r with
      | Quarterly =>
          quarterly_value (default ∅ (fiscal_years !! r_fy r)) (r_fp r) e
      | _ => e_value e
      end /\
    match r_value_type r with
    | Full_Year => r_fp r = "FY"
    | _ => In (r_fp r) quarters
    end.

(** A row made in the iteration of fiscal year [y] from [year_data]. *)
Definition year_row (y : Z) (year_data : gmap string entry) (r : row) : Prop :=
  r_fy r = y /\
  exists e,
    year_data !! r_fp r = Some e /\
    r_end_date r = e_end_date e /\ r_filed r = e_filed e /\
    r_value r =
      match r_value_type r with
      | Quarterly => quarterly_value year_data (r_fp r) e
      | _ => e_value e
      end /\
    match r_value_type r with
    | Full_Year => r_fp r = "FY"
    | _ => In (r_fp r) quarters
    end.

(** Rows of a later fiscal year come first. *)
Definition fy_ge (a b : row) : Prop := r_fy b <= r_fy a.

(** A fact the loop of [process_company] does not drop. *)
Definition usable (item : fact) : bool :=
  is_10Q_or_10K item && bool_decide (is_Some (period_of item)).

(** The number of quarter slots of fiscal year [y] and of the later
    years. *)
Definition recent_quarter_slots (fiscal_years : gmap Z (gmap string entry))
  (y : Z) : nat :=
  list_sum
    (List.map (fun y' => quarter_slots (default ∅ (fiscal_years !! y')))
       (List.filter (fun y' => (y <=? y')%Z) (sorted_years fiscal_years))).

End Props.

Module Props2.

Import Spec.

(** The field each extraction function derives from the extracted ones. *)
Definition derived_key (st : statement) : string :=
  match st with
  | Income => "gross_profit_calculated"
  | Balance => "total_equity"
  | CashFlow => "free_cash_flow_calculated"
  end.

(** The characters the capture group of the free-text patterns can hold:
    digits, commas and a dot. *)
Definition unsigned_char (c : ascii) : bool :=
  match Py.digit_of c with
  | Some _ => true
  | None => Ascii.eqb c "." || Ascii.eqb c ","
  end.

Fixpoint unsigned_text (s : string) : bool :=
  match s with
  | String c s' => unsigned_char c && unsigned_text s'
  | EmptyString => true
  end.

(** The keys of the record built by [prepare_data_for_csv_generic]. *)
Definition record_keys : list string :=
  [ "ticker"; "year"; "quarter"; "sector"; "revenue"; "gross_profit";
    "ebitda"; "net_income"; "total_assets"; "total_liabilities";
    "total_debt"; "capex"; "free_cash_flow"; "operating_cash_flow"; "cogs";
    "sga_expense"; "rd_expense"; "operating_income" ].

End Props2.

(** ** Filing dates: src/Quant/Aquisição/Teste2.py and Clear_Data.py *)

Module Periods.

(** The fields of a [datetime] that the code reads. *)
Record datetime : Type := {
  year : Z;
  month : Z;
  day : Z
}.

(** [str(n)] of an [int] *)
Definition str (n : Z) : string :=
  DecimalString.NilZero.string_of_int (Z.to_int n).

Section Dates.

(** [datetime.strptime(text, '%Y-%m-%d')]; [None] when it raises
    [ValueError]. *)
Variable strptime : string -> option datetime.

(** [date.strftime('%B %d, %Y')] *)
Variable strftime : datetime -> string.

(** [determine_quarter] of Teste2.py; [None] when [strptime] raises. *)
Definition determine_quarter (filing_date form_type : string)
  : option (Z * Z) :=
  match strptime filing_date with
  | None => None
  | Some date_obj =>
      let year := year date_obj in
      let month := month date_obj in
      if String.eqb form_type "10-K" then Some (4, year)
      else if (1 <=? month) && (month <=? 3) then Some (1, year)
      else if (4 <=? month) && (month <=? 6) then Some (2, year)
      else if (7 <=? month) && (month <=? 9) then Some (3, year)
      else Some (4, year)
  end.

(** [calculate_fiscal_period_generic] of Clear_Data.py; [//] is the floor
    division of [Z]. *)
Definition calculate_fiscal_period_generic (filing_date : datetime)
  (ticker : string) : gmap string string :=
  let year := year filing_date in
  let quarter := (month filing_date - 1) / 3 + 1 in
  let fiscal_year := year in
  Py.dict_of
    [ ("fiscal_year", str fiscal_year);
      ("fiscal_quarter", "Q" +:+ str quarter);
      ("calendar_year", str year);
      ("calendar_quarter", "Q" +:+ str quarter);
      ("reference_date", strftime filing_date);
      ("period_represented", "Three Months Ended " +:+ strftime filing_date) ].

(** [file_info], as [parse_filename] builds it. *)
Record file_info : Type := {
  ticker : string;
  file_type : string;
  filing_date : string
}.

(** The dictionary [parse_financial_statement_generic] returns. *)
Record parsed : Type := {
  period : gmap string string;
  complete_income_statement : gmap string Q;
  complete_balance_sheet : gmap string Q;
  complete_cash_flow : gmap string Q;
  financial_data : gmap string ClearData.pyval;
  info : file_info
}.

Variable findall : string -> string -> list string.

(** [parse_financial_statement_generic]; [None] is returned by the
    handler of the [try] block, which [strptime] alone can reach. *)
Definition parse_financial_statement_generic (content : string)
  (file_info : file_info) : option parsed :=
  let ticker := ticker file_info in
  let filing_date := filing_date file_info in
  match strptime filing_date with
  | None => None
  | Some filing_date_obj =>
      let period_info := calculate_fiscal_period_generic filing_date_obj ticker in
      let income_data := ClearData.extract_income_statement_generic findall content in
      let balance_data := ClearData.extract_balance_sheet_generic findall content in
      let cash_flow_data := ClearData.extract_cash_flow_generic findall content in
      let financial_data :=
        ClearData.prepare_data_for_csv_generic
          period_info income_data balance_data cash_flow_data ticker in
      Some {| period := period_info;
              complete_income_statement := income_data;
              complete_balance_sheet := balance_data;
              complete_cash_flow := cash_flow_data;
              financial_data := financial_data;
              info := file_info |}
  end.

End Dates.

End Periods.

(** ** src/Quant/Aquisição/get_data.py, the income ratios *)

Module GetDataIncome.

(** A year of the income statement: a value is a number, or [None]. *)
Abbreviation dict := (gmap string (option Q)).

(** [v == 0]; [None == 0] is false. *)
Definition is_zero (v : option Q) : bool :=
  match v with
  | Some q => Qeq_bool q 0
  | None => false
  end.

(** An expression of the [try] block: [None] when evaluating it raises.
    The handler is [except Exception], so the kind of the exception plays
    no part. *)
Definition caught {A : Type} (r : result A) : option A :=
  match r with
  | Ok a => Some a
  | Raise _ => None
  end.

(** [v > 0]; [None > 0] raises. *)
Definition positive (v : option Q) : option bool :=
  match v with
  | Some q => Some (Py.Qltb 0 q)
  | None => None
  end.

(** [(x / revenue * 100) if revenue > 0 else 0] *)
Definition percent_of (x revenue : option Q) : option (option Q) :=
  match positive revenue with
  | None => None
  | Some true =>
      match caught (Ratios.truediv x revenue) with
      | Some q => Some (Some (q * 100)%Q)
      | None => None
      end
  | Some false => Some (Some 0%Q)
  end.

(** The test [previous_year_data and previous_year_data.get('revenue', 0) > 0];
    an empty dictionary is false. *)
Definition has_previous (previous_year_data : option dict) : option bool :=
  match previous_year_data with
  | None => Some false
  | Some previous =>
      if bool_decide (previous = ∅) then Some false
      else positive (Ratios.get previous "revenue" (Some 0%Q))
  end.

(** The value assigned to [revenue_growth]; [previous['revenue']] raises
    when the key is missing. *)
Definition growth (revenue : option Q) (previous_year_data : option dict)
  : option (option Q) :=
  match has_previous previous_year_data with
  | None => None
  | Some true =>
      match previous_year_data ≫= (.!! "revenue") with
      | None => None
      | Some prev_revenue =>
          match caught (Ratios.sub revenue prev_revenue) with
          | None => None
          | Some difference =>
              match caught (Ratios.truediv (Some difference) prev_revenue) with
              | Some q => Some (Some (q * 100)%Q)
              | None => None
              end
          end
      end
  | Some false => Some (Some 0%Q)
  end.

(** The dictionary when the [try] block is left: by its end or its
    [return], or by an exception. *)
Inductive outcome : Type :=
| Done (income_data : dict)
| Failed (income_data : dict).

(** [income_data[key] = e] *)
Definition assign (key : string) (e : option (option Q)) (income_data : dict)
  : outcome :=
  match e with
  | Some v => Done (<[key := v]> income_data)
  | None => Failed income_data
  end.

Definition next (o : outcome) (statement : dict -> outcome) : outcome :=
  match o with
  | Done income_data => statement income_data
  | Failed income_data => Failed income_data
  end.

Definition try_block (income_data : dict) (previous_year_data : option dict)
  : outcome :=
  let revenue := Ratios.get income_data "revenue" (Some 0%Q) in
  if is_zero revenue then Done income_data
  else
    let gross_profit := Ratios.get income_data "gross_profit" (Some 0%Q) in
    let operating_income := Ratios.get income_data "operating_income" (Some 0%Q) in
    let net_income := Ratios.get income_data "net_income" (Some 0%Q) in
    let rd_expense := Ratios.get income_data "rd_expense" (Some 0%Q) in
    let sga_expense := Ratios.get income_data "sga_expense" (Some 0%Q) in
    next (assign "gross_profit_margin" (percent_of gross_profit revenue) income_data)
      (fun income_data =>
    next (assign "operating_profit_margin" (percent_of operating_income revenue) income_data)
      (fun income_data =>
    next (assign "net_profit_margin" (percent_of net_income revenue) income_data)
      (fun income_data =>
    next (assign "rd_percent_revenue" (percent_of rd_expense revenue) income_data)
      (fun income_data =>
    next (assign "sga_percent_revenue" (percent_of sga_expense revenue) income_data)
      (fun income_data =>
    assign "revenue_growth" (growth revenue previous_year_data) income_data))))).

(** [d.update({...})] *)
Definition update (d : dict) (l : list (string * option Q)) : dict :=
  fold_left (fun d kv => <[fst kv := snd kv]> d) l d.

(** [calculate_financial_ratios] of get_data.py *)
Definition calculate_financial_ratios (income_data : dict)
  (previous_year_data : option dict) : dict :=
  match try_block income_data previous_year_data with
  | Done income_data => income_data
  | Failed income_data =>
      update income_data
        [ ("gross_profit_margin", Some 0%Q);
          ("operating_profit_margin", Some 0%Q);
          ("net_profit_margin", Some 0%Q);
          ("rd_percent_revenue", Some 0%Q);
          ("sga_percent_revenue", Some 0%Q);
          ("revenue_growth", Some 0%Q) ]
  end.

End GetDataIncome.

(** ** CIK numbers: src/Quant/Aquisição/Teste2.py, get_company_filings *)

Module Cik.

Fixpoint zeros (n : nat) : string :=
  match n with
  | O => ""
  | S n => String "0" (zeros n)
  end.

(** [s.zfill(width)]: the zeros go after a leading sign, and a text
    already [width] long is returned as it is. *)
Definition zfill (width : nat) (s : string) : string :=
  let fill := zeros (width - String.length s) in
  match s with
  | String c rest =>
      if Ascii.eqb c "+" || Ascii.eqb c "-" then String c (fill +:+ rest)
      else fill +:+ s
  | EmptyString => fill
  end.

(** [s.lstrip('0')] *)
Fixpoint lstrip_zeros (s : string) : string :=
  match s with
  | String c rest => if Ascii.eqb c "0" then lstrip_zeros rest else s
  | EmptyString => EmptyString
  end.

Definition is_digit (c : ascii) : bool :=
  let n := N_of_ascii c in ((48 <=? n) && (n <=? 57))%N.

Fixpoint all_digits (s : string) : bool :=
  match s with
  | String c rest => is_digit c && all_digits rest
  | EmptyString => true
  end.

(** [s.isdigit()] on ASCII text: false for the empty text. *)
Definition isdigit (s : string) : bool :=
  negb (String.eqb s "") && all_digits s.

(** [cik_padded = str(cik).zfill(10)] *)
Definition cik_padded (cik : string) : string := zfill 10 cik.

(** [cik_short = cik_padded.lstrip('0')] *)
Definition cik_short (cik : string) : string := lstrip_zeros (cik_padded cik).

End Cik.

(** ** src/Quant/Aquisição/Teste2.py, from the tags to the table *)

Module Database.

Definition FINANCIAL_TAGS : list (string * list string) :=
  [ ("Revenue",
      [ "RevenueFromContractWithCustomerExcludingAssessedTax";
        "Revenues"; "SalesRevenueNet"; "RevenueFromContractWithCustomer";
        "SalesRevenueGoodsNet"; "SalesRevenueServicesNet" ]);
    ("COGS",
      [ "CostOfGoodsAndServicesSold"; "CostOfRevenue";
        "CostOfGoodsSold"; "CostOfSales" ]);
    ("Gross_Profit", [ "GrossProfit" ]);
    ("RD", [ "ResearchAndDevelopmentExpense"; "ResearchAndDevelopment" ]);
    ("SGA", [ "SellingGeneralAndAdministrativeExpense" ]);
    ("Operating_Income", [ "OperatingIncomeLoss" ]);
    ("Other_Income", [ "NonoperatingIncomeExpense"; "OtherIncomeExpense" ]);
    ("Pretax_Income",
      [ "IncomeLossFromContinuingOperationsBeforeIncomeTaxes";
        "IncomeLossFromContinuingOperationsBeforeIncomeTaxesExtraordinaryItemsNoncontrollingInterest" ]);
    ("Taxes", [ "IncomeTaxExpenseBenefit" ]);
    ("Net_Income", [ "NetIncomeLoss"; "ProfitLoss" ]);
    ("EPS", [ "EarningsPerShareBasic"; "EarningsPerShareBasicAndDiluted" ]);
    ("Cash",
      [ "CashAndCashEquivalentsAtCarryingValue";
        "Cash"; "CashAndCashEquivalents" ]);
    ("Accounts_Receivable",
      [ "AccountsReceivableNetCurrent";
        "AccountsReceivableNet"; "AccountsReceivable" ]);
    ("Inventory", [ "InventoryNet"; "Inventory" ]);
    ("Assets_Current", [ "AssetsCurrent" ]);
    ("PPE", [ "PropertyPlantAndEquipmentNet"; "PropertyPlantAndEquipment" ]);
    ("Total_Assets", [ "Assets" ]);
    ("Accounts_Payable", [ "AccountsPayableCurrent"; "AccountsPayable" ]);
    ("Liabilities_Current", [ "LiabilitiesCurrent" ]);
    ("LongTerm_Debt", [ "LongTermDebtNoncurrent"; "LongTermDebt" ]);
    ("Total_Liabilities", [ "Liabilities" ]);
    ("Net_Income_CF", [ "NetIncomeLoss" ]);
    ("Depreciation", [ "DepreciationDepletionAndAmortization"; "Depreciation" ]);
    ("Net_Cash_Operating", [ "NetCashProvidedByUsedInOperatingActivities" ]);
    ("CAPEX", [ "PaymentsToAcquirePropertyPlantAndEquipment" ]);
    ("Net_Cash_Investing", [ "NetCashProvidedByUsedInInvestingActivities" ]);
    ("Net_Cash_Financing", [ "NetCashProvidedByUsedInFinancingActivities" ]);
    ("Net_Cash_Change",
      [ "CashCashEquivalentsRestrictedCashAndRestrictedCashEquivalentsPeriodIncreaseDecreaseIncludingExchangeRateEffect";
        "IncreaseDecreaseInCashAndCashEquivalents" ]) ].

(** The categories and metrics [extract_financial_data_robust] goes
    through. *)
Definition statements : list (string * list string) :=
  [ ("Income Statement",
      [ "Revenue"; "COGS"; "Gross_Profit"; "RD"; "SGA"; "Operating_Income";
        "Other_Income"; "Pretax_Income"; "Taxes"; "Net_Income"; "EPS" ]);
    ("Balance Sheet",
      [ "Cash"; "Accounts_Receivable"; "Inventory"; "Assets_Current";
        "PPE"; "Total_Assets"; "Accounts_Payable"; "Liabilities_Current";
        "LongTerm_Debt"; "Total_Liabilities" ]);
    ("Cash Flow",
      [ "Net_Income_CF"; "Depreciation"; "Net_Cash_Operating"; "CAPEX";
        "Net_Cash_Investing"; "Net_Cash_Financing"; "Net_Cash_Change" ]) ].

Record filing_info : Type := {
  cik : string;
  company_name : string;
  ticker : string;
  form_type : string;
  filing_date : string;
  quarter : Z;
  year : Z
}.

(** A data point, and a row of [financial_statements] without its [id]
    and [created_date]. *)
Record data_point : Type := {
  dp_cik : string;
  dp_company_name : string;
  dp_ticker : string;
  dp_form_type : string;
  dp_filing_date : string;
  dp_quarter : Z;
  dp_year : Z;
  statement_type : string;
  metric_name : string;
  metric_value : Q;
  unit_ : string;
  context_ref : string
}.

(** [values.items()]: the keys come in the order of their insertion, that
    of [tag_variations], which names no tag twice. *)
Definition items (tag_variations : list string) (values : gmap string Q)
  : list (string * Q) :=
  omap (fun tag => match values !! tag with
                   | Some value => Some (tag, value)
                   | None => None
                   end) tag_variations.

Section Extract.

Variable findall : string -> string -> list string.
Variable float : string -> option Q.

(** Body of [for metric in metrics]. *)
Definition metric_data (content : string) (filing_info : filing_info)
  (statement_type metric : string) : list data_point :=
  match Py.dict_of FINANCIAL_TAGS !! metric with
  | None => []
  | Some tag_variations =>
      let values :=
        DirectSearch.extract_values_direct_search findall float content
          tag_variations in
      List.map
        (fun item =>
           {| dp_cik := cik filing_info;
              dp_company_name := company_name filing_info;
              dp_ticker := ticker filing_info;
              dp_form_type := form_type filing_info;
              dp_filing_date := filing_date filing_info;
              dp_quarter := quarter filing_info;
              dp_year := year filing_info;
              statement_type := statement_type;
              metric_name := metric;
              metric_value := snd item;
              unit_ := "USD";
              context_ref := statement_type +:+ "_" +:+ metric |})
        (items tag_variations values)
  end.

Definition extract_financial_data_robust (content : string)
  (filing_info : filing_info) : list data_point :=
  flat_map
    (fun category =>
       flat_map (metric_data content filing_info (fst category)) (snd category))
    statements.

End Extract.

(** The category [extract_from_html_tables] gives a metric. *)
Definition html_statement_type (metric : string) : string :=
  if existsb (String.eqb metric)
       [ "Revenue"; "COGS"; "Gross_Profit"; "RD"; "SGA";
         "Operating_Income"; "Other_Income"; "Pretax_Income";
         "Taxes"; "Net_Income"; "EPS" ]
  then "Income Statement"
  else if existsb (String.eqb metric)
            [ "Cash"; "Accounts_Receivable"; "Inventory";
              "Assets_Current"; "PPE"; "Total_Assets";
              "Accounts_Payable"; "Liabilities_Current";
              "LongTerm_Debt"; "Total_Liabilities" ]
  then "Balance Sheet"
  else "Cash Flow".

(** The data point [extract_from_html_tables] appends for a metric whose
    term it met in a row, with the value it read in the row. *)
Definition html_data_point (filing_info : filing_info) (metric : string)
  (value : Q) : data_point :=
  {| dp_cik := cik filing_info;
     dp_company_name := company_name filing_info;
     dp_ticker := ticker filing_info;
     dp_form_type := form_type filing_info;
     dp_filing_date := filing_date filing_info;
     dp_quarter := quarter filing_info;
     dp_year := year filing_info;
     statement_type := html_statement_type metric;
     metric_name := metric;
     metric_value := value;
     unit_ := "USD";
     context_ref := "HTML_Table" |}.

(** [UNIQUE(cik, filing_date, statement_type, metric_name, context_ref)] *)
Definition conflict (a b : data_point) : bool :=
  String.eqb (dp_cik a) (dp_cik b) &&
  String.eqb (dp_filing_date a) (dp_filing_date b) &&
  String.eqb (statement_type a) (statement_type b) &&
  String.eqb (metric_name a) (metric_name b) &&
  String.eqb (context_ref a) (context_ref b).

(** [INSERT OR REPLACE]: the rows in conflict with the new one are
    deleted, then it is inserted. *)
Definition insert_or_replace (table : list data_point) (data : data_point)
  : list data_point :=
  (List.filter (fun row => negb (conflict row data)) table ++ [data])%list.

(** [save_to_database], on the table as the list of its rows. *)
Definition save_to_database (data_points : list data_point)
  (table : list data_point) : list data_point :=
  fold_left insert_or_replace data_points table.

End Database.

Module Props3.

(** The keys [calculate_financial_ratios] of get_data.py writes. *)
Definition margin_keys : list string :=
  [ "gross_profit_margin"; "operating_profit_margin"; "net_profit_margin";
    "rd_percent_revenue"; "sga_percent_revenue" ].

Definition ratio_keys : list string := (margin_keys ++ [ "revenue_growth" ])%list.

(** The keys it divides by the revenue. *)
Definition field_keys : list string :=
  [ "gross_profit"; "operating_income"; "net_income"; "rd_expense";
    "sga_expense" ].

(** The data point of a metric with a given value. *)
Definition point (i : Database.filing_info) (statement_type metric : string)
  (value : Q) : Database.data_point :=
  {| Database.dp_cik := Database.cik i;
     Database.dp_company_name := Database.company_name i;
     Database.dp_ticker := Database.ticker i;
     Database.dp_form_type := Database.form_type i;
     Database.dp_filing_date := Database.filing_date i;
     Database.dp_quarter := Database.quarter i;
     Database.dp_year := Database.year i;
     Database.statement_type := statement_type;
     Database.metric_name := metric;
     Database.metric_value := value;
     Database.unit_ := "USD";
     Database.context_ref := statement_type +:+ "_" +:+ metric |}.

(** The rows of a table that a new row of this metric would replace. *)
Definition rows_of (i : Database.filing_info) (statement_type metric : string)
  (table : list Database.data_point) : list Database.data_point :=
  List.filter
    (fun row => Database.conflict row (point i statement_type metric 0%Q))
    table.

(** A row without a NULL among the columns the ratios read. *)
Definition complete (row : Ratios.financial_row) : Prop :=
  is_Some (Ratios.total_assets row) /\
  is_Some (Ratios.total_liabilities row) /\
  is_Some (Ratios.total_debt row) /\
  is_Some (Ratios.revenue row) /\
  is_Some (Ratios.gross_profit row) /\
  is_Some (Ratios.ebitda row) /\
  is_Some (Ratios.net_income row) /\
  is_Some (Ratios.operating_cash_flow row) /\
  is_Some (Ratios.free_cash_flow row).

(** A balance sheet without a JSON null. *)
Definition no_null (balance_data : gmap string (option Q)) : Prop :=
  forall k, balance_data !! k <> Some None.

(** The keys of the dictionary [ratios], after [ticker] and [year]. *)
Definition ratio_names : list string :=
  [ "current_ratio"; "quick_ratio"; "cash_ratio"; "debt_to_equity";
    "debt_to_assets"; "equity_multiplier"; "roe"; "roa";
    "return_on_tangible_equity"; "gross_margin"; "operating_margin";
    "net_margin"; "asset_turnover"; "inventory_turnover";
    "receivables_turnover"; "operating_cash_flow_ratio";
    "free_cash_flow_margin"; "working_capital"; "net_debt" ].

(** A quarterly filing. *)
Definition msft_10q : Database.filing_info :=
  {| Database.cik := "0000789019";
     Database.company_name := "MICROSOFT CORP";
     Database.ticker := "MSFT";
     Database.form_type := "10-Q";
     Database.filing_date := "2024-04-25";
     Database.quarter := 2;
     Database.year := 2024 |}.

End Props3.

(** * Orders *)

Section Comparison.

Context {A : Type} (cmp : A -> A -> comparison).
Hypothesis cmp_eq : forall a b, cmp a b = Eq <-> a = b.
Hypothesis cmp_antisym : forall a b, cmp a b = CompOpp (cmp b a).
Hypothesis cmp_lt_trans : forall a b c, cmp a b = Lt -> cmp b c = Lt -> cmp a c = Lt.

Lemma cmp_refl a : cmp a a = Eq.
Proof. by apply cmp_eq. Qed.

Lemma cmp_gt_lt a b : cmp a b = Gt <-> cmp b a = Lt.
Proof.
  rewrite (cmp_antisym a b). destruct (cmp b a); simpl; split; congruence.
Qed.

Lemma cmp_le_lt_trans a b c : cmp a b <> Gt -> cmp b c = Lt -> cmp a c = Lt.
Proof.
  intros Hab Hbc. destruct (cmp a b) eqn:E; try congruence.
  - apply cmp_eq in E. by subst.
  - eauto.
Qed.

Lemma cmp_lt_le_trans a b c : cmp a b = Lt -> cmp b c <> Gt -> cmp a c = Lt.
Proof.
  intros Hab Hbc. destruct (cmp b c) eqn:E; try congruence.
  - apply cmp_eq in E. by subst.
  - eauto.
Qed.

Lemma cmp_le_trans a b c : cmp a b <> Gt -> cmp b c <> Gt -> cmp a c <> Gt.
Proof.
  intros Hab Hbc. destruct (cmp b c) eqn:E; try congruence.
  - apply cmp_eq in E. by subst.
  - rewrite (cmp_le_lt_trans a b c); congruence.
Qed.

Lemma cmp_le_antisym a b : cmp a b <> Gt -> cmp b a <> Gt -> a = b.
Proof.
  intros Hab Hba. apply cmp_eq.
  destruct (cmp a b) eqn:E; try congruence.
  apply cmp_gt_lt in E. congruence.
Qed.

Lemma cmp_ge_trans a b c : cmp a b <> Lt -> cmp b c <> Lt -> cmp a c <> Lt.
Proof.
  intros Hab Hbc Hac.
  assert (cmp c b <> Gt) by (rewrite cmp_gt_lt; done).
  assert (cmp b a <> Gt) by (rewrite cmp_gt_lt; done).
  assert (cmp c a <> Gt) by eauto using cmp_le_trans.
  apply cmp_gt_lt in Hac. congruence.
Qed.

End Comparison.

Lemma string_compare_eq a b : String.compare a b = Eq <-> a = b.
Proof. apply OrderedTypeEx.String_as_OT.cmp_eq. Qed.

Lemma string_compare_lt_trans a b c :
  String.compare a b = Lt -> String.compare b c = Lt -> String.compare a c = Lt.
Proof.
  intros Hab Hbc.
  apply OrderedTypeEx.String_as_OT.cmp_lt.
  apply OrderedTypeEx.String_as_OT.cmp_lt in Hab, Hbc.
  eapply OrderedTypeEx.String_as_OT.lt_trans; eassumption.
Qed.

Lemma key_compare_eq a b : Teste2.key_compare a b = Eq <-> a = b.
Proof.
  destruct a as [a1 a2], b as [b1 b2]. unfold Teste2.key_compare. simpl.
  destruct (String.compare a1 b1) eqn:E1.
  - apply string_compare_eq in E1. subst. rewrite string_compare_eq.
    split; congruence.
  - split; [done | intros [= -> _]].
    rewrite (cmp_refl _ string_compare_eq) in E1. done.
  - split; [done | intros [= -> _]].
    rewrite (cmp_refl _ string_compare_eq) in E1. done.
Qed.

Lemma key_compare_antisym a b :
  Teste2.key_compare a b = CompOpp (Teste2.key_compare b a).
Proof.
  destruct a as [a1 a2], b as [b1 b2]. unfold Teste2.key_compare. simpl.
  rewrite (String.compare_antisym b1 a1), (String.compare_antisym b2 a2).
  destruct (String.compare a1 b1); simpl; try done.
  by destruct (String.compare a2 b2).
Qed.

Lemma key_compare_lt_trans a b c :
  Teste2.key_compare a b = Lt -> Teste2.key_compare b c = Lt ->
  Teste2.key_compare a c = Lt.
Proof.
  destruct a as [a1 a2], b as [b1 b2], c as [c1 c2].
  unfold Teste2.key_compare. simpl.
  destruct (String.compare a1 b1) eqn:E1; try done;
    destruct (String.compare b1 c1) eqn:E2; try done; intros H1 H2.
  - apply string_compare_eq in E1, E2. subst.
    rewrite (cmp_refl _ string_compare_eq).
    eauto using string_compare_lt_trans.
  - apply string_compare_eq in E1. subst. by rewrite E2.
  - apply string_compare_eq in E2. subst. by rewrite E1.
  - by rewrite (string_compare_lt_trans _ _ _ E1 E2).
Qed.

(** * The sort of [extract_quarterly_data] *)

Import Teste2 Spec.

Lemma key_ge_trans a b c : key_ge a b -> key_ge b c -> key_ge a c.
Proof.
  unfold key_ge.
  apply (cmp_ge_trans key_compare key_compare_eq key_compare_antisym
           key_compare_lt_trans).
Qed.

Lemma insert_desc_perm x l : Permutation (insert_desc x l) (x :: l).
Proof.
  induction l as [|y l IH]; simpl; [done|].
  destruct (key_lt (sort_key x) (sort_key y)); [|done].
  rewrite IH. apply perm_swap.
Qed.

Lemma sort_desc_perm l : Permutation (sort_desc l) l.
Proof.
  induction l as [|x l IH]; simpl; [done|].
  rewrite insert_desc_perm. by constructor.
Qed.

Lemma insert_desc_sorted x l :
  StronglySorted key_ge l -> StronglySorted key_ge (insert_desc x l).
Proof.
  induction 1 as [|y l Hl IH Hy]; simpl.
  - repeat constructor.
  - unfold key_lt. destruct (key_compare (sort_key x) (sort_key y)) eqn:E.
    + constructor; [by constructor|]. constructor.
      * unfold key_ge. congruence.
      * eapply List.Forall_impl; [|exact Hy]. intros z Hz.
        apply key_ge_trans with y; [unfold key_ge; congruence | done].
    + constructor; [done|].
      eapply Permutation_Forall; [symmetry; apply insert_desc_perm|].
      constructor; [|done].
      unfold key_ge. rewrite key_compare_antisym, E. done.
    + constructor; [by constructor|]. constructor.
      * unfold key_ge. congruence.
      * eapply List.Forall_impl; [|exact Hy]. intros z Hz.
        apply key_ge_trans with y; [unfold key_ge; congruence | done].
Qed.

Lemma sort_desc_sorted l : StronglySorted key_ge (sort_desc l).
Proof.
  induction l as [|x l IH]; simpl; [constructor|].
  by apply insert_desc_sorted.
Qed.

Lemma filter_sorted (f : fact -> bool) l :
  StronglySorted key_ge l -> StronglySorted key_ge (List.filter f l).
Proof.
  induction 1 as [|y l Hl IH Hy]; simpl; [constructor|].
  destruct (f y); [|done]. constructor; [done|].
  rewrite List.Forall_forall in *. intros z Hz.
  apply Hy. apply List.filter_In in Hz. tauto.
Qed.

Lemma filter_perm (f : fact -> bool) l1 l2 :
  Permutation l1 l2 -> Permutation (List.filter f l1) (List.filter f l2).
Proof.
  induction 1 as [|x l1 l2 _ IH|x y l|l1 l2 l3 _ IH1 _ IH2]; simpl.
  - done.
  - destruct (f x); [by constructor | done].
  - destruct (f x), (f y); try done. apply perm_swap.
  - by etrans.
Qed.

Lemma sorted_app_inv (pre post : list fact) b :
  StronglySorted key_ge (pre ++ b :: post)%list -> Forall (key_ge b) post.
Proof.
  induction pre as [|x pre IH]; simpl; intros H.
  - by apply StronglySorted_inv in H as [_ H].
  - apply StronglySorted_inv in H as [H _]. by apply IH.
Qed.

(** * The loop over the facts, slot by slot *)

Lemma key_is_fp (fp : string) :
  (if negb (String.eqb fp "FY") then fp else "FY") = fp.
Proof. destruct (String.eqb_spec fp "FY"); simpl; congruence. Qed.

Lemma lookup2_insert fys y k (new : entry) year_data :
  lookup2 (<[y := <[k := new]> year_data]> fys) (y, k) = Some new.
Proof. unfold lookup2. simpl. rewrite lookup_insert_eq. simpl. apply lookup_insert_eq. Qed.

Lemma lookup2_insert_ne fys y k (new : entry) kk :
  kk <> (y, k) ->
  lookup2 (<[y := <[k := new]> (default ∅ (fys !! y))]> fys) kk = lookup2 fys kk.
Proof.
  destruct kk as [y' k']. intros Hne. unfold lookup2. simpl.
  destruct (decide (y = y')) as [->|Hy].
  - rewrite lookup_insert_eq. simpl.
    rewrite lookup_insert_ne by congruence.
    by destruct (fys !! y').
  - by rewrite lookup_insert_ne.
Qed.

Lemma no_empty_insert fys y k (new : entry) year_data :
  no_empty fys -> no_empty (<[y := <[k := new]> year_data]> fys).
Proof.
  intros H y' yd. destruct (decide (y = y')) as [->|Hy].
  - rewrite lookup_insert_eq. intros [= <-]. apply insert_non_empty.
  - rewrite lookup_insert_ne by done. apply H.
Qed.

Lemma store_fact_skip fys item :
  period_of item = None -> store_fact fys item = Ok fys.
Proof.
  unfold period_of, store_fact.
  destruct (fy item) as [y|], (end_ item) as [e|]; try done.
  by destruct ((y =? 0) || negb (Py.truthy_str e)).
Qed.

Lemma store_fact_keep fys item kk :
  period_of item = Some kk ->
  match keep (lookup2 fys kk) item with
  | Ok w =>
      exists fys', store_fact fys item = Ok fys' /\
        lookup2 fys' kk = w /\
        (forall kk', kk' <> kk -> lookup2 fys' kk' = lookup2 fys kk') /\
        (no_empty fys -> no_empty fys')
  | Raise e => store_fact fys item = Raise e /\ e = TypeError
  end.
Proof.
  unfold period_of, store_fact.
  destruct (fy item) as [y|] eqn:Ey, (end_ item) as [e|] eqn:Ee; try done.
  destruct ((y =? 0) || negb (Py.truthy_str e)); [done|].
  intros [= <-]. rewrite key_is_fp.
  set (k := default "FY" (fp item)).
  assert (Hentry : {| e_value := val item; e_end_date := e;
                      e_filed := filed item; e_fp := k |} = entry_of item).
  { unfold entry_of. by rewrite Ee. }
  rewrite Hentry.
  assert (Hl : default ∅ (fys !! y) !! k = lookup2 fys (y, k)).
  { unfold lookup2. simpl. by destruct (fys !! y). }
  rewrite Hl. destruct (lookup2 fys (y, k)) as [old|] eqn:Eold; simpl.
  - unfold Py.gt. destruct (filed item) as [f|]; [|done].
    destruct (e_filed old) as [fo|]; [|done]. simpl.
    destruct (Py.str_gt f fo).
    + eexists. split; [done|]. split; [apply lookup2_insert|].
      split; [intros; by apply lookup2_insert_ne | apply no_empty_insert].
    + eexists. split; [done|]. by repeat split.
  - eexists. split; [done|]. split; [apply lookup2_insert|].
    split; [intros; by apply lookup2_insert_ne | apply no_empty_insert].
Qed.

Lemma group_cons_in kk item l :
  period_of item = Some kk -> group kk (item :: l) = item :: group kk l.
Proof.
  intros H. unfold group, in_period. simpl. by rewrite bool_decide_eq_true_2.
Qed.

Lemma group_cons_out kk item l :
  period_of item <> Some kk -> group kk (item :: l) = group kk l.
Proof.
  intros H. unfold group, in_period. simpl. by rewrite bool_decide_eq_false_2.
Qed.

Lemma collect_ok l : forall fys fys',
  collect fys l = Ok fys' ->
  forall kk, pick (lookup2 fys kk) (group kk l) = Ok (lookup2 fys' kk).
Proof.
  induction l as [|item l IH]; intros fys fys' H kk; simpl in H.
  - by injection H as ->.
  - destruct (period_of item) as [kk0|] eqn:Ep.
    + pose proof (store_fact_keep fys item kk0 Ep) as Hs.
      destruct (keep (lookup2 fys kk0) item) as [w|e] eqn:Ek.
      * destruct Hs as (fys1 & Hs & Hw & Hother & _).
        rewrite Hs in H. simpl in H.
        destruct (decide (kk = kk0)) as [->|Hne].
        -- rewrite group_cons_in by done. simpl. rewrite Ek. simpl.
           rewrite <- Hw. by apply IH.
        -- rewrite group_cons_out by congruence.
           rewrite <- Hother by done. by apply IH.
      * destruct Hs as [Hs _]. rewrite Hs in H. done.
    + rewrite store_fact_skip in H by done. simpl in H.
      rewrite group_cons_out by congruence. by apply IH.
Qed.

Lemma collect_raise l : forall fys e,
  collect fys l = Raise e ->
  e = TypeError /\ exists kk, pick (lookup2 fys kk) (group kk l) = Raise TypeError.
Proof.
  induction l as [|item l IH]; intros fys e H; simpl in H; [done|].
  destruct (period_of item) as [kk0|] eqn:Ep.
  - pose proof (store_fact_keep fys item kk0 Ep) as Hs.
    destruct (keep (lookup2 fys kk0) item) as [w|e'] eqn:Ek.
    + destruct Hs as (fys1 & Hs & Hw & Hother & _).
      rewrite Hs in H. simpl in H.
      destruct (IH _ _ H) as [-> [kk Hkk]]. split; [done|]. exists kk.
      destruct (decide (kk = kk0)) as [->|Hne].
      * rewrite group_cons_in by done. simpl. rewrite Ek. simpl. by rewrite <- Hw.
      * rewrite group_cons_out by congruence. by rewrite <- Hother.
    + destruct Hs as [Hs ->]. rewrite Hs in H. simpl in H. injection H as <-.
      split; [done|]. exists kk0.
      rewrite group_cons_in by done. simpl. by rewrite Ek.
  - rewrite store_fact_skip in H by done. simpl in H.
    destruct (IH _ _ H) as [-> [kk Hkk]]. split; [done|]. exists kk.
    by rewrite group_cons_out by congruence.
Qed.

Lemma collect_no_empty l : forall fys fys',
  no_empty fys -> collect fys l = Ok fys' -> no_empty fys'.
Proof.
  induction l as [|item l IH]; simpl; intros fys fys' Hne H.
  - by injection H as <-.
  - destruct (period_of item) as [kk0|] eqn:Ep.
    + pose proof (store_fact_keep fys item kk0 Ep) as Hs.
      destruct (keep (lookup2 fys kk0) item) as [w|e'] eqn:Ek.
      * destruct Hs as (fys1 & Hs & _ & _ & Hne1).
        rewrite Hs in H. simpl in H. eapply IH; [|exact H]. auto.
      * destruct Hs as [Hs _]. rewrite Hs in H. done.
    + rewrite store_fact_skip in H by done. simpl in H. eauto.
Qed.

Lemma lookup2_ext (m1 m2 : gmap Z (gmap string entry)) :
  no_empty m1 -> no_empty m2 ->
  (forall kk, lookup2 m1 kk = lookup2 m2 kk) -> m1 = m2.
Proof.
  intros H1 H2 H. apply map_eq. intros y.
  destruct (m1 !! y) as [yd1|] eqn:E1, (m2 !! y) as [yd2|] eqn:E2; try done.
  - f_equal. apply map_eq. intros k. specialize (H (y, k)).
    unfold lookup2 in H. simpl in H. by rewrite E1, E2 in H.
  - exfalso. apply (H1 _ _ E1). apply map_eq. intros k.
    specialize (H (y, k)). unfold lookup2 in H. simpl in H.
    rewrite E1, E2 in H. simpl in H. by rewrite lookup_empty.
  - exfalso. apply (H2 _ _ E2). apply map_eq. intros k.
    specialize (H (y, k)). unfold lookup2 in H. simpl in H.
    rewrite E1, E2 in H. simpl in H. by rewrite lookup_empty.
Qed.

(** * The tie-break on one slot *)

Lemma str_gt_true f fo : Py.str_gt f fo = true -> String.compare fo f = Lt.
Proof.
  unfold Py.str_gt. destruct (String.compare f fo) eqn:E; try done.
  intros _. rewrite String.compare_antisym, E. done.
Qed.

Lemma str_gt_false f fo : Py.str_gt f fo = false -> String.compare f fo <> Gt.
Proof. unfold Py.str_gt. by destruct (String.compare f fo). Qed.

Lemma pick_some_raise g : forall cur,
  (e_filed cur = None /\ g <> []) \/ Exists (fun x => filed x = None) g ->
  pick (Some cur) g = Raise TypeError.
Proof.
  induction g as [|x g IH]; intros cur H.
  - destruct H as [[_ H]|H]; [done | inversion H].
  - simpl. unfold Py.gt.
    destruct (filed x) as [f|] eqn:Ef; [|done].
    destruct (e_filed cur) as [fc|] eqn:Ec; [|done]. simpl.
    destruct H as [[H _]|H]; [done|].
    apply List.Exists_cons in H as [H|H]; [congruence|].
    apply IH. by right.
Qed.

Lemma pick_some_ok g : forall cur fc,
  e_filed cur = Some fc ->
  Forall (fun x => filed x <> None) g ->
  (pick (Some cur) g = Ok (Some cur) /\
   Forall (fun y => exists f, filed y = Some f /\ String.compare f fc <> Gt) g) \/
  (exists pre b post,
     g = (pre ++ b :: post)%list /\
     pick (Some cur) g = Ok (Some (entry_of b)) /\
     (exists fb, filed b = Some fb /\ String.compare fc fb = Lt) /\
     Forall (fun y => filed_lt y b) pre /\
     Forall (fun y => filed_le y b) post).
Proof.
  induction g as [|x g IH]; intros cur fc Hc Hall.
  - left. by split.
  - apply List.Forall_cons_iff in Hall as [Hx Hall].
    destruct (filed x) as [fx|] eqn:Ex; [|done].
    simpl. unfold Py.gt. rewrite Ex, Hc. simpl.
    destruct (Py.str_gt fx fc) eqn:Egt.
    + apply str_gt_true in Egt.
      destruct (IH (entry_of x) fx Ex Hall)
        as [[Hp Hle]|(pre & b & post & -> & Hp & (fb & Hb & Hlt) & Hpre & Hpost)].
      * right. exists [], x, g. simpl. repeat split; try done.
        -- eauto.
        -- eapply List.Forall_impl; [|exact Hle].
           intros y (f & Hf & Hle'). unfold filed_le. by rewrite Hf, Ex.
      * right. exists (x :: pre), b, post. repeat split; try done.
        -- exists fb. split; [done|]. eauto using string_compare_lt_trans.
        -- constructor; [|done]. unfold filed_lt. by rewrite Ex, Hb.
    + apply str_gt_false in Egt.
      destruct (IH cur fc Hc Hall)
        as [[Hp Hle]|(pre & b & post & -> & Hp & (fb & Hb & Hlt) & Hpre & Hpost)].
      * left. split; [done|]. constructor; [|done]. eauto.
      * right. exists (x :: pre), b, post. repeat split; try done.
        -- eauto.
        -- constructor; [|done]. unfold filed_lt. rewrite Ex, Hb.
           eapply (cmp_le_lt_trans String.compare string_compare_eq); eauto.
           exact string_compare_lt_trans.
Qed.

Lemma pick_none_ok g :
  Forall (fun x => filed x <> None) g -> g <> [] ->
  exists pre b post,
    g = (pre ++ b :: post)%list /\
    pick None g = Ok (Some (entry_of b)) /\
    Forall (fun y => filed_lt y b) pre /\
    Forall (fun y => filed_le y b) post.
Proof.
  destruct g as [|x g]; [done|]. intros Hall _.
  apply List.Forall_cons_iff in Hall as [Hx Hall].
  destruct (filed x) as [fx|] eqn:Ex; [|done]. simpl.
  destruct (pick_some_ok g (entry_of x) fx Ex Hall)
    as [[Hp Hle]|(pre & b & post & -> & Hp & (fb & Hb & Hlt) & Hpre & Hpost)].
  - exists [], x, g. simpl. repeat split; try done.
    eapply List.Forall_impl; [|exact Hle].
    intros y (f & Hf & Hle'). unfold filed_le. by rewrite Hf, Ex.
  - exists (x :: pre), b, post. repeat split; try done.
    constructor; [|done]. unfold filed_lt. by rewrite Ex, Hb.
Qed.

Lemma pick_none_raise g :
  (2 <= length g)%nat -> Exists (fun x => filed x = None) g ->
  pick None g = Raise TypeError.
Proof.
  destruct g as [|x [|y g]]; simpl; try lia. intros _ H.
  change (pick (Some (entry_of x)) (y :: g) = Raise TypeError).
  apply pick_some_raise.
  apply List.Exists_cons in H as [H|H]; [left | by right].
  split; [exact H | done].
Qed.

(** What the slot holds after a run without exception: the first of the
    facts with the latest filing date. *)
Lemma pick_none_inv g w :
  pick None g = Ok w -> g <> [] ->
  exists pre b post,
    g = (pre ++ b :: post)%list /\ w = Some (entry_of b) /\
    Forall (fun y => filed_lt y b) pre /\
    Forall (fun y => filed_le y b) post.
Proof.
  intros Hp Hne.
  destruct g as [|x [|y g]]; [done| |].
  - simpl in Hp. injection Hp as <-. exists [], x, []. by repeat split.
  - destruct (decide (Exists (fun x => filed x = None) (x :: y :: g))) as [He|He].
    + rewrite pick_none_raise in Hp; [done | simpl; lia | done].
    + apply not_Exists_Forall in He; [|intros z; apply _].
      destruct (pick_none_ok (x :: y :: g)) as (pre & b & post & Hg & Hp' & H1 & H2);
        [exact He | done |].
      rewrite Hp' in Hp. injection Hp as <-. by exists pre, b, post.
Qed.

(** * Reordering the facts *)

Lemma winner_le g pre b post x :
  g = (pre ++ b :: post)%list ->
  Forall (fun y => filed_lt y b) pre ->
  Forall (fun y => filed_le y b) post ->
  filed b <> None -> In x g -> filed_le x b.
Proof.
  intros -> Hpre Hpost Hb Hx.
  rewrite List.Forall_forall in Hpre, Hpost.
  apply List.in_app_or in Hx as [Hx|[<-|Hx]].
  - specialize (Hpre _ Hx). unfold filed_lt, filed_le in *.
    destruct (filed x), (filed b); try done. congruence.
  - unfold filed_le. destruct (filed b) as [f|]; [|done].
    by rewrite (cmp_refl _ string_compare_eq).
  - by apply Hpost.
Qed.

Lemma winner_rel g pre b post x :
  g = (pre ++ b :: post)%list ->
  StronglySorted key_ge g ->
  Forall (fun y => filed_lt y b) pre ->
  In x g -> filed x = filed b -> x = b \/ key_ge b x.
Proof.
  intros -> Hs Hpre Hx Hf.
  rewrite List.Forall_forall in Hpre.
  apply List.in_app_or in Hx as [Hx|[<-|Hx]].
  - specialize (Hpre _ Hx). unfold filed_lt in Hpre. rewrite Hf in Hpre.
    destruct (filed b) as [f|]; [|done].
    by rewrite (cmp_refl _ string_compare_eq) in Hpre.
  - by left.
  - right. apply sorted_app_inv in Hs.
    rewrite List.Forall_forall in Hs. by apply Hs.
Qed.

Lemma filed_le_antisym x y : filed_le x y -> filed_le y x -> filed x = filed y.
Proof.
  unfold filed_le. destruct (filed x) as [fx|], (filed y) as [fy|]; try done.
  intros H1 H2. f_equal.
  by apply (cmp_le_antisym String.compare string_compare_eq String.compare_antisym).
Qed.

Lemma key_ge_antisym x y : key_ge x y -> key_ge y x -> sort_key x = sort_key y.
Proof.
  unfold key_ge. intros H1 H2.
  apply (cmp_le_antisym key_compare key_compare_eq key_compare_antisym).
  - rewrite (cmp_gt_lt key_compare key_compare_antisym). done.
  - rewrite (cmp_gt_lt key_compare key_compare_antisym). done.
Qed.

Lemma period_of_end x kk : period_of x = Some kk -> exists e, end_ x = Some e.
Proof.
  unfold period_of. destruct (fy x), (end_ x); try done. eauto.
Qed.

Lemma pick_sorted_perm kk g1 g2 :
  Permutation g1 g2 ->
  StronglySorted key_ge g1 -> StronglySorted key_ge g2 ->
  (forall x, In x g1 -> period_of x = Some kk) ->
  (forall x y, In x g1 -> In y g1 -> end_ x = end_ y -> filed x = filed y ->
               entry_of x = entry_of y) ->
  pick None g1 = pick None g2.
Proof.
  intros Hperm Hs1 Hs2 Hkk Htie.
  destruct g1 as [|x [|y g1]].
  - apply Permutation_nil in Hperm. by subst.
  - apply Permutation_length_1_inv in Hperm. by subst.
  - set (g := x :: y :: g1) in *.
    assert (Hlen1 : (2 <= length g)%nat) by (simpl; lia).
    assert (Hlen2 : (2 <= length g2)%nat)
      by (rewrite <- (Permutation_length Hperm); done).
    destruct (decide (Exists (fun x => filed x = None) g)) as [He|He].
    + rewrite (pick_none_raise g), (pick_none_raise g2); try done.
      by rewrite <- Hperm.
    + apply not_Exists_Forall in He; [|intros z; apply _].
      assert (He2 : Forall (fun x => filed x <> None) g2).
      { eapply Permutation_Forall; [exact Hperm | exact He]. }
      destruct (pick_none_ok g) as (pre1 & b1 & post1 & Hg1 & -> & Hpre1 & Hpost1);
        [exact He | done |].
      destruct (pick_none_ok g2) as (pre2 & b2 & post2 & Hg2 & -> & Hpre2 & Hpost2);
        [exact He2 | intros ->; simpl in Hlen2; lia |].
      assert (Hb1 : In b1 g) by (rewrite Hg1; apply List.in_elt).
      assert (Hb2 : In b2 g2) by (rewrite Hg2; apply List.in_elt).
      assert (Hb1' : In b1 g2) by (eapply Permutation_in; eauto).
      assert (Hb2' : In b2 g) by (eapply Permutation_in; [symmetry|]; eauto).
      assert (Hn1 : filed b1 <> None).
      { rewrite List.Forall_forall in He. by apply He. }
      assert (Hn2 : filed b2 <> None).
      { rewrite List.Forall_forall in He2. by apply He2. }
      assert (Hf : filed b2 = filed b1).
      { apply filed_le_antisym; eapply winner_le; eauto. }
      do 2 f_equal.
      destruct (winner_rel g pre1 b1 post1 b2) as [->|Hge1]; try done.
      destruct (winner_rel g2 pre2 b2 post2 b1) as [->|Hge2]; try done.
      apply Htie; try done.
      pose proof (key_ge_antisym _ _ Hge1 Hge2) as Hk.
      unfold sort_key in Hk. injection Hk as Hk _.
      destruct (period_of_end b1 kk) as [e1 E1]; [by apply Hkk|].
      destruct (period_of_end b2 kk) as [e2 E2]; [by apply Hkk|].
      rewrite E1, E2 in *. simpl in Hk. congruence.
Qed.

Lemma lookup2_empty kk : lookup2 ∅ kk = None.
Proof. unfold lookup2. by rewrite lookup_empty. Qed.

Lemma no_empty_empty : no_empty ∅.
Proof. intros y yd. by rewrite lookup_empty. Qed.

Lemma in_group kk x l : In x (group kk l) <-> In x l /\ period_of x = Some kk.
Proof.
  unfold group, in_period. rewrite List.filter_In, bool_decide_eq_true. done.
Qed.

Lemma no_tie_entry l x y kk :
  no_tie l -> In x l -> In y l ->
  period_of x = Some kk -> period_of y = Some kk ->
  end_ x = end_ y -> filed x = filed y -> entry_of x = entry_of y.
Proof.
  intros Ht Hx Hy Hpx Hpy He Hf.
  pose proof (Ht x y kk Hx Hy Hpx Hpy He Hf) as Hv.
  unfold entry_of. rewrite Hv, He, Hf. f_equal.
  unfold period_of in Hpx, Hpy.
  destruct (fy x) as [yx|], (end_ x) as [ex|]; try done.
  destruct (fy y) as [yy|], (end_ y) as [ey|]; try done.
  destruct ((yx =? 0) || negb (Py.truthy_str ex)); [done|].
  destruct ((yy =? 0) || negb (Py.truthy_str ey)); [done|].
  congruence.
Qed.

Lemma pick_groups_perm l1 l2 kk :
  Permutation l1 l2 -> no_tie l1 ->
  pick None (group kk (sort_desc l1)) = pick None (group kk (sort_desc l2)).
Proof.
  intros Hperm Ht.
  apply (pick_sorted_perm kk).
  - apply filter_perm. by rewrite !sort_desc_perm.
  - apply filter_sorted, sort_desc_sorted.
  - apply filter_sorted, sort_desc_sorted.
  - intros x Hx. by apply in_group in Hx as [_ Hx].
  - intros x y Hx Hy. apply in_group in Hx as [Hx Hpx], Hy as [Hy Hpy].
    apply (no_tie_entry l1 x y kk); try done.
    + eapply Permutation_in; [apply sort_desc_perm | done].
    + eapply Permutation_in; [apply sort_desc_perm | done].
Qed.

Lemma collect_sorted_perm l1 l2 :
  Permutation l1 l2 -> no_tie l1 ->
  collect ∅ (sort_desc l1) = collect ∅ (sort_desc l2).
Proof.
  intros Hperm Ht.
  pose proof (fun kk => pick_groups_perm l1 l2 kk Hperm Ht) as Hpick.
  destruct (collect ∅ (sort_desc l1)) as [m1|e1] eqn:E1,
           (collect ∅ (sort_desc l2)) as [m2|e2] eqn:E2.
  - f_equal. apply lookup2_ext.
    + eapply collect_no_empty; [apply no_empty_empty | exact E1].
    + eapply collect_no_empty; [apply no_empty_empty | exact E2].
    + intros kk.
      pose proof (collect_ok _ _ _ E1 kk) as H1.
      pose proof (collect_ok _ _ _ E2 kk) as H2.
      rewrite lookup2_empty, Hpick in H1. rewrite lookup2_empty in H2. congruence.
  - apply collect_raise in E2 as [_ [kk H2]].
    pose proof (collect_ok _ _ _ E1 kk) as H1.
    rewrite lookup2_empty, Hpick in H1. rewrite lookup2_empty in H2. congruence.
  - apply collect_raise in E1 as [_ [kk H1]].
    pose proof (collect_ok _ _ _ E2 kk) as H2.
    rewrite lookup2_empty, Hpick in H1. rewrite lookup2_empty in H2. congruence.
  - apply collect_raise in E1 as [-> _]. by apply collect_raise in E2 as [-> _].
Qed.

Lemma no_tie_filter (f : fact -> bool) l : no_tie l -> no_tie (List.filter f l).
Proof.
  intros H x y kk Hx Hy. apply List.filter_In in Hx as [Hx _], Hy as [Hy _].
  by apply H.
Qed.

(** * The rows of one fiscal year *)

Lemma sorted_years_singleton y (year_data : gmap string entry) :
  sorted_years {[y := year_data]} = [y].
Proof.
  unfold sorted_years. by rewrite dom_singleton_L, elements_singleton.
Qed.

Lemma emit_ytd_shown y year_data s :
  quarters_shown (emit_ytd y year_data s) = quarters_shown s.
Proof.
  unfold emit_ytd. destruct (ytd_shown s); [done|].
  destruct (List.find _ quarters) as [q|]; [|done].
  by destruct (year_data !! q).
Qed.

Lemma emit_quarter_mono y year_data s q r :
  In r (rows s) -> In r (rows (emit_quarter y year_data s q)).
Proof.
  unfold emit_quarter. destruct (NUM_QUARTERS <=? quarters_shown s)%nat; [done|].
  destruct (year_data !! q); [|done]. simpl. intros H.
  apply List.in_or_app. by left.
Qed.

Lemma emit_quarter_shown y year_data s q :
  (quarters_shown (emit_quarter y year_data s q) <= S (quarters_shown s))%nat.
Proof.
  unfold emit_quarter. destruct (NUM_QUARTERS <=? quarters_shown s)%nat; [lia|].
  destruct (year_data !! q); simpl; lia.
Qed.

Lemma fold_quarters_mono y year_data qs : forall s r,
  In r (rows s) -> In r (rows (fold_left (emit_quarter y year_data) qs s)).
Proof.
  induction qs as [|q qs IH]; simpl; [done|].
  intros s r H. apply IH. by apply emit_quarter_mono.
Qed.

Lemma fold_quarters_row y year_data qs : forall s q q_data,
  (quarters_shown s + length qs <= NUM_QUARTERS)%nat ->
  In q qs -> year_data !! q = Some q_data ->
  In (quarterly_row y q q_data (format_value (quarterly_value year_data q q_data)))
     (rows (fold_left (emit_quarter y year_data) qs s)).
Proof.
  induction qs as [|q0 qs IH]; simpl; [done|].
  intros s q q_data Hlen [->|Hq] Hyd.
  - apply fold_quarters_mono. unfold emit_quarter.
    destruct (Nat.leb_spec NUM_QUARTERS (quarters_shown s)); [lia|].
    rewrite Hyd. simpl. apply List.in_or_app. right. by left.
  - apply IH; try done.
    pose proof (emit_quarter_shown y year_data s q0). lia.
Qed.

Lemma emit_single_quarter y year_data q q_data :
  In q quarters -> year_data !! q = Some q_data ->
  In (quarterly_row y q q_data (format_value (quarterly_value year_data q q_data)))
     (emit {[y := year_data]}).
Proof.
  intros Hq Hyd. unfold emit. rewrite sorted_years_singleton. simpl.
  unfold emit_year. simpl. rewrite lookup_singleton_eq. simpl.
  set (s1 := emit_ytd y year_data _).
  assert (Hs1 : quarters_shown s1 = 0%nat) by apply emit_ytd_shown.
  assert (Hin : In (quarterly_row y q q_data
                      (format_value (quarterly_value year_data q q_data)))
                   (rows (fold_left (emit_quarter y year_data) quarters s1))).
  { apply fold_quarters_row; try done. rewrite Hs1. simpl. unfold NUM_QUARTERS. lia. }
  destruct (year_data !! "FY"); [|done].
  destruct (_ <? _)%nat; [|done].
  simpl. apply List.in_or_app. by left.
Qed.

Lemma process_metric_single metric_data y year_data :
  collect ∅ (all_data_of metric_data) = Ok {[y := year_data]} ->
  process_metric (Some metric_data) = Ok (emit {[y := year_data]}).
Proof.
  unfold all_data_of, process_metric. simpl.
  destruct (sort_desc _) as [|x l]; simpl.
  - by intros [=].
  - by intros ->.
Qed.

Lemma prev_q_quarters q p : prev_q q = Some p -> In q quarters.
Proof.
  unfold prev_q, quarters.
  destruct (String.eqb_spec q "Q4") as [->|_]; [simpl; tauto|].
  destruct (String.eqb_spec q "Q3") as [->|_]; [simpl; tauto|].
  destruct (String.eqb_spec q "Q2") as [->|_]; [simpl; tauto|done].
Qed.

Lemma quarterly_value_diff year_data q p q_data p_data v w :
  prev_q q = Some p -> year_data !! p = Some p_data ->
  e_value q_data = Some v -> e_value p_data = Some w ->
  v <> 0 -> w <> 0 ->
  quarterly_value year_data q q_data = Some (v - w).
Proof.
  intros Hp Hpd Hv Hw Hv0 Hw0. unfold quarterly_value.
  rewrite Hp, Hpd, Hv, Hw. simpl.
  destruct (Z.eqb_spec w 0), (Z.eqb_spec v 0); done.
Qed.

Lemma quarterly_value_raw year_data q p q_data :
  prev_q q = Some p -> year_data !! p = None ->
  quarterly_value year_data q q_data = e_value q_data.
Proof. intros Hp Hpd. unfold quarterly_value. by rewrite Hp, Hpd. Qed.

(** * Quarterly reconciliation (src/Quant/Teste2.py) *)

Import Examples.

(** C1, as the code has it: for the facts of one metric within one fiscal
    year, the 'Quarterly' row of a quarter Q2..Q4 whose predecessor is
    present carries YTD(Q) - YTD(Q-1) whenever YTD(Q) is not zero, and
    the row of Q1 carries Q1's own YTD value; with YTD 100, 250, 400 and
    a Q4 fact of 500 the quarterly rows carry 100, 150, 150 and 100. *)
Theorem C1_quarterly_difference :
  (forall metric_data y year_data,
     collect ∅ (all_data_of metric_data) = Ok {[y := year_data]} ->
     exists rows,
       process_metric (Some metric_data) = Ok rows /\
       (forall q p q_data p_data v w,
          prev_q q = Some p ->
          year_data !! q = Some q_data -> year_data !! p = Some p_data ->
          e_value q_data = Some v -> e_value p_data = Some w -> v <> 0 ->
          In (quarterly_row y q q_data (Some (v - w))) rows) /\
       (forall q_data,
          year_data !! "Q1" = Some q_data ->
          In (quarterly_row y "Q1" q_data (e_value q_data)) rows)) /\
  (exists ytd,
     process_metric (Some [q1_100; q2_250; q3_400; q4_500]) =
     Ok [ ytd;
          quarterly_row 2023 "Q4" (entry_of q4_500) (Some 100);
          quarterly_row 2023 "Q3" (entry_of q3_400) (Some 150);
          quarterly_row 2023 "Q2" (entry_of q2_250) (Some 150);
          quarterly_row 2023 "Q1" (entry_of q1_100) (Some 100) ]).
Proof.
  split.
  - intros metric_data y year_data H.
    exists (emit {[y := year_data]}). split; [by apply process_metric_single|].
    split.
    + intros q p q_data p_data v w Hp Hq Hpd Hv Hw Hv0.
      pose proof (emit_single_quarter y year_data q q_data
                    (prev_q_quarters q p Hp) Hq) as Hin.
      unfold format_value in Hin.
      destruct (Z.eq_dec w 0) as [->|Hw0].
      * unfold quarterly_value in Hin. rewrite Hp, Hpd, Hw, Hv in Hin.
        simpl in Hin. by replace (v - 0) with v by lia.
      * by rewrite (quarterly_value_diff year_data q p q_data p_data v w) in Hin.
    + intros q_data Hq.
      apply (emit_single_quarter y year_data "Q1" q_data); [|done].
      simpl. tauto.
  - eexists. vm_compute. reflexivity.
Qed.

Lemma C1_quarterly_difference_witness :
  exists rows,
    process_metric (Some [q1_100; q2_250]) = Ok rows /\
    In (quarterly_row 2023 "Q2" (entry_of q2_250) (Some (250 - 100))) rows.
Proof.
  destruct (proj1 C1_quarterly_difference [q1_100; q2_250] 2023
              (year_2023 [q1_100; q2_250])) as (rows & Hrows & Hdiff & _).
  { vm_compute. reflexivity. }
  exists rows. split; [exact Hrows|].
  apply (Hdiff "Q2" "Q1" (entry_of q2_250) (entry_of q1_100) 250 100);
    vm_compute; (reflexivity || discriminate).
Defined.

(** C1 as stated fails: with YTD(Q1) = 100 and YTD(Q2) = 0 the quarterly
    row of Q2 carries 0, not 0 - 100; and when the annual total is filed
    under the period FY no row is produced for Q4 at all. *)
Lemma C1_zero_ytd_counterexample :
  (exists ytd,
     process_metric (Some [q1_100; q2_0]) =
     Ok [ ytd;
          quarterly_row 2023 "Q2" (entry_of q2_0) (Some 0);
          quarterly_row 2023 "Q1" (entry_of q1_100) (Some 100) ]) /\
  0 - 100 <> 0 /\
  (exists rows,
     process_metric (Some [q1_100; q2_250; q3_400; fy_500]) = Ok rows /\
     forall r, In r rows -> r_fp r <> "Q4").
Proof.
  split; [eexists; vm_compute; reflexivity|]. split; [lia|].
  eexists. split; [vm_compute; reflexivity|].
  intros r Hr. simpl in Hr.
  repeat (destruct Hr as [<-|Hr]; [simpl; discriminate|]). done.
Qed.

(** C2 as stated fails: with only the Q2 fact (YTD 250) in the fiscal
    year, the quarterly value of Q2 is not absent: it is the raw 250. *)
Lemma C2_absent_value_counterexample :
  (exists ytd,
     process_metric (Some [q2_250]) =
     Ok [ ytd; quarterly_row 2023 "Q2" (entry_of q2_250) (Some 250) ]) /\
  ~ (forall (year_data : gmap string entry) q p q_data,
       prev_q q = Some p ->
       year_data !! q = Some q_data -> year_data !! p = None ->
       quarterly_value year_data q q_data = None).
Proof.
  split; [eexists; vm_compute; reflexivity|].
  intros H.
  specialize (H (year_2023 [q2_250]) "Q2" "Q1" (entry_of q2_250)).
  vm_compute in H. by specialize (H eq_refl eq_refl eq_refl).
Qed.

(** * The latest-filed tie-break *)

(** C3 at the failing input: two 10-Q facts of fiscal year 2023, Q1, with
    the values 10 and 12 and no 'filed' key.  In either order the
    comparison of their filing dates raises TypeError in the collecting
    loop: no fact is kept, the last one encountered does not win.  With
    the filing dates 2023-01-01 and 2023-04-01 the value 12 is kept, in
    either order. *)
Theorem C3_missing_filed_raises :
  extract_quarterly_data (Some [nofiled_10; nofiled_12]) =
    ([nofiled_10; nofiled_12], true) /\
  collect ∅ [nofiled_10; nofiled_12] = Raise TypeError /\
  process_metric (Some [nofiled_10; nofiled_12]) = Raise TypeError /\
  process_metric (Some [nofiled_12; nofiled_10]) = Raise TypeError /\
  (exists ytd,
     process_metric (Some [dup_10; dup_12]) =
       Ok [ytd; quarterly_row 2023 "Q1" (entry_of dup_12) (Some 12)] /\
     process_metric (Some [dup_12; dup_10]) =
       Ok [ytd; quarterly_row 2023 "Q1" (entry_of dup_12) (Some 12)]).
Proof.
  repeat split; try (vm_compute; reflexivity).
  eexists. split; vm_compute; reflexivity.
Qed.

(** * Repeating and reordering *)

(** C9, as the code has it: reconciliation is a function of the fact
    sequence, so two runs agree; and the result is the same for every
    reordering of a fact sequence in which no two facts of one period
    agree on both the period end and the filing date while differing in
    value. *)
Theorem C9_reconcile_deterministic_and_order_free :
  (forall metric_data r1 r2,
     process_metric metric_data = r1 -> process_metric metric_data = r2 ->
     r1 = r2) /\
  (forall l1 l2,
     Permutation l1 l2 -> no_tie l1 ->
     process_metric (Some l1) = process_metric (Some l2)).
Proof.
  split; [congruence|].
  intros l1 l2 Hperm Ht. unfold process_metric, extract_quarterly_data.
  assert (Hp : Permutation (List.filter is_10Q_or_10K l1)
                           (List.filter is_10Q_or_10K l2))
    by by apply filter_perm.
  assert (Hlen : length (sort_desc (List.filter is_10Q_or_10K l1)) =
                 length (sort_desc (List.filter is_10Q_or_10K l2))).
  { apply Permutation_length. by rewrite !sort_desc_perm. }
  rewrite Hlen.
  rewrite (collect_sorted_perm _ _ Hp (no_tie_filter _ _ Ht)). done.
Qed.

Lemma C9_reconcile_deterministic_and_order_free_witness :
  process_metric (Some [dup_10; dup_12]) = process_metric (Some [dup_12; dup_10]).
Proof.
  apply (proj2 C9_reconcile_deterministic_and_order_free).
  - apply perm_swap.
  - intros x y kk [<-|[<-|[]]] [<-|[<-|[]]] _ _ _ Hf;
      first [reflexivity | discriminate Hf].
Defined.

(** C9 as stated fails: two facts of one period with the same period end
    and the same filing date but different values reconcile to the one
    that comes first in the input, so swapping them changes the result. *)
Lemma C9_same_filed_counterexample :
  Permutation [tie_10; tie_12] [tie_12; tie_10] /\
  process_metric (Some [tie_10; tie_12]) <> process_metric (Some [tie_12; tie_10]).
Proof.
  split; [apply perm_swap|]. vm_compute. discriminate.
Qed.

(** * Free-text extraction (src/Quant/Aquisição/Clear_Data.py) *)

Section FreeText.

Variable findall : string -> string -> list string.
Variable content : string.

Local Notation "'step'" := (field_step findall content).

Lemma fold_fields_other patterns : forall data field,
  ~ In field (List.map fst patterns) ->
  fold_left step patterns data !! field = data !! field.
Proof.
  induction patterns as [|[f0 pl0] patterns IH]; simpl; [done|].
  intros data field Hnot. rewrite IH by tauto.
  unfold field_step. simpl. destruct (ClearData.extract_field _ _ _); [|done].
  apply lookup_insert_ne. tauto.
Qed.

Lemma fold_fields_lookup patterns : forall data field pattern_list,
  NoDup (List.map fst patterns) -> In (field, pattern_list) patterns ->
  fold_left step patterns data !! field =
  match ClearData.extract_field findall content pattern_list with
  | Some value => Some value
  | None => data !! field
  end.
Proof.
  induction patterns as [|[f0 pl0] patterns IH]; simpl; [done|].
  intros data field pl Hnd [[= -> ->]|Hin].
  - apply NoDup_cons in Hnd as [Hnot _].
    rewrite fold_fields_other by (by rewrite <- list_elem_of_In).
    unfold field_step. simpl. destruct (ClearData.extract_field _ _ _); [|done].
    apply lookup_insert_eq.
  - apply NoDup_cons in Hnd as [Hnot Hnd].
    rewrite (IH _ _ pl) by done.
    destruct (ClearData.extract_field findall content pl); [done|].
    unfold field_step. simpl.
    destruct (ClearData.extract_field findall content pl0); [|done].
    apply lookup_insert_ne. intros ->. apply Hnot.
    rewrite list_elem_of_In. apply List.in_map_iff. by exists (field, pl).
Qed.

Lemma extract_fields_lookup patterns field pattern_list :
  NoDup (List.map fst patterns) -> In (field, pattern_list) patterns ->
  ClearData.extract_fields findall content patterns !! field =
  ClearData.extract_field findall content pattern_list.
Proof.
  intros Hnd Hin. unfold ClearData.extract_fields.
  change (fold_left step patterns ∅ !! field = ClearData.extract_field findall content pattern_list).
  rewrite (fold_fields_lookup _ _ _ pattern_list) by done.
  by destruct (ClearData.extract_field _ _ _).
Qed.

Lemma extract_field_first pre : forall pattern post value_str value,
  (forall p, In p pre -> ~ successful findall content p) ->
  last (findall pattern content) = Some value_str ->
  Py.float (Py.remove_commas value_str) = Some value ->
  ClearData.extract_field findall content (pre ++ pattern :: post) =
  Some (ClearData.scale value).
Proof.
  induction pre as [|p pre IH]; simpl; intros pattern post value_str value Hpre Hl Hf.
  - by rewrite Hl, Hf.
  - destruct (last (findall p content)) as [s|] eqn:El.
    + destruct (Py.float (Py.remove_commas s)) as [v|] eqn:Ef.
      * exfalso. apply (Hpre p); [by left|]. by exists s, v.
      * eapply IH; eauto.
    + eapply IH; eauto.
Qed.

Lemma extract_field_none pattern_list :
  (forall p, In p pattern_list -> findall p content = []) ->
  ClearData.extract_field findall content pattern_list = None.
Proof.
  induction pattern_list as [|p pl IH]; simpl; [done|].
  intros H. rewrite (H p) by (by left). simpl. apply IH. intros; apply H; by right.
Qed.

End FreeText.

Lemma patterns_NoDup st : NoDup (List.map fst (patterns_of st)).
Proof. destruct st; apply (bool_decide_unpack _); by vm_compute. Qed.

Lemma extract_of_lookup findall st content field pattern_list :
  In (field, pattern_list) (patterns_of st) ->
  extract_of findall st content !! field =
  ClearData.extract_field findall content pattern_list.
Proof.
  intros Hin.
  rewrite <- (extract_fields_lookup findall content (patterns_of st) field
                pattern_list (patterns_NoDup st) Hin).
  assert (Hf : In field (List.map fst (patterns_of st))).
  { apply List.in_map_iff. by exists (field, pattern_list). }
  destruct st; simpl in *.
  - unfold ClearData.extract_income_statement_generic.
    destruct (_ !! "revenue"); [|done]. destruct (_ !! "cost_of_revenue"); [|done].
    apply lookup_insert_ne. intros <-. vm_compute in Hf. intuition discriminate.
  - unfold ClearData.extract_balance_sheet_generic.
    destruct (_ !! "total_assets"); [|done].
    destruct (_ !! "total_liabilities"); [|done].
    apply lookup_insert_ne. intros <-. vm_compute in Hf. intuition discriminate.
  - unfold ClearData.extract_cash_flow_generic.
    destruct (_ !! "free_cash_flow"); [done|].
    destruct (_ !! "operating_cash_flow"); [|done].
    destruct (_ !! "capital_expenditures"); [|done].
    apply lookup_insert_ne. intros <-. vm_compute in Hf. intuition discriminate.
Qed.



(** C10: in the free-text path, for each of the three statements, the
    value of a field is read from the last match, in document order, of
    the first pattern of the field that is successful (it matches and its
    last match reads as a number), then scale-normalised. *)
Theorem C10_last_match_taken findall content st field pattern_list
  pre pattern post matches value_str value :
  In (field, pattern_list) (patterns_of st) ->
  pattern_list = (pre ++ pattern :: post)%list ->
  (forall p, In p pre -> ~ successful findall content p) ->
  findall pattern content = (matches ++ [value_str])%list ->
  Py.float (Py.remove_commas value_str) = Some value ->
  extract_of findall st content !! field = Some (ClearData.scale value).
Proof.
  intros Hin -> Hpre Hm Hf.
  rewrite (extract_of_lookup _ _ _ _ _ Hin).
  eapply extract_field_first; eauto.
  rewrite Hm. apply last_snoc.
Qed.

Lemma C10_last_match_taken_witness :
  extract_of repeated_findall Income repeated_content !! "revenue" =
  Some (ClearData.scale (15 # 10)).
Proof.
  apply (C10_last_match_taken repeated_findall repeated_content Income "revenue"
           [ "Total revenue\s*[\$]?\s*([\d,]+\.?\d*)";
             "Revenue\s*[\$]?\s*([\d,]+\.?\d*)";
             "Net sales\s*[\$]?\s*([\d,]+\.?\d*)";
             "Sales.*?[\$]?\s*([\d,]+\.?\d*)" ]
           ["Total revenue\s*[\$]?\s*([\d,]+\.?\d*)"]
           "Revenue\s*[\$]?\s*([\d,]+\.?\d*)"
           [ "Net sales\s*[\$]?\s*([\d,]+\.?\d*)";
             "Sales.*?[\$]?\s*([\d,]+\.?\d*)" ]
           ["7"] "1.5").
  - simpl. left. reflexivity.
  - reflexivity.
  - intros p [<-|[]] (s & v & Hl & _). vm_compute in Hl. discriminate.
  - vm_compute. reflexivity.
  - vm_compute. reflexivity.
Defined.

(** * Tag search (src/Quant/Aquisição/Teste2.py) *)

Section TagSearch.

Variable findall : string -> string -> list string.
Variable float : string -> option Q.
Variable content : string.

Local Notation "'found'" := (Spec.found findall float content).
Local Notation "'ostep'" := (found_step findall float content).
Local Notation "'vstep'" := (values_step findall float content).

Lemma first_significant_Some matches value :
  DirectSearch.first_significant float matches = Some value ->
  exists match_, In match_ matches /\
    DirectSearch.read_value float match_ = Some value /\
    DirectSearch.significant value = true.
Proof.
  induction matches as [|m ms IH]; simpl; [done|].
  destruct (DirectSearch.read_value float m) as [v|] eqn:Er.
  - destruct (DirectSearch.significant v) eqn:Es.
    + intros [= <-]. exists m. auto.
    + intros H. destruct (IH H) as (m' & ? & ? & ?). exists m'. auto.
  - intros H. destruct (IH H) as (m' & ? & ? & ?). exists m'. auto.
Qed.

Lemma first_significant_is_Some matches match_ value :
  In match_ matches ->
  DirectSearch.read_value float match_ = Some value ->
  DirectSearch.significant value = true ->
  is_Some (DirectSearch.first_significant float matches).
Proof.
  induction matches as [|m ms IH]; simpl; [done|].
  intros [->|Hin] Hr Hs.
  - rewrite Hr, Hs. eauto.
  - destruct (DirectSearch.read_value float m) as [v|]; [|by apply IH].
    destruct (DirectSearch.significant v); [eauto | by apply IH].
Qed.

Lemma fold_ostep ps : forall acc,
  fold_left ostep ps acc =
  match fold_left ostep ps None with
  | Some value => Some value
  | None => acc
  end.
Proof.
  induction ps as [|p ps IH]; simpl; [done|]. intros acc.
  rewrite (IH (ostep acc p)), (IH (ostep None p)). unfold found_step.
  destruct (fold_left _ ps None); [done|]. by destruct (found p).
Qed.

Lemma fold_ostep_Some ps : forall value,
  fold_left ostep ps None = Some value ->
  exists pattern, In pattern ps /\ found pattern = Some value.
Proof.
  induction ps as [|p ps IH]; simpl; [done|]. intros value.
  rewrite fold_ostep. destruct (fold_left ostep ps None) as [v|] eqn:E.
  - intros [= <-]. destruct (IH v eq_refl) as (p' & ? & ?). exists p'. auto.
  - unfold found_step. destruct (found p) eqn:Ep; [|done].
    intros [= <-]. exists p. auto.
Qed.

Lemma fold_ostep_is_Some ps pattern :
  In pattern ps -> is_Some (found pattern) -> is_Some (fold_left ostep ps None).
Proof.
  induction ps as [|p ps IH]; simpl; [done|].
  intros [->|Hin] Hf; rewrite fold_ostep.
  - destruct (fold_left ostep ps None); [eauto|].
    unfold found_step. by destruct Hf as [v ->].
  - destruct (IH Hin Hf) as [v ->]. eauto.
Qed.

Lemma fold_vstep tag ps : forall values tag',
  fold_left (vstep tag) ps values !! tag' =
  if decide (tag = tag') then
    match fold_left ostep ps None with
    | Some value => Some value
    | None => values !! tag'
    end
  else values !! tag'.
Proof.
  induction ps as [|p ps IH]; simpl; intros values tag'.
  - by destruct (decide _).
  - rewrite IH, (fold_ostep ps (ostep None p)).
    destruct (decide (tag = tag')) as [->|Hne].
    + destruct (fold_left ostep ps None); [done|].
      unfold values_step, found_step.
      destruct (found p); [apply lookup_insert_eq | done].
    + unfold values_step. destruct (found p); [by apply lookup_insert_ne | done].
Qed.

Lemma search_tag_lookup values tag tag' :
  DirectSearch.search_tag findall float content values tag !! tag' =
  if decide (tag = tag') then
    match tag_result findall float content tag with
    | Some value => Some value
    | None => values !! tag'
    end
  else values !! tag'.
Proof. apply fold_vstep. Qed.

Lemma search_tags_other tags : forall values tag,
  ~ In tag tags ->
  fold_left (DirectSearch.search_tag findall float content) tags values !! tag =
  values !! tag.
Proof.
  induction tags as [|t tags IH]; simpl; [done|]. intros values tag Hnot.
  rewrite IH by tauto. rewrite search_tag_lookup.
  destruct (decide (t = tag)); [tauto | done].
Qed.

Lemma search_tags_lookup tags : forall values tag,
  In tag tags ->
  fold_left (DirectSearch.search_tag findall float content) tags values !! tag =
  match tag_result findall float content tag with
  | Some value => Some value
  | None => values !! tag
  end.
Proof.
  induction tags as [|t tags IH]; simpl; [done|]. intros values tag Hin.
  destruct (decide (tag ∈ tags)) as [Hd|Hd]; rewrite list_elem_of_In in Hd.
  - rewrite IH by done. rewrite search_tag_lookup.
    destruct (tag_result findall float content tag) eqn:E; [done|].
    destruct (decide (t = tag)) as [->|]; [by rewrite E | done].
  - destruct Hin as [->|Hin]; [|done].
    rewrite search_tags_other by done. rewrite search_tag_lookup.
    by destruct (decide (tag = tag)).
Qed.

Lemma tag_result_Some tag value :
  tag_result findall float content tag = Some value ->
  has_significant findall float content tag value.
Proof.
  intros H. apply fold_ostep_Some in H as (p & Hp & Hf).
  apply first_significant_Some in Hf as (m & ? & ? & ?). by exists p, m.
Qed.

Lemma tag_result_is_Some tag value :
  has_significant findall float content tag value ->
  is_Some (tag_result findall float content tag).
Proof.
  intros (p & m & Hp & Hm & Hr & Hs).
  apply (fold_ostep_is_Some _ p Hp). by eapply first_significant_is_Some.
Qed.

End TagSearch.

(** C6, as the code has it.  In the free-text path the first pattern of
    the list that matches and whose last match reads as a number
    determines the field, whatever the value's magnitude (there is no
    0.01 threshold there), and whatever patterns follow it in the list.
    In the tag search only values of magnitude above 0.01 are accepted,
    but every alias of the list is searched: an alias is recorded under
    its own tag exactly when one of its patterns has such a match, and
    with the value of such a match. *)
Theorem C6_first_successful_alias :
  (forall findall content pre pattern post value_str value,
     (forall p, In p pre -> ~ successful findall content p) ->
     last (findall pattern content) = Some value_str ->
     Py.float (Py.remove_commas value_str) = Some value ->
     ClearData.extract_field findall content (pre ++ pattern :: post) =
     Some (ClearData.scale value)) /\
  (forall findall float content tag_variations tag,
     In tag tag_variations ->
     let values :=
       DirectSearch.extract_values_direct_search findall float content
         tag_variations in
     (forall value,
        values !! tag = Some value ->
        has_significant findall float content tag value) /\
     ((exists value, has_significant findall float content tag value) ->
      is_Some (values !! tag))).
Proof.
  split.
  - intros. eapply extract_field_first; eauto.
  - intros findall float content tags tag Hin values. subst values.
    unfold DirectSearch.extract_values_direct_search.
    rewrite (search_tags_lookup _ _ _ _ _ _ Hin), lookup_empty. split.
    + intros value H. apply tag_result_Some.
      by destruct (tag_result findall float content tag).
    + intros [value H]. apply tag_result_is_Some in H as [v ->]. eauto.
Qed.

Lemma C6_first_successful_alias_witness :
  ClearData.extract_field zero_findall zero_content
    ([] ++ "Total revenue\s*[\$]?\s*([\d,]+\.?\d*)"
        :: ["Revenue\s*[\$]?\s*([\d,]+\.?\d*)"]) = Some (ClearData.scale 0) /\
  has_significant xbrl_findall Py.float xbrl_content "SalesRevenueNet" 700.
Proof.
  split.
  - apply (proj1 C6_first_successful_alias zero_findall zero_content []
             "Total revenue\s*[\$]?\s*([\d,]+\.?\d*)"
             ["Revenue\s*[\$]?\s*([\d,]+\.?\d*)"] "0" 0%Q).
    + intros p [].
    + vm_compute. reflexivity.
    + vm_compute. reflexivity.
  - apply (proj2 C6_first_successful_alias xbrl_findall Py.float xbrl_content
             revenue_tags "SalesRevenueNet").
    + simpl. tauto.
    + vm_compute. reflexivity.
Defined.

(** C6 as stated fails on both paths.  Tag search: the content holds a
    value for the alias Revenues and one for the later alias
    SalesRevenueNet; the later alias is searched and recorded as well.
    Free text: the first pattern matches the value 0, which is kept
    although the next pattern has the match 500. *)
Lemma C6_later_alias_counterexample :
  let values :=
    DirectSearch.extract_values_direct_search xbrl_findall Py.float
      xbrl_content revenue_tags in
  values !! "Revenues" = Some 500%Q /\
  values !! "SalesRevenueNet" = Some 700%Q /\
  ClearData.extract_income_statement_generic zero_findall zero_content
    !! "revenue" = Some 0%Q /\
  last (zero_findall "Revenue\s*[\$]?\s*([\d,]+\.?\d*)" zero_content) = Some "500".
Proof. repeat split; vm_compute; reflexivity. Qed.

(** * The per-period record *)

Lemma dict_of_other {V : Type} (l : list (string * V)) :
  forall (d : gmap string V) k,
  ~ In k (List.map fst l) ->
  fold_left (fun (d : gmap string V) kv => <[fst kv := snd kv]> d) l d !! k =
  d !! k.
Proof.
  induction l as [|[k0 v0] l IH]; simpl; [done|]. intros d k Hnot.
  rewrite IH by tauto. apply lookup_insert_ne. tauto.
Qed.

Lemma dict_of_lookup {V : Type} (l : list (string * V)) k v :
  NoDup (List.map fst l) -> In (k, v) l -> Py.dict_of l !! k = Some v.
Proof.
  unfold Py.dict_of. generalize (∅ : gmap string V).
  induction l as [|[k0 v0] l IH]; simpl; [done|].
  intros d Hnd [[= -> ->]|Hin]; apply NoDup_cons in Hnd as [Hnot Hnd].
  - rewrite dict_of_other by (by rewrite <- list_elem_of_In).
    apply lookup_insert_eq.
  - by apply IH.
Qed.

Lemma record_lookup period income_data balance_data cash_flow_data ticker k v :
  In (k, v)
    [ ("revenue", ClearData.PNum (ClearData.get income_data "revenue" 0%Q));
      ("gross_profit",
        ClearData.PNum
          (ClearData.get income_data "gross_profit"
             (ClearData.get income_data "gross_profit_calculated" 0%Q)));
      ("ebitda", ClearData.PNum (ClearData.get income_data "operating_income" 0%Q));
      ("net_income", ClearData.PNum (ClearData.get income_data "net_income" 0%Q));
      ("total_assets", ClearData.PNum (ClearData.get balance_data "total_assets" 0%Q));
      ("total_liabilities",
        ClearData.PNum (ClearData.get balance_data "total_liabilities" 0%Q));
      ("total_debt", ClearData.PNum (ClearData.get balance_data "total_debt" 0%Q));
      ("capex",
        ClearData.PNum (Qabs (ClearData.get cash_flow_data "capital_expenditures" 0%Q)));
      ("free_cash_flow",
        ClearData.PNum
          (ClearData.get cash_flow_data "free_cash_flow"
             (ClearData.get cash_flow_data "free_cash_flow_calculated" 0%Q)));
      ("operating_cash_flow",
        ClearData.PNum (ClearData.get cash_flow_data "operating_cash_flow" 0%Q));
      ("cogs", ClearData.PNum (ClearData.get income_data "cost_of_revenue" 0%Q));
      ("sga_expense",
        ClearData.PNum (ClearData.get income_data "selling_general_admin" 0%Q));
      ("rd_expense",
        ClearData.PNum (ClearData.get income_data "research_development" 0%Q));
      ("operating_income",
        ClearData.PNum (ClearData.get income_data "operating_income" 0%Q)) ] ->
  ClearData.prepare_data_for_csv_generic period income_data balance_data
    cash_flow_data ticker !! k = Some v.
Proof.
  intros Hin. unfold ClearData.prepare_data_for_csv_generic.
  apply dict_of_lookup.
  - simpl. apply (bool_decide_unpack _). by vm_compute.
  - simpl in *. tauto.
Qed.

(** C7 as stated fails: with nothing extracted at all, the assembled
    record does not leave revenue absent, it stores 0 for it. *)
Lemma C7_absent_metric_counterexample :
  ClearData.prepare_data_for_csv_generic ∅ ∅ ∅ ∅ "ACME" !! "revenue" =
    Some (ClearData.PNum 0%Q) /\
  ~ (forall period (income_data balance_data cash_flow_data : gmap string Q)
       ticker,
       income_data !! "revenue" = None ->
       ClearData.prepare_data_for_csv_generic period income_data balance_data
         cash_flow_data ticker !! "revenue" = None).
Proof.
  split; [vm_compute; reflexivity|].
  intros H. specialize (H ∅ ∅ ∅ ∅ "ACME" (lookup_empty _)).
  vm_compute in H. discriminate.
Qed.

(** C8 at the failing input: a filing that reports revenue 5000, cost of
    revenue 3000 and gross profit 2500.  The derived field
    gross_profit_calculated is computed (2000) although gross_profit is
    reported; the record keeps the reported 2500. *)
Lemma C8_derived_despite_reported :
  let income_data :=
    ClearData.extract_income_statement_generic reported_findall reported_content in
  income_data !! "gross_profit" = Some 2500%Q /\
  income_data !! "gross_profit_calculated" = Some 2000%Q /\
  ClearData.prepare_data_for_csv_generic ∅ income_data ∅ ∅ "ACME"
    !! "gross_profit" = Some (ClearData.PNum 2500%Q).
Proof. repeat split; vm_compute; reflexivity. Qed.

(** * The ratio dictionaries *)

Lemma truthy_num_true v :
  Py.truthy_num v = true <-> exists d, v = Some d /\ ~ (d == 0)%Q.
Proof.
  unfold Py.truthy_num. destruct v as [d|].
  - rewrite negb_true_iff, <- not_true_iff_false, Qeq_bool_iff.
    split; [eauto | by intros (? & [= <-] & ?)].
  - split; [done | by intros (? & ? & _)].
Qed.




Lemma eval_ratio_nonzero r d :
  Ratios.denominator r = Some d -> ~ (d == 0)%Q ->
  Ratios.eval_ratio r =
  let* n := Ratios.numerator r in
  Ok (if Ratios.percent r then n / d * 100 else n / d)%Q.
Proof.
  intros Hd Hnz. unfold Ratios.eval_ratio.
  assert (Ht : Py.truthy_num (Ratios.denominator r) = true)
    by (apply truthy_num_true; eauto).
  rewrite Ht, Hd. destruct (Ratios.numerator r) as [n|e]; simpl; [|done].
  destruct (Qeq_bool d 0) eqn:E; [|done].
  by apply Qeq_bool_iff in E.
Qed.

Lemma eval_ratio_zero r :
  Ratios.denominator r = None \/
  (exists d, Ratios.denominator r = Some d /\ (d == 0)%Q) ->
  Ratios.eval_ratio r = Ok 0%Q.
Proof.
  intros H. unfold Ratios.eval_ratio.
  destruct (Py.truthy_num (Ratios.denominator r)) eqn:Ht; [|done].
  apply truthy_num_true in Ht as (d & Hd & Hnz).
  destruct H as [H|(d' & H & Hz)]; congruence.
Qed.

(** * The rows of [process_company], over all fiscal years *)

Import Props.

Local Arguments Nat.min : simpl never.

Lemma filter_app_length {A} (f : A -> bool) l1 l2 :
  length (List.filter f (l1 ++ l2)) =
  (length (List.filter f l1) + length (List.filter f l2))%nat.
Proof. by rewrite List.filter_app, List.length_app. Qed.

Lemma find_none_filter {A} (f : A -> bool) l :
  List.find f l = None -> List.filter f l = [].
Proof.
  induction l as [|x l IH]; simpl; [done|].
  destruct (f x); [done | exact IH].
Qed.

Lemma find_some_filter {A} (f : A -> bool) l x :
  List.find f l = Some x -> List.filter f l <> [] /\ In x l /\ f x = true.
Proof.
  intros H. apply List.find_some in H as [Hin Hf]. split; [|done].
  intros Hnil. assert (In x (List.filter f l)) as Hx by (apply List.filter_In; done).
  by rewrite Hnil in Hx.
Qed.

Lemma emit_ytd_rows y year_data s :
  exists added,
    rows (emit_ytd y year_data s) = (rows s ++ added)%list /\
    Forall (year_row y year_data) added /\
    Forall (fun r => r_value_type r = YTD) added /\
    quarters_shown (emit_ytd y year_data s) = quarters_shown s /\
    ytd_shown (emit_ytd y year_data s) =
      ytd_shown s || negb (Nat.eqb (quarter_slots year_data) 0) /\
    length added =
      (if ytd_shown s then 0
       else if Nat.eqb (quarter_slots year_data) 0 then 0 else 1)%nat.
Proof.
  unfold emit_ytd. destruct (ytd_shown s) eqn:Ey.
  { exists []. rewrite List.app_nil_r, Ey. by repeat split. }
  change (fun q => bool_decide (is_Some (year_data !! q))) with (present year_data).
  unfold quarter_slots.
  destruct (List.find (present year_data) quarters) as [q|] eqn:Ef.
  - apply find_some_filter in Ef as (Hne & Hin & Hp).
    unfold present in Hp. apply bool_decide_eq_true in Hp as [e He].
    rewrite He.
    destruct (List.filter (present year_data) quarters) as [|q0 l0] eqn:E; [done|].
    cbn [length Nat.eqb negb orb]. simpl. eexists. split; [reflexivity|].
    split; [|split; [by repeat constructor | by repeat split]].
    constructor; [|constructor]. split; [done|]. exists e. by repeat split.
  - apply find_none_filter in Ef. rewrite Ef. simpl.
    exists []. rewrite List.app_nil_r, Ey. by repeat split.
Qed.

Lemma fold_quarters_rows y year_data qs : forall s,
  (forall q, In q qs -> In q quarters) ->
  (quarters_shown s <= NUM_QUARTERS)%nat ->
  exists added,
    rows (fold_left (emit_quarter y year_data) qs s) = (rows s ++ added)%list /\
    Forall (fun r => year_row y year_data r /\ r_value_type r = Quarterly /\
                     In (r_fp r) qs) added /\
    quarters_shown (fold_left (emit_quarter y year_data) qs s) =
      Nat.min NUM_QUARTERS
        (quarters_shown s + length (List.filter (present year_data) qs)) /\
    ytd_shown (fold_left (emit_quarter y year_data) qs s) = ytd_shown s /\
    (quarters_shown s + length added =
     quarters_shown (fold_left (emit_quarter y year_data) qs s))%nat.
Proof.
  unfold NUM_QUARTERS.
  induction qs as [|q qs IH]; intros s Hsub Hs.
  - simpl. exists []. rewrite List.app_nil_r. repeat split; try done; simpl; lia.
  - cbn [fold_left].
    assert (Hstep : exists added1,
      rows (emit_quarter y year_data s q) = (rows s ++ added1)%list /\
      Forall (fun r => year_row y year_data r /\ r_value_type r = Quarterly /\
                       r_fp r = q) added1 /\
      quarters_shown (emit_quarter y year_data s q) =
        Nat.min 8 (quarters_shown s + (if present year_data q then 1 else 0)) /\
      ytd_shown (emit_quarter y year_data s q) = ytd_shown s /\
      (quarters_shown s + length added1 =
       quarters_shown (emit_quarter y year_data s q))%nat).
    { unfold emit_quarter, NUM_QUARTERS, present.
      destruct (Nat.leb_spec 8 (quarters_shown s)).
      - exists []. rewrite List.app_nil_r. repeat split; try done; simpl; try lia.
        all: destruct (bool_decide (is_Some (year_data !! q))); lia.
      - destruct (year_data !! q) as [e|] eqn:Eq.
        + rewrite bool_decide_eq_true_2 by eauto. simpl.
          eexists. split; [reflexivity|]. repeat split; try done; simpl; try lia.
          constructor; [|constructor]. repeat split; try done.
          exists e. repeat split; try done. simpl. apply Hsub. by left.
        + rewrite bool_decide_eq_false_2 by (intros [? ?]; done). simpl.
          exists []. rewrite List.app_nil_r. repeat split; try done; simpl; lia. }
    destruct Hstep as (added1 & Hr1 & Hf1 & Hq1 & Hy1 & Hl1).
    destruct (IH (emit_quarter y year_data s q)) as (added2 & Hr2 & Hf2 & Hq2 & Hy2 & Hl2).
    { intros q' Hq'. apply Hsub. by right. }
    { rewrite Hq1. lia. }
    exists (added1 ++ added2)%list. repeat split.
    + by rewrite Hr2, Hr1, List.app_assoc.
    + apply List.Forall_app. split.
      * eapply List.Forall_impl; [|exact Hf1]. intros r (? & ? & <-).
        split; [done|]. split; [done | by left].
      * eapply List.Forall_impl; [|exact Hf2]. intros r (? & ? & ?).
        split; [done|]. split; [done | by right].
    + rewrite Hq2, Hq1. cbn [List.filter].
      destruct (present year_data q); simpl; lia.
    + by rewrite Hy2.
    + rewrite List.length_app. lia.
Qed.

Lemma filter_all {A} (f : A -> bool) l :
  Forall (fun x => f x = true) l -> List.filter f l = l.
Proof.
  induction 1 as [|x l Hx _ IH]; simpl; [done|]. by rewrite Hx, IH.
Qed.

Lemma filter_none {A} (f : A -> bool) l :
  Forall (fun x => f x = false) l -> List.filter f l = [].
Proof.
  induction 1 as [|x l Hx _ IH]; simpl; [done|]. by rewrite Hx, IH.
Qed.

Lemma emit_year_rows fiscal_years s y :
  (quarters_shown s <= NUM_QUARTERS)%nat ->
  let year_data := default ∅ (fiscal_years !! y) in
  let s' := emit_year fiscal_years s y in
  exists added,
    rows s' = (rows s ++ added)%list /\
    Forall (year_row y year_data) added /\
    quarters_shown s' =
      Nat.min NUM_QUARTERS (quarters_shown s + quarter_slots year_data) /\
    (quarters_shown s + length (List.filter is_quarterly added) =
     quarters_shown s')%nat /\
    ytd_shown s' =
      ytd_shown s ||
      (negb (NUM_QUARTERS <=? quarters_shown s)%nat &&
       negb (Nat.eqb (quarter_slots year_data) 0)) /\
    length (List.filter is_ytd added) =
      (if ytd_shown s then 0
       else if (NUM_QUARTERS <=? quarters_shown s)%nat then 0
       else if Nat.eqb (quarter_slots year_data) 0 then 0 else 1)%nat.
Proof.
  intros Hs year_data s'. subst s'. unfold emit_year. fold year_data.
  unfold NUM_QUARTERS in *.
  destruct (Nat.leb_spec 8 (quarters_shown s)) as [Hge|Hlt].
  { exists []. rewrite List.app_nil_r. simpl.
    repeat split; try done; try lia.
    - by rewrite orb_false_r.
    - by destruct (ytd_shown s). }
  destruct (emit_ytd_rows y year_data s) as (a0 & Hr0 & Hf0 & Ht0 & Hq0 & Hy0 & Hl0).
  destruct (fold_quarters_rows y year_data quarters (emit_ytd y year_data s))
    as (a1 & Hr1 & Hf1 & Hq1 & Hy1 & Hl1); [done | unfold NUM_QUARTERS; lia |].
  unfold NUM_QUARTERS in *.
  set (s2 := fold_left (emit_quarter y year_data) quarters (emit_ytd y year_data s)) in *.
  assert (Hq0' : List.filter is_quarterly a0 = []).
  { apply filter_none. eapply List.Forall_impl; [|exact Ht0].
    intros r Hr. unfold is_quarterly. by rewrite Hr. }
  assert (Hq1' : List.filter is_quarterly a1 = a1).
  { apply filter_all. eapply List.Forall_impl; [|exact Hf1].
    intros r (_ & Hr & _). unfold is_quarterly. by rewrite Hr. }
  assert (Hy0' : List.filter is_ytd a0 = a0).
  { apply filter_all. eapply List.Forall_impl; [|exact Ht0].
    intros r Hr. unfold is_ytd. by rewrite Hr. }
  assert (Hy1' : List.filter is_ytd a1 = []).
  { apply filter_none. eapply List.Forall_impl; [|exact Hf1].
    intros r (_ & Hr & _). unfold is_ytd. by rewrite Hr. }
  assert (Hf1' : Forall (year_row y year_data) a1).
  { eapply List.Forall_impl; [|exact Hf1]. by intros r (? & _). }
  assert (Hcore :
    quarters_shown s2 = Nat.min 8 (quarters_shown s + quarter_slots year_data) /\
    (quarters_shown s + length a1 = quarters_shown s2)%nat /\
    ytd_shown s2 = ytd_shown s || negb (Nat.eqb (quarter_slots year_data) 0)).
  { rewrite Hq0 in Hq1, Hl1. rewrite Hy1, Hy0. by repeat split. }
  destruct Hcore as (Hc1 & Hc2 & Hc3).
  destruct (year_data !! "FY") as [fy_data|] eqn:Efy;
    [destruct (Nat.ltb_spec (quarters_shown s2) 8) as [Hlt2|Hge2]|].
  - exists (a0 ++ a1 ++
            [{| r_fy := y; r_fp := "FY"; r_end_date := e_end_date fy_data;
                r_filed := e_filed fy_data; r_value_type := Full_Year;
                r_value := format_value (e_value fy_data) |}])%list.
    cbn [rows add_row quarters_shown ytd_shown].
    split; [by rewrite Hr1, Hr0, <- !List.app_assoc|].
    split.
    { apply List.Forall_app; split; [done|]. apply List.Forall_app; split; [done|].
      constructor; [|done]. split; [done|]. exists fy_data. by repeat split. }
    rewrite !List.filter_app, Hq0', Hq1', Hy0', Hy1'. simpl.
    rewrite !List.length_app. simpl. rewrite Hl0.
    repeat split; try done; try lia.
  - exists (a0 ++ a1)%list.
    split; [by rewrite Hr1, Hr0, <- !List.app_assoc|].
    split; [by apply List.Forall_app|].
    rewrite !List.filter_app, Hq0', Hq1', Hy0', Hy1'. simpl.
    rewrite List.app_nil_r, Hl0.
    repeat split; try done; try lia.
  - exists (a0 ++ a1)%list.
    split; [by rewrite Hr1, Hr0, <- !List.app_assoc|].
    split; [by apply List.Forall_app|].
    rewrite !List.filter_app, Hq0', Hq1', Hy0', Hy1'. simpl.
    rewrite List.app_nil_r, Hl0.
    repeat split; try done; try lia.
Qed.

Lemma emit_fold fiscal_years ys : forall s n,
  quarters_shown s = Nat.min NUM_QUARTERS n ->
  ytd_shown s = (0 <? n)%nat ->
  let s' := fold_left (emit_year fiscal_years) ys s in
  let n' :=
    (n + list_sum
           (List.map (fun y => quarter_slots (default ∅ (fiscal_years !! y))) ys))%nat in
  exists added,
    rows s' = (rows s ++ added)%list /\
    Forall (fun r => In (r_fy r) ys /\
                     year_row (r_fy r) (default ∅ (fiscal_years !! r_fy r)) r)
           added /\
    quarters_shown s' = Nat.min NUM_QUARTERS n' /\
    ytd_shown s' = (0 <? n')%nat /\
    (quarters_shown s + length (List.filter is_quarterly added) =
     quarters_shown s')%nat /\
    length (List.filter is_ytd added) =
      (if (0 <? n)%nat then 0 else if (0 <? n')%nat then 1 else 0)%nat.
Proof.
  unfold NUM_QUARTERS.
  induction ys as [|y ys IH]; intros s n Hq Hy; cbn [fold_left List.map list_sum].
  - exists []. rewrite List.app_nil_r, Nat.add_0_r. simpl.
    repeat split; try done; try lia. by destruct (0 <? n)%nat.
  - destruct (emit_year_rows fiscal_years s y)
      as (a1 & Hr1 & Hf1 & Hq1 & Hl1 & Hy1 & Hc1); [unfold NUM_QUARTERS; lia|].
    unfold NUM_QUARTERS in *.
    set (k := quarter_slots (default ∅ (fiscal_years !! y))) in *.
    set (s1 := emit_year fiscal_years s y) in *.
    destruct (IH s1 (n + k)%nat) as (a2 & Hr2 & Hf2 & Hq2 & Hy2 & Hl2 & Hc2).
    { rewrite Hq1, Hq. lia. }
    { rewrite Hy1, Hy, Hq.
      destruct (Nat.ltb_spec 0 n), (Nat.ltb_spec 0 (n + k)), (Nat.leb_spec 8 (Nat.min 8 n)),
        (Nat.eqb_spec k 0); simpl; try done; lia. }
    exists (a1 ++ a2)%list. fold k. simpl list_sum.
    rewrite !List.filter_app, !List.length_app, !Nat.add_assoc.
    split; [by rewrite Hr2, Hr1, List.app_assoc|].
    split.
    { apply List.Forall_app. split.
      - eapply List.Forall_impl; [|exact Hf1]. intros r Hr.
        pose proof Hr as [<- _]. split; [by left | done].
      - eapply List.Forall_impl; [|exact Hf2]. intros r [? ?]. split; [by right | done]. }
    split; [done|]. split; [done|]. split; [lia|].
    rewrite Hc1, Hc2, Hy, Hq.
    destruct (Nat.ltb_spec 0 n), (Nat.ltb_spec 0 (n + k)),
      (Nat.ltb_spec 0 (n + k + list_sum
         (List.map (fun y => quarter_slots (default ∅ (fiscal_years !! y))) ys))),
      (Nat.leb_spec 8 (Nat.min 8 n)), (Nat.eqb_spec k 0); simpl; lia.
Qed.

Lemma emit_rows fiscal_years :
  let n := total_quarter_slots fiscal_years in
  Forall (fun r => In (r_fy r) (sorted_years fiscal_years) /\
                   year_row (r_fy r) (default ∅ (fiscal_years !! r_fy r)) r)
         (emit fiscal_years) /\
  length (List.filter is_quarterly (emit fiscal_years)) = Nat.min NUM_QUARTERS n /\
  length (List.filter is_ytd (emit fiscal_years)) =
    (if Nat.eqb n 0 then 0 else 1)%nat.
Proof.
  intros n. unfold emit.
  destruct (emit_fold fiscal_years (sorted_years fiscal_years)
              {| rows := []; quarters_shown := 0; ytd_shown := false |} 0%nat)
    as (added & Hr & Hf & Hq & Hy & Hl & Hc); [done | done |].
  simpl in Hr, Hl, Hc, Hq. rewrite Hr. fold (total_quarter_slots fiscal_years) in *.
  fold n in Hq, Hc. split; [done|]. split; [lia|].
  rewrite Hc. destruct (Nat.ltb_spec 0 n), (Nat.eqb_spec n 0); lia.
Qed.

Lemma sorted_app_intro {A} (R : A -> A -> Prop) l1 l2 :
  StronglySorted R l1 -> StronglySorted R l2 ->
  (forall x y, In x l1 -> In y l2 -> R x y) ->
  StronglySorted R (l1 ++ l2).
Proof.
  induction 1 as [|x l1 Hl1 IH Hx]; simpl; intros H2 Hc; [done|].
  constructor.
  - apply IH; [done|]. intros; apply Hc; [by right | done].
  - apply List.Forall_app. split; [done|].
    apply List.Forall_forall. intros z Hz. apply Hc; [by left | done].
Qed.

Lemma same_year_sorted y l :
  Forall (fun r => r_fy r = y) l -> StronglySorted fy_ge l.
Proof.
  induction 1 as [|r l Hr Hl IH]; constructor; [done|].
  eapply List.Forall_impl; [|exact Hl]. intros r' Hr'. unfold fy_ge.
  simpl in Hr'. rewrite Hr, Hr'. lia.
Qed.

Lemma insert_year_in y l z : In z (insert_year y l) <-> z = y \/ In z l.
Proof.
  induction l as [|x l IH]; simpl; [intuition congruence|].
  destruct (y <? x); simpl; rewrite ?IH; intuition congruence.
Qed.

Lemma insert_year_sorted y l :
  StronglySorted (fun a b => b <= a) l ->
  StronglySorted (fun a b => b <= a) (insert_year y l).
Proof.
  induction 1 as [|x l Hl IH Hx]; simpl; [by repeat constructor|].
  destruct (Z.ltb_spec y x).
  - constructor; [done|]. apply List.Forall_forall. intros z Hz.
    apply insert_year_in in Hz as [->|Hz]; [lia|].
    rewrite List.Forall_forall in Hx. by apply Hx.
  - constructor; [by constructor|]. constructor; [done|].
    eapply List.Forall_impl; [|exact Hx]. simpl. intros; lia.
Qed.

Lemma sorted_years_sorted fiscal_years :
  StronglySorted (fun a b => b <= a) (sorted_years fiscal_years).
Proof.
  unfold sorted_years. induction (elements (dom fiscal_years)) as [|y l IH]; simpl.
  - constructor.
  - by apply insert_year_sorted.
Qed.

Lemma sorted_years_in fiscal_years y :
  In y (sorted_years fiscal_years) <-> is_Some (fiscal_years !! y).
Proof.
  rewrite <- elem_of_dom, <- elem_of_elements, list_elem_of_In.
  unfold sorted_years. induction (elements (dom fiscal_years)) as [|x l IH]; simpl.
  - tauto.
  - rewrite insert_year_in, IH. intuition congruence.
Qed.

Lemma emit_fold_sorted fiscal_years ys :
  StronglySorted (fun a b => b <= a) ys ->
  forall s, (quarters_shown s <= NUM_QUARTERS)%nat ->
  exists added,
    rows (fold_left (emit_year fiscal_years) ys s) = (rows s ++ added)%list /\
    Forall (fun r => In (r_fy r) ys) added /\
    StronglySorted fy_ge added.
Proof.
  induction 1 as [|y ys Hys IH Hy]; intros s Hs; cbn [fold_left].
  - exists []. rewrite List.app_nil_r. repeat split; constructor.
  - destruct (emit_year_rows fiscal_years s y)
      as (a1 & Hr1 & Hf1 & Hq1 & _); [done|].
    destruct (IH (emit_year fiscal_years s y)) as (a2 & Hr2 & Hf2 & Hs2).
    { rewrite Hq1. unfold NUM_QUARTERS. lia. }
    assert (Hy1 : Forall (fun r => r_fy r = y) a1).
    { eapply List.Forall_impl; [|exact Hf1]. by intros r [? _]. }
    exists (a1 ++ a2)%list. split; [by rewrite Hr2, Hr1, List.app_assoc|]. split.
    + apply List.Forall_app. split.
      * eapply List.Forall_impl; [|exact Hy1]. intros r <-. by left.
      * eapply List.Forall_impl; [|exact Hf2]. intros r ?. by right.
    + apply sorted_app_intro; [by apply (same_year_sorted y) | done |].
      intros r1 r2 H1 H2. unfold fy_ge.
      rewrite List.Forall_forall in Hy1, Hf2, Hy.
      rewrite (Hy1 _ H1). apply Hy. by apply Hf2.
Qed.

(** X1: The loop shows quarters until [NUM_QUARTERS] are shown: the number of
    'Quarterly' rows is the number of quarter slots stored, capped at 8. *)
Theorem quarterly_rows_capped fiscal_years :
  length (List.filter is_quarterly (emit fiscal_years)) =
  Nat.min NUM_QUARTERS (total_quarter_slots fiscal_years).
Proof. apply emit_rows. Qed.

(** X2: There is one 'YTD' row when some fiscal year has a quarter slot, and
    none otherwise. *)
Theorem single_ytd_row fiscal_years :
  length (List.filter is_ytd (emit fiscal_years)) =
  (if Nat.eqb (total_quarter_slots fiscal_years) 0 then 0 else 1)%nat.
Proof. apply emit_rows. Qed.

(** X3: The rows come out by fiscal year, the latest first. *)
Theorem rows_latest_year_first fiscal_years :
  StronglySorted fy_ge (emit fiscal_years).
Proof.
  unfold emit.
  destruct (emit_fold_sorted fiscal_years (sorted_years fiscal_years)
              (sorted_years_sorted fiscal_years)
              {| rows := []; quarters_shown := 0; ytd_shown := false |})
    as (added & Hr & _ & Hs); [simpl; unfold NUM_QUARTERS; lia|].
  by rewrite Hr.
Qed.

(** X4: Every row is made from a stored slot: it repeats the slot's period
    end and filing date, a 'YTD' or 'Full Year' row carries the slot's
    value and a 'Quarterly' row the slot's value differenced within its
    own fiscal year. *)
Theorem rows_come_from_slots fiscal_years r :
  In r (emit fiscal_years) -> row_of_slot fiscal_years r.
Proof.
  intros Hin. destruct (emit_rows fiscal_years) as [Hf _].
  rewrite List.Forall_forall in Hf. destruct (Hf r Hin) as [_ [_ (e & He & H)]].
  exists e. split; [|done]. unfold lookup2. simpl.
  destruct (fiscal_years !! r_fy r); simpl in *; [done|].
  by rewrite lookup_empty in He.
Qed.

Lemma rows_come_from_slots_witness :
  row_of_slot {[2023 := year_2023 [q1_100; q2_250]]}
    (quarterly_row 2023 "Q2" (entry_of q2_250) (Some 150)).
Proof.
  apply rows_come_from_slots. vm_compute. tauto.
Defined.

(** * Which quarters are shown *)

Lemma fold_quarters_present y year_data qs : forall s q q_data,
  (quarters_shown s + length (List.filter (present year_data) qs) <= NUM_QUARTERS)%nat ->
  In q qs -> year_data !! q = Some q_data ->
  In (quarterly_row y q q_data (format_value (quarterly_value year_data q q_data)))
     (rows (fold_left (emit_quarter y year_data) qs s)).
Proof.
  unfold NUM_QUARTERS.
  induction qs as [|q0 qs IH]; intros s q q_data Hs Hin Hq; [done|].
  cbn [fold_left]. cbn [List.filter] in Hs. destruct Hin as [->|Hin].
  - apply fold_quarters_mono. unfold emit_quarter, NUM_QUARTERS.
    assert (Hp : present year_data q = true)
      by (unfold present; apply bool_decide_eq_true; eauto).
    rewrite Hp in Hs. simpl in Hs.
    destruct (Nat.leb_spec 8 (quarters_shown s)); [lia|].
    rewrite Hq. simpl. apply in_or_app. right. by left.
  - apply IH; [|done|done].
    pose proof (emit_quarter_shown y year_data s q0) as Hle.
    destruct (present year_data q0) eqn:Hp; simpl in Hs; [lia|].
    assert (Hn : year_data !! q0 = None).
    { unfold present in Hp. apply bool_decide_eq_false in Hp.
      destruct (year_data !! q0); [by destruct Hp; eauto | done]. }
    unfold emit_quarter. rewrite Hn.
    by destruct (NUM_QUARTERS <=? quarters_shown s)%nat.
Qed.

Lemma emit_year_quarter fiscal_years s y q q_data :
  let year_data := default ∅ (fiscal_years !! y) in
  (quarters_shown s + quarter_slots year_data <= NUM_QUARTERS)%nat ->
  In q quarters -> year_data !! q = Some q_data ->
  In (quarterly_row y q q_data (format_value (quarterly_value year_data q q_data)))
     (rows (emit_year fiscal_years s y)).
Proof.
  intros year_data Hs Hin Hq. unfold emit_year. fold year_data.
  assert (Hp : (1 <= quarter_slots year_data)%nat).
  { unfold quarter_slots.
    assert (In q (List.filter (present year_data) quarters)) as Hi.
    { apply List.filter_In. split; [done|]. unfold present.
      apply bool_decide_eq_true. eauto. }
    destruct (List.filter (present year_data) quarters); [done | simpl; lia]. }
  unfold NUM_QUARTERS in *.
  destruct (Nat.leb_spec 8 (quarters_shown s)); [lia|].
  assert (Hrow :
    In (quarterly_row y q q_data (format_value (quarterly_value year_data q q_data)))
       (rows (fold_left (emit_quarter y year_data) quarters (emit_ytd y year_data s)))).
  { apply fold_quarters_present; [|done|done].
    rewrite emit_ytd_shown. unfold quarter_slots, NUM_QUARTERS in *. lia. }
  destruct (year_data !! "FY"); [|done].
  destruct (_ <? 8)%nat; [|done].
  cbn [rows add_row]. apply in_or_app. by left.
Qed.

Lemma emit_fold_quarter fiscal_years ys :
  StronglySorted (fun a b => b <= a) ys ->
  forall s n y q q_data,
    quarters_shown s = Nat.min NUM_QUARTERS n ->
    In y ys -> In q quarters ->
    default ∅ (fiscal_years !! y) !! q = Some q_data ->
    (n + list_sum
           (List.map (fun y' => quarter_slots (default ∅ (fiscal_years !! y')))
              (List.filter (fun y' => (y <=? y')%Z) ys)) <= NUM_QUARTERS)%nat ->
    In (quarterly_row y q q_data
          (format_value (quarterly_value (default ∅ (fiscal_years !! y)) q q_data)))
       (rows (fold_left (emit_year fiscal_years) ys s)).
Proof.
  unfold NUM_QUARTERS.
  induction 1 as [|y0 ys Hys IH Hy0]; intros s n y q q_data Hs Hy Hq He Hn; [done|].
  cbn [fold_left]. cbn [List.filter] in Hn.
  destruct (emit_year_rows fiscal_years s y0) as (a1 & Hr1 & _ & Hq1 & _);
    [unfold NUM_QUARTERS; lia|].
  unfold NUM_QUARTERS in Hq1.
  destruct Hy as [->|Hy].
  - rewrite (proj2 (Z.leb_le y y)) in Hn by lia. simpl in Hn.
    destruct (emit_fold_sorted fiscal_years ys Hys (emit_year fiscal_years s y))
      as (a2 & Hr2 & _); [rewrite Hq1; unfold NUM_QUARTERS; lia|].
    rewrite Hr2. apply in_or_app. left.
    apply emit_year_quarter; [unfold NUM_QUARTERS; lia | done | done].
  - assert (Hle : y <= y0) by (rewrite List.Forall_forall in Hy0; by apply Hy0).
    rewrite (proj2 (Z.leb_le y y0)) in Hn by done. simpl in Hn.
    apply (IH _ (n + quarter_slots (default ∅ (fiscal_years !! y0)))%nat);
      try done; [|lia].
    rewrite Hq1, Hs. lia.
Qed.

(** A quarter of fiscal year [y] is shown when [y] and the later years
    hold at most [NUM_QUARTERS] quarters. *)
Lemma emit_recent_quarter fiscal_years y year_data q q_data :
  fiscal_years !! y = Some year_data -> year_data !! q = Some q_data ->
  In q quarters ->
  (recent_quarter_slots fiscal_years y <= NUM_QUARTERS)%nat ->
  In (quarterly_row y q q_data (format_value (quarterly_value year_data q q_data)))
     (emit fiscal_years).
Proof.
  intros Hy Hq Hin Hn. unfold emit.
  pose proof (emit_fold_quarter fiscal_years (sorted_years fiscal_years)
                (sorted_years_sorted fiscal_years)
                {| rows := []; quarters_shown := 0; ytd_shown := false |}
                0%nat y q q_data) as H.
  rewrite Hy in H. simpl default in H. apply H; try done.
  apply sorted_years_in. eauto.
Qed.

(** * A fiscal year within the cap: the quarters add up *)

Lemma quarterly_value_sub year_data q p q_data p_data v w :
  prev_q q = Some p -> year_data !! p = Some p_data ->
  e_value q_data = Some v -> e_value p_data = Some w -> v <> 0 ->
  quarterly_value year_data q q_data = Some (v - w).
Proof.
  intros Hp Hpd Hv Hw Hv0. unfold quarterly_value.
  rewrite Hp, Hpd, Hv, Hw. simpl.
  destruct (Z.eqb_spec w 0) as [->|_], (Z.eqb_spec v 0); simpl; try done.
  f_equal. lia.
Qed.

(** X5: on integer amounts, when the four quarters of a fiscal year are
    stored, the YTD values of Q2, Q3 and Q4 are not zero, and the year
    and the later ones hold at most eight quarters, the 'Quarterly' rows
    of the year are the four rows of its quarters, and their values add
    up to YTD(Q4). *)
Theorem quarters_add_up_to_ytd fiscal_years y year_data e1 e2 e3 e4 v1 v2 v3 v4 :
  fiscal_years !! y = Some year_data ->
  (recent_quarter_slots fiscal_years y <= NUM_QUARTERS)%nat ->
  year_data !! "Q1" = Some e1 -> year_data !! "Q2" = Some e2 ->
  year_data !! "Q3" = Some e3 -> year_data !! "Q4" = Some e4 ->
  e_value e1 = Some v1 -> e_value e2 = Some v2 ->
  e_value e3 = Some v3 -> e_value e4 = Some v4 ->
  v2 <> 0 -> v3 <> 0 -> v4 <> 0 ->
  exists d1 d2 d3 d4,
    let year_rows :=
      [ quarterly_row y "Q4" e4 (Some d4); quarterly_row y "Q3" e3 (Some d3);
        quarterly_row y "Q2" e2 (Some d2); quarterly_row y "Q1" e1 (Some d1) ] in
    (forall r, In r year_rows -> In r (emit fiscal_years)) /\
    (forall r, In r (emit fiscal_years) -> r_value_type r = Quarterly ->
               r_fy r = y -> In r year_rows) /\
    d1 + d2 + d3 + d4 = v4.
Proof.
  intros Hy Hcap H1 H2 H3 H4 Hv1 Hv2 Hv3 Hv4 N2 N3 N4.
  exists v1, (v2 - v1), (v3 - v2), (v4 - v3).
  assert (Q1 : quarterly_value year_data "Q1" e1 = Some v1) by done.
  pose proof (quarterly_value_sub year_data "Q2" "Q1" e2 e1 v2 v1
                eq_refl H1 Hv2 Hv1 N2) as Q2.
  pose proof (quarterly_value_sub year_data "Q3" "Q2" e3 e2 v3 v2
                eq_refl H2 Hv3 Hv2 N3) as Q3.
  pose proof (quarterly_value_sub year_data "Q4" "Q3" e4 e3 v4 v3
                eq_refl H3 Hv4 Hv3 N4) as Q4.
  cbv zeta. split; [|split; [|lia]].
  - intros r [<-|[<-|[<-|[<-|[]]]]].
    + rewrite <- Q4. by apply (emit_recent_quarter fiscal_years y year_data);
        [| |simpl; tauto|].
    + rewrite <- Q3. by apply (emit_recent_quarter fiscal_years y year_data);
        [| |simpl; tauto|].
    + rewrite <- Q2. by apply (emit_recent_quarter fiscal_years y year_data);
        [| |simpl; tauto|].
    + rewrite <- Q1. by apply (emit_recent_quarter fiscal_years y year_data);
        [| |simpl; tauto|].
  - intros r Hr Ht Hfy.
    destruct (emit_rows fiscal_years) as [Hrows _].
    rewrite List.Forall_forall in Hrows.
    destruct (Hrows r Hr) as [_ [_ (e & He & Hend & Hfiled & Hv & Hq)]].
    rewrite Hfy, Hy in He, Hv. simpl in He, Hv. rewrite Ht in Hv, Hq.
    destruct r as [fy fp end_date filed_date value_type value].
    simpl in *. subst fy value_type. unfold quarterly_row.
    destruct Hq as [<-|[<-|[<-|[<-|[]]]]].
    + left. rewrite H4 in He. injection He as <-. rewrite Q4 in Hv. by subst.
    + right; left. rewrite H3 in He. injection He as <-. rewrite Q3 in Hv. by subst.
    + right; right; left. rewrite H2 in He. injection He as <-.
      rewrite Q2 in Hv. by subst.
    + right; right; right; left. rewrite H1 in He. injection He as <-.
      rewrite Q1 in Hv. by subst.
Qed.

Lemma quarters_add_up_to_ytd_witness :
  exists d1 d2 d3 d4,
    let fiscal_years :=
      {[2023 := year_2023 [q1_100; q2_250; q3_400; q4_500]]} in
    let year_rows :=
      [ quarterly_row 2023 "Q4" (entry_of q4_500) (Some d4);
        quarterly_row 2023 "Q3" (entry_of q3_400) (Some d3);
        quarterly_row 2023 "Q2" (entry_of q2_250) (Some d2);
        quarterly_row 2023 "Q1" (entry_of q1_100) (Some d1) ] in
    (forall r, In r year_rows -> In r (emit fiscal_years)) /\
    (forall r, In r (emit fiscal_years) -> r_value_type r = Quarterly ->
               r_fy r = 2023 -> In r year_rows) /\
    d1 + d2 + d3 + d4 = 500.
Proof.
  apply (quarters_add_up_to_ytd
           {[2023 := year_2023 [q1_100; q2_250; q3_400; q4_500]]} 2023
           (year_2023 [q1_100; q2_250; q3_400; q4_500])
           (entry_of q1_100) (entry_of q2_250) (entry_of q3_400) (entry_of q4_500)
           100 250 400 500); vm_compute; (reflexivity || discriminate || lia).
Defined.

(** * Which facts reach the slots, and which runs raise *)

Lemma pick_none_raise_inv g e :
  pick None g = Raise e ->
  e = TypeError /\ (2 <= length g)%nat /\ Exists (fun x => filed x = None) g.
Proof.
  intros H. destruct g as [|x [|y g]]; [done|done|].
  destruct (decide (Exists (fun x => filed x = None) (x :: y :: g))) as [He|He].
  - rewrite pick_none_raise in H by (simpl; lia || done).
    injection H as <-. split; [done|]. split; [simpl; lia | done].
  - apply not_Exists_Forall in He; [|intros z; apply _].
    destruct (pick_none_ok (x :: y :: g)) as (pre & b & post & _ & Hp & _);
      [exact He | done | congruence].
Qed.

Lemma group_perm kk l1 l2 :
  Permutation l1 l2 -> Permutation (group kk l1) (group kk l2).
Proof. apply filter_perm. Qed.

Lemma emit_empty : emit ∅ = [].
Proof. reflexivity. Qed.

(** X6: On facts whose fields are each a value or a missing key (none a
    JSON null), the only exception that escapes the reconciliation of
    one metric is the TypeError of the date comparison, and it escapes
    exactly when some period has two or more facts (with form 10-Q or
    10-K, a fiscal year and a period end) of which one lacks its filing
    date. *)
Theorem reconciliation_raises_only_on_missing_filed l :
  (forall e, process_metric (Some l) = Raise e -> e = TypeError) /\
  (process_metric (Some l) = Raise TypeError <->
   exists kk,
     (2 <= length (group kk (List.filter is_10Q_or_10K l)))%nat /\
     Exists (fun x => filed x = None) (group kk (List.filter is_10Q_or_10K l))).
Proof.
  unfold process_metric, extract_quarterly_data.
  set (data := List.filter is_10Q_or_10K l).
  assert (Hg : forall kk, Permutation (group kk (sort_desc data)) (group kk data))
    by (intros; apply group_perm, sort_desc_perm).
  destruct (sort_desc data) as [|x all_data] eqn:Es.
  { simpl. split; [done|]. split; [done|].
    intros (kk & Hlen & _). specialize (Hg kk). simpl in Hg.
    apply Permutation_nil in Hg. rewrite Hg in Hlen. simpl in Hlen. lia. }
  simpl negb. cbn [andb].
  destruct (collect ∅ (x :: all_data)) as [fys|e] eqn:Ec.
  - cbn [bind]. split; [done|]. split; [done|].
    intros (kk & Hlen & Hex).
    pose proof (collect_ok _ _ _ Ec kk) as Hp. rewrite lookup2_empty in Hp.
    rewrite pick_none_raise in Hp; [done| |].
    + by rewrite (Permutation_length (Hg kk)).
    + by rewrite (Hg kk).
  - cbn [bind]. apply collect_raise in Ec as [-> [kk Hp]].
    rewrite lookup2_empty in Hp.
    apply pick_none_raise_inv in Hp as (_ & Hlen & Hex).
    split; [by intros e [= <-]|]. split; [|done].
    intros _. exists kk. split.
    + by rewrite <- (Permutation_length (Hg kk)).
    + by rewrite <- (Hg kk).
Qed.

Lemma reconciliation_raises_only_on_missing_filed_witness :
  process_metric (Some [nofiled_10; nofiled_12]) = Raise TypeError.
Proof.
  apply (proj2 (reconciliation_raises_only_on_missing_filed
                  [nofiled_10; nofiled_12])).
  exists (2023, "Q1"). split.
  - vm_compute. lia.
  - vm_compute. left. reflexivity.
Defined.

(** X7: On facts whose fields are each a value or a missing key (none a
    JSON null), after a run of the loop without exception
    [fiscal_years] holds a slot exactly for the periods of the facts
    that carry a fiscal year and a period end; a fact without the key
    'fp' counts for the period 'FY'. *)
Theorem slots_are_the_periods_met all_data fiscal_years kk :
  collect ∅ all_data = Ok fiscal_years ->
  (is_Some (lookup2 fiscal_years kk) <->
   exists item, In item all_data /\ period_of item = Some kk).
Proof.
  intros Hc. pose proof (collect_ok _ _ _ Hc kk) as Hp.
  rewrite lookup2_empty in Hp. split.
  - intros [e He]. destruct (group kk all_data) as [|x g] eqn:Eg.
    + simpl in Hp. congruence.
    + exists x. apply in_group. rewrite Eg. by left.
  - intros (item & Hin & Hk).
    apply pick_none_inv in Hp as (pre & b & post & _ & -> & _); [eauto|].
    intros Hnil. assert (In item (group kk all_data)) as Hi by by apply in_group.
    by rewrite Hnil in Hi.
Qed.

Lemma slots_are_the_periods_met_witness :
  is_Some (lookup2 {[2023 := year_2023 [dup_12]]} (2023, "Q1")) <->
  exists item, In item [dup_10; dup_12] /\ period_of item = Some (2023, "Q1").
Proof.
  apply slots_are_the_periods_met. vm_compute. reflexivity.
Defined.

(** * Facts the loop drops *)

Lemma insert_desc_head x l :
  Forall (fun z => key_ge x z) l -> insert_desc x l = x :: l.
Proof.
  destruct l as [|y l]; simpl; [done|]. intros H.
  apply List.Forall_cons_iff in H as [H _]. unfold key_ge in H. unfold key_lt.
  by destruct (key_compare (sort_key x) (sort_key y)).
Qed.

Lemma filter_insert_desc (p : fact -> bool) x l :
  StronglySorted key_ge l ->
  List.filter p (insert_desc x l) =
  if p x then insert_desc x (List.filter p l) else List.filter p l.
Proof.
  induction 1 as [|y l Hl IH Hy]; simpl.
  - by destruct (p x).
  - destruct (key_lt (sort_key x) (sort_key y)) eqn:Elt; simpl.
    + rewrite IH. destruct (p x), (p y); simpl; try done. by rewrite Elt.
    + destruct (p x); [|done].
      rewrite insert_desc_head; [done|].
      assert (Hxy : key_ge x y).
      { unfold key_ge. unfold key_lt in Elt.
        by destruct (key_compare (sort_key x) (sort_key y)). }
      assert (Hall : Forall (key_ge x) (y :: l)).
      { constructor; [done|]. eapply List.Forall_impl; [|exact Hy].
        intros z Hz. by apply key_ge_trans with y. }
      apply List.Forall_forall. intros z Hz.
      rewrite List.Forall_forall in Hall. apply Hall.
      change (In z (List.filter p (y :: l))) in Hz.
      apply List.filter_In in Hz. tauto.
Qed.

(** The stable sort and a filter can be exchanged. *)
Lemma sort_desc_filter (p : fact -> bool) l :
  sort_desc (List.filter p l) = List.filter p (sort_desc l).
Proof.
  induction l as [|x l IH]; simpl; [done|].
  rewrite filter_insert_desc by apply sort_desc_sorted.
  destruct (p x); simpl; by rewrite IH.
Qed.

Lemma collect_skip l : forall fys,
  collect fys l =
  collect fys (List.filter (fun item => bool_decide (is_Some (period_of item))) l).
Proof.
  induction l as [|item l IH]; intros fys; simpl; [done|].
  destruct (period_of item) as [kk|] eqn:Ep.
  - rewrite bool_decide_eq_true_2 by eauto. simpl.
    destruct (store_fact fys item); simpl; [apply IH | done].
  - rewrite bool_decide_eq_false_2 by (by intros [? ?]).
    rewrite store_fact_skip by done. simpl. apply IH.
Qed.

Lemma filter_filter {A} (f g : A -> bool) l :
  List.filter f (List.filter g l) = List.filter (fun x => g x && f x) l.
Proof.
  induction l as [|x l IH]; simpl; [done|].
  destruct (g x); simpl; [|done]. destruct (f x); by rewrite IH.
Qed.

(** X8: On facts whose fields are each a value or a missing key (none a
    JSON null), the facts whose form is neither 10-Q nor 10-K, or that
    lack the key of the fiscal year or of the period end (or have the
    fiscal year 0 or an empty period end), have no influence on the
    rows: the result is the same without them. *)
Theorem dropped_facts_do_not_matter l :
  process_metric (Some l) = process_metric (Some (List.filter usable l)).
Proof.
  unfold process_metric, extract_quarterly_data.
  set (p := fun item => bool_decide (is_Some (period_of item))).
  assert (Hf : List.filter is_10Q_or_10K (List.filter usable l) =
               List.filter p (List.filter is_10Q_or_10K l)).
  { rewrite !filter_filter. apply List.filter_ext. intros x. unfold usable, p.
    destruct (is_10Q_or_10K x), (bool_decide _); done. }
  rewrite Hf, (sort_desc_filter p).
  generalize (sort_desc (List.filter is_10Q_or_10K l)). intros all_data.
  rewrite (collect_skip all_data ∅). fold p.
  destruct all_data as [|x all_data]; [done|].
  destruct (List.filter p (x :: all_data)) as [|x' l'] eqn:E; [|done].
  cbn. by rewrite emit_empty.
Qed.

(** * From the facts to the slots *)

Lemma in_all_data metric_data x :
  In x (all_data_of metric_data) <-> In x metric_data /\ is_10Q_or_10K x = true.
Proof.
  unfold all_data_of, extract_quarterly_data. cbn [fst].
  rewrite <- List.filter_In. split; apply Permutation_in.
  - apply sort_desc_perm.
  - symmetry. apply sort_desc_perm.
Qed.

Lemma collect_total l :
  Forall (fun item => filed item <> None) l ->
  exists fiscal_years, collect ∅ l = Ok fiscal_years.
Proof.
  intros Hf. destruct (collect ∅ l) as [fys|e] eqn:Ec; [eauto|].
  apply collect_raise in Ec as [_ [kk Hp]]. rewrite lookup2_empty in Hp.
  apply pick_none_raise_inv in Hp as (_ & _ & Hex).
  apply List.Exists_exists in Hex as (x & Hx & Hnone).
  apply in_group in Hx as [Hx _].
  rewrite List.Forall_forall in Hf. by destruct (Hf x Hx).
Qed.

Lemma process_metric_collect metric_data fiscal_years :
  collect ∅ (all_data_of metric_data) = Ok fiscal_years ->
  process_metric (Some metric_data) = Ok (emit fiscal_years).
Proof.
  unfold all_data_of, process_metric. cbn [extract_quarterly_data fst].
  destruct (sort_desc (List.filter is_10Q_or_10K metric_data)) as [|x l].
  - simpl. by intros [= <-].
  - intros ->. reflexivity.
Qed.

Lemma slot_kept l fiscal_years kk e :
  collect ∅ l = Ok fiscal_years -> lookup2 fiscal_years kk = Some e ->
  exists item, In item l /\ period_of item = Some kk /\ e = entry_of item.
Proof.
  intros Hc He. pose proof (collect_ok _ _ _ Hc kk) as Hp.
  rewrite lookup2_empty, He in Hp.
  apply pick_none_inv in Hp as (pre & b & post & Hg & [= ->] & _).
  - exists b. assert (In b (group kk l)) as Hb
      by (rewrite Hg; apply in_or_app; right; by left).
    apply in_group in Hb as [? ?]. done.
  - intros Hnil. rewrite Hnil in Hp. simpl in Hp. congruence.
Qed.

Lemma slot_empty l fiscal_years kk :
  collect ∅ l = Ok fiscal_years ->
  (forall item, In item l -> period_of item <> Some kk) ->
  lookup2 fiscal_years kk = None.
Proof.
  intros Hc Hno. destruct (lookup2 fiscal_years kk) as [e|] eqn:He; [|done].
  destruct (slot_kept _ _ _ _ Hc He) as (item & Hin & Hk & _).
  by destruct (Hno item Hin).
Qed.

Lemma slot_filled l fiscal_years kk item :
  collect ∅ l = Ok fiscal_years -> In item l -> period_of item = Some kk ->
  is_Some (lookup2 fiscal_years kk).
Proof.
  intros Hc Hin Hk. pose proof (collect_ok _ _ _ Hc kk) as Hp.
  rewrite lookup2_empty in Hp.
  apply pick_none_inv in Hp as (pre & b & post & _ & -> & _); [eauto|].
  intros Hnil. assert (In item (group kk l)) as Hi by by apply in_group.
  by rewrite Hnil in Hi.
Qed.

Lemma lookup2_year (fiscal_years : gmap Z (gmap string entry)) y k :
  lookup2 fiscal_years (y, k) = default ∅ (fiscal_years !! y) !! k.
Proof.
  unfold lookup2. simpl. destruct (fiscal_years !! y); simpl; [done|].
  by rewrite lookup_empty.
Qed.

(** C2: on facts that all carry a filing date, reconciliation raises no
    error; for a quarter Q2, Q3 or Q4 of a fiscal year whose predecessor
    quarter has no fact in that year, every 'Quarterly' row written for
    the quarter carries the raw YTD value of one of the quarter's facts,
    and such a row is written when the fiscal year and the later ones
    hold at most eight quarters. *)
Theorem C2_missing_predecessor_keeps_ytd metric_data :
  Forall (fun item => filed item <> None) metric_data ->
  exists fiscal_years rows,
    collect ∅ (all_data_of metric_data) = Ok fiscal_years /\
    process_metric (Some metric_data) = Ok rows /\
    forall y q p,
      prev_q q = Some p ->
      (forall item, In item metric_data -> is_10Q_or_10K item = true ->
                    period_of item <> Some (y, p)) ->
      (forall r, In r rows -> r_value_type r = Quarterly ->
                 r_fy r = y -> r_fp r = q ->
         exists item, In item metric_data /\ is_10Q_or_10K item = true /\
                      period_of item = Some (y, q) /\
                      r = quarterly_row y q (entry_of item) (val item)) /\
      (forall item, In item metric_data -> is_10Q_or_10K item = true ->
         period_of item = Some (y, q) ->
         (recent_quarter_slots fiscal_years y <= NUM_QUARTERS)%nat ->
         exists kept, In kept metric_data /\ period_of kept = Some (y, q) /\
           In (quarterly_row y q (entry_of kept) (val kept)) rows).
Proof.
  intros Hf.
  destruct (collect_total (all_data_of metric_data)) as [fys Hc].
  { apply List.Forall_forall. intros x Hx. apply in_all_data in Hx as [Hx _].
    rewrite List.Forall_forall in Hf. by apply Hf. }
  exists fys, (emit fys). split; [done|].
  split; [by apply process_metric_collect|].
  intros y q p Hp Hmiss.
  assert (Hnone : default ∅ (fys !! y) !! p = None).
  { rewrite <- lookup2_year. apply (slot_empty _ _ _ Hc).
    intros item Hin. apply in_all_data in Hin as [? ?]. by apply Hmiss. }
  split.
  - intros r Hr Ht <- <-.
    destruct (emit_rows fys) as [Hrows _]. rewrite List.Forall_forall in Hrows.
    destruct (Hrows r Hr) as [_ [_ (e & He & Hend & Hfiled & Hv & _)]].
    rewrite Ht in Hv. rewrite (quarterly_value_raw _ _ p) in Hv by done.
    rewrite <- lookup2_year in He.
    destruct (slot_kept _ _ _ _ Hc He) as (item & Hin & Hk & ->).
    apply in_all_data in Hin as [? ?]. exists item. repeat split; try done.
    destruct r. simpl in *. unfold quarterly_row. by subst.
  - intros item Hin Hform Hk Hcap.
    destruct (slot_filled _ _ (y, q) item Hc) as [e He]; [by apply in_all_data | done |].
    destruct (slot_kept _ _ _ _ Hc He) as (kept & Hkin & Hkk & ->).
    apply in_all_data in Hkin as [Hkin _]. exists kept. split; [done|]. split; [done|].
    rewrite lookup2_year in He.
    destruct (fys !! y) as [year_data|] eqn:Ey;
      [|simpl in He; by rewrite lookup_empty in He].
    simpl in He, Hnone.
    pose proof (emit_recent_quarter fys y year_data q (entry_of kept) Ey He
                  (prev_q_quarters q p Hp) Hcap) as Hrow.
    by rewrite (quarterly_value_raw _ _ p) in Hrow by done.
Qed.

Lemma C2_missing_predecessor_keeps_ytd_witness :
  exists rows,
    process_metric (Some [q2_250]) = Ok rows /\
    In (quarterly_row 2023 "Q2" (entry_of q2_250) (Some 250)) rows.
Proof.
  destruct (C2_missing_predecessor_keeps_ytd [q2_250])
    as (fys & rows & Hc & Hr & H).
  { repeat constructor. discriminate. }
  exists rows. split; [exact Hr|].
  destruct (H 2023 "Q2" "Q1" eq_refl) as [_ Hrow].
  { intros item [<-|[]] _. discriminate. }
  destruct (Hrow q2_250) as (kept & [<-|[]] & _ & Hin).
  - by left.
  - reflexivity.
  - reflexivity.
  - injection Hc as <-. vm_compute. lia.
  - exact Hin.
Defined.

(** Beyond the cap nothing is written: after the eight quarters of the
    fiscal years 2025 and 2024, the Q2 fact of 2023, whose predecessor
    quarter is missing, gets no row at all. *)
Lemma quarter_beyond_cap_not_shown :
  let metric_data :=
    [ mk_fact "10-Q" 2025 "Q1" "2025-03-31" 10 "2025-04-20";
      mk_fact "10-Q" 2025 "Q2" "2025-06-30" 20 "2025-07-20";
      mk_fact "10-Q" 2025 "Q3" "2025-09-30" 30 "2025-10-20";
      mk_fact "10-K" 2025 "Q4" "2025-12-31" 40 "2026-01-20";
      mk_fact "10-Q" 2024 "Q1" "2024-03-31" 10 "2024-04-20";
      mk_fact "10-Q" 2024 "Q2" "2024-06-30" 20 "2024-07-20";
      mk_fact "10-Q" 2024 "Q3" "2024-09-30" 30 "2024-10-20";
      mk_fact "10-K" 2024 "Q4" "2024-12-31" 40 "2025-01-20";
      q2_250 ] in
  exists fiscal_years rows,
    collect ∅ (all_data_of metric_data) = Ok fiscal_years /\
    is_Some (lookup2 fiscal_years (2023, "Q2")) /\
    lookup2 fiscal_years (2023, "Q1") = None /\
    recent_quarter_slots fiscal_years 2023 = 9%nat /\
    process_metric (Some metric_data) = Ok rows /\
    length rows = 9%nat /\
    forall r, In r rows -> r_fy r <> 2023.
Proof.
  eexists. eexists. split; [vm_compute; reflexivity|].
  split; [vm_compute; eauto|]. split; [vm_compute; reflexivity|].
  split; [vm_compute; reflexivity|]. split; [vm_compute; reflexivity|].
  split; [reflexivity|].
  intros r Hr. simpl in Hr.
  repeat (destruct Hr as [<-|Hr]; [simpl; lia|]). done.
Qed.

(** On facts that all carry a filing date the collecting loop ends
    normally, and the slot of every period that occurs holds one of that
    period's facts: the first met among those with the latest filing date
    (every fact met before it was filed strictly earlier, every fact met
    after it was filed no later). *)
Lemma latest_filed_kept all_data item kk :
  Forall (fun item => filed item <> None) all_data ->
  In item all_data -> period_of item = Some kk ->
  exists fiscal_years pre kept post,
    collect ∅ all_data = Ok fiscal_years /\
    group kk all_data = (pre ++ kept :: post)%list /\
    lookup2 fiscal_years kk = Some (entry_of kept) /\
    Forall (fun x => filed_lt x kept) pre /\
    Forall (fun x => filed_le x kept) post.
Proof.
  intros Hf Hin Hp. destruct (collect_total all_data Hf) as [fiscal_years Hc].
  pose proof (collect_ok _ _ _ Hc kk) as Hpick.
  rewrite lookup2_empty in Hpick.
  apply pick_none_inv in Hpick as (pre & b & post & Hg & Hw & H1 & H2).
  - by exists fiscal_years, pre, b, post.
  - intros Hnil. assert (In item (group kk all_data)) as Hi by by apply in_group.
    by rewrite Hnil in Hi.
Qed.

(** * Free-text extraction: derived fields, keys and signs *)

Import Props2.

Section FreeTextMore.

Variable findall : string -> string -> list string.
Variable content : string.

Lemma fold_fields_is_Some patterns : forall (data : gmap string Q) field,
  is_Some (fold_left (field_step findall content) patterns data !! field) ->
  is_Some (data !! field) \/ In field (List.map fst patterns).
Proof.
  induction patterns as [|[f0 pl0] patterns IH]; simpl; intros data field H; [by left|].
  apply IH in H as [H|H]; [|by right; right].
  unfold field_step in H. simpl in H.
  destruct (ClearData.extract_field findall content pl0); [|by left].
  destruct (decide (f0 = field)) as [->|Hne]; [by right; left|].
  rewrite lookup_insert_ne in H by done. by left.
Qed.

Lemma extract_fields_is_Some patterns field :
  is_Some (ClearData.extract_fields findall content patterns !! field) ->
  In field (List.map fst patterns).
Proof.
  intros H. apply fold_fields_is_Some in H as [H|H]; [|done].
  rewrite lookup_empty in H. by destruct H.
Qed.

Lemma extract_fields_absent patterns field :
  ~ In field (List.map fst patterns) ->
  ClearData.extract_fields findall content patterns !! field = None.
Proof.
  intros H. apply eq_None_not_Some. intros Hs.
  by apply extract_fields_is_Some in Hs.
Qed.

End FreeTextMore.

(** X9: In every extracted balance sheet, total_equity is total_assets minus
    total_liabilities and is present exactly when both are; it is never
    read from the text. *)
Theorem total_equity_is_assets_minus_liabilities findall content :
  let balance_data := ClearData.extract_balance_sheet_generic findall content in
  balance_data !! "total_equity" =
  match balance_data !! "total_assets", balance_data !! "total_liabilities" with
  | Some total_assets, Some total_liabilities =>
      Some (total_assets - total_liabilities)%Q
  | _, _ => None
  end.
Proof.
  unfold ClearData.extract_balance_sheet_generic.
  set (d := ClearData.extract_fields findall content ClearData.balance_patterns).
  assert (Hn : d !! "total_equity" = None).
  { apply extract_fields_absent. vm_compute. intuition discriminate. }
  destruct (d !! "total_assets") as [a|] eqn:Ea;
    [destruct (d !! "total_liabilities") as [l|] eqn:El|]; simpl.
  - rewrite lookup_insert_eq, !lookup_insert_ne by done. by rewrite Ea, El.
  - by rewrite Hn, Ea, El.
  - by rewrite Hn, Ea.
Qed.

(** X10: The record's gross_profit and free_cash_flow are the matched values
    when their own patterns match; failing that, revenue minus cost of
    revenue, respectively operating cash flow plus capital expenditures,
    when both operands were matched; and 0 otherwise. *)
Theorem calculated_fields_are_fallbacks findall content period balance_data ticker :
  let income_data := ClearData.extract_income_statement_generic findall content in
  let cash_flow_data := ClearData.extract_cash_flow_generic findall content in
  let record :=
    ClearData.prepare_data_for_csv_generic period income_data balance_data
      cash_flow_data ticker in
  record !! "gross_profit" =
    Some (ClearData.PNum
      match income_data !! "gross_profit" with
      | Some gross_profit => gross_profit
      | None =>
          match income_data !! "revenue", income_data !! "cost_of_revenue" with
          | Some revenue, Some cost => (revenue - cost)%Q
          | _, _ => 0%Q
          end
      end) /\
  record !! "free_cash_flow" =
    Some (ClearData.PNum
      match cash_flow_data !! "free_cash_flow" with
      | Some free_cash_flow => free_cash_flow
      | None =>
          match cash_flow_data !! "operating_cash_flow",
                cash_flow_data !! "capital_expenditures" with
          | Some operating, Some capex => (operating + capex)%Q
          | _, _ => 0%Q
          end
      end).
Proof.
  intros income_data cash_flow_data record. subst record. split.
  - erewrite record_lookup; [|simpl; right; left; reflexivity].
    do 2 f_equal. unfold ClearData.get. subst income_data.
    unfold ClearData.extract_income_statement_generic.
    set (d := ClearData.extract_fields findall content ClearData.income_patterns).
    assert (Hn : d !! "gross_profit_calculated" = None).
    { apply extract_fields_absent. vm_compute. intuition discriminate. }
    destruct (d !! "revenue") as [r|] eqn:Er;
      [destruct (d !! "cost_of_revenue") as [c|] eqn:Ec|]; simpl.
    + rewrite lookup_insert_eq, !lookup_insert_ne by done. by rewrite Er, Ec.
    + by rewrite Hn, Er, Ec.
    + by rewrite Hn, Er.
  - erewrite record_lookup; [|simpl; do 8 right; left; reflexivity].
    do 2 f_equal. unfold ClearData.get. subst cash_flow_data.
    unfold ClearData.extract_cash_flow_generic.
    set (d := ClearData.extract_fields findall content ClearData.cash_flow_patterns).
    assert (Hn : d !! "free_cash_flow_calculated" = None).
    { apply extract_fields_absent. vm_compute. intuition discriminate. }
    destruct (d !! "free_cash_flow") as [f|] eqn:Ef; simpl.
    { by rewrite Ef. }
    destruct (d !! "operating_cash_flow") as [o|] eqn:Eo;
      [destruct (d !! "capital_expenditures") as [c|] eqn:Ec|]; simpl.
    + rewrite lookup_insert_eq, !lookup_insert_ne by done. by rewrite Ef, Eo, Ec.
    + by rewrite Hn, Ef, Eo, Ec.
    + by rewrite Hn, Ef, Eo.
Qed.

(** X11: An extracted dictionary never holds a key other than the fields of
    its pattern table and the one derived field. *)
Theorem extracted_keys_are_fields findall content st k :
  is_Some (extract_of findall st content !! k) ->
  In k (List.map fst (patterns_of st)) \/ k = derived_key st.
Proof.
  intros H. destruct (decide (k = derived_key st)) as [|Hne]; [by right|]. left.
  apply (extract_fields_is_Some findall content).
  destruct st; simpl in *.
  - unfold ClearData.extract_income_statement_generic in H.
    destruct (_ !! "revenue"); [|done]. destruct (_ !! "cost_of_revenue"); [|done].
    by rewrite lookup_insert_ne in H.
  - unfold ClearData.extract_balance_sheet_generic in H.
    destruct (_ !! "total_assets"); [|done].
    destruct (_ !! "total_liabilities"); [|done].
    by rewrite lookup_insert_ne in H.
  - unfold ClearData.extract_cash_flow_generic in H.
    destruct (_ !! "free_cash_flow"); [done|].
    destruct (_ !! "operating_cash_flow"); [|done].
    destruct (_ !! "capital_expenditures"); [|done].
    by rewrite lookup_insert_ne in H.
Qed.

Lemma extracted_keys_are_fields_witness :
  In "revenue" (List.map fst (patterns_of Income)) \/
  "revenue" = derived_key Income.
Proof.
  apply (extracted_keys_are_fields reported_findall reported_content).
  vm_compute. eauto.
Defined.

(** * Signs and magnitudes of the free-text values *)

Lemma digit_of_nonneg c d : Py.digit_of c = Some d -> 0 <= d.
Proof.
  unfold Py.digit_of.
  destruct (Z.leb_spec 48 (Z.of_N (N_of_ascii c))); simpl; [|done].
  destruct (Z.leb_spec (Z.of_N (N_of_ascii c)) 57); [|done].
  intros [= <-]. lia.
Qed.

Lemma read_digits_nonneg s : forall acc n i k rest,
  Py.read_digits s acc n = (i, k, rest) -> 0 <= acc -> 0 <= i.
Proof.
  induction s as [|c s IH]; simpl; intros acc n i k rest H Hacc.
  - by injection H as <- _ _.
  - destruct (Py.digit_of c) as [d|] eqn:Ed.
    + apply IH in H; [done|]. apply digit_of_nonneg in Ed. lia.
    + by injection H as <- _ _.
Qed.

Lemma float_unsigned_nonneg s v : Py.float_unsigned s = Some v -> (0 <= v)%Q.
Proof.
  unfold Py.float_unsigned.
  destruct (Py.read_digits s 0 0) as [[i ni] rest] eqn:E1.
  pose proof (read_digits_nonneg _ _ _ _ _ _ E1 ltac:(lia)) as Hi.
  destruct rest as [|c rest'].
  - destruct (Nat.eqb ni 0); [done|]. intros [= <-].
    unfold Qle. simpl. lia.
  - destruct (Ascii.eqb c "."); [|done].
    destruct (Py.read_digits rest' 0 0) as [[f nf] rest''] eqn:E2.
    pose proof (read_digits_nonneg _ _ _ _ _ _ E2 ltac:(lia)) as Hf.
    destruct rest''; [|done]. destruct (Nat.eqb (ni + nf) 0); [done|].
    intros [= <-]. unfold Qle. simpl. nia.
Qed.

Lemma unsigned_remove_commas s :
  unsigned_text s = true -> unsigned_text (Py.remove_commas s) = true.
Proof.
  induction s as [|c s IH]; simpl; [done|].
  intros H. apply andb_true_iff in H as [Hc Hs].
  destruct (Ascii.eqb c ","); [by apply IH|]. simpl. by rewrite Hc, IH.
Qed.

Lemma float_unsigned_text s v :
  unsigned_text s = true -> Py.float s = Some v -> (0 <= v)%Q.
Proof.
  destruct s as [|c s]; [done|]. simpl. intros H.
  apply andb_true_iff in H as [Hc _].
  destruct (Ascii.eqb_spec c "-") as [->|_]; [done|].
  destruct (Ascii.eqb_spec c "+") as [->|_]; [done|].
  apply float_unsigned_nonneg.
Qed.

Lemma scale_nonneg v : (0 <= v)%Q -> (0 <= ClearData.scale v)%Q.
Proof.
  intros H. unfold ClearData.scale.
  destruct (Py.Qltb v 1000 && Py.Qltb 0 v); [|done].
  apply Qmult_le_0_compat; [done | discriminate].
Qed.

Lemma extract_field_nonneg findall content pattern_list v :
  (forall p, Forall (fun s => unsigned_text s = true) (findall p content)) ->
  ClearData.extract_field findall content pattern_list = Some v -> (0 <= v)%Q.
Proof.
  intros Hu. induction pattern_list as [|p pl IH]; simpl; [done|].
  destruct (last (findall p content)) as [s|] eqn:El; [|exact IH].
  destruct (Py.float (Py.remove_commas s)) as [x|] eqn:Ef; [|exact IH].
  intros [= <-]. apply scale_nonneg.
  apply (float_unsigned_text (Py.remove_commas s)); [|done].
  apply unsigned_remove_commas.
  specialize (Hu p). rewrite List.Forall_forall in Hu. apply Hu.
  apply list_elem_of_In. apply last_Some in El as [l' ->].
  apply list_elem_of_In, List.in_or_app. right. by left.
Qed.

Lemma findall_of_Forall (P : string -> Prop) table pattern content :
  Forall (fun pm => Forall P (snd pm)) table ->
  Forall P (findall_of table pattern content).
Proof.
  intros H. unfold findall_of.
  destruct (List.find _ table) as [pm|] eqn:E; [|constructor].
  apply List.find_some in E as [Hin _].
  rewrite List.Forall_forall in H. by apply H.
Qed.

(** X12: A value read from the text is never negative, whatever the label
    says: the captured text holds digits, commas and a dot only. *)
Theorem extracted_values_are_not_negative findall content st field
  pattern_list v :
  (forall p, Forall (fun s => unsigned_text s = true) (findall p content)) ->
  In (field, pattern_list) (patterns_of st) ->
  extract_of findall st content !! field = Some v -> (0 <= v)%Q.
Proof.
  intros Hu Hin H. rewrite (extract_of_lookup _ _ _ _ _ Hin) in H.
  by apply (extract_field_nonneg findall content pattern_list).
Qed.

Lemma extracted_values_are_not_negative_witness : (0 <= 3000)%Q.
Proof.
  apply (extracted_values_are_not_negative reported_findall reported_content
           Income "cost_of_revenue"
           [ "Cost of revenue\s*[\$]?\s*([\d,]+\.?\d*)";
             "Cost of sales\s*[\$]?\s*([\d,]+\.?\d*)";
             "Cost of goods sold\s*[\$]?\s*([\d,]+\.?\d*)" ]).
  - intros p. apply findall_of_Forall. repeat constructor.
  - simpl. tauto.
  - vm_compute. reflexivity.
Defined.

(** X13: The scale normalisation does not keep the order of the values: every
    literal from 1 up to (not including) 1000 ends above every literal
    from 1000 up to (not including) 1,000,000. *)
Theorem scale_reverses_order (v w : Q) :
  (1 <= v)%Q -> (v < 1000)%Q -> (1000 <= w)%Q -> (w < 1000000)%Q ->
  (ClearData.scale w < ClearData.scale v)%Q.
Proof.
  intros Hv1 Hv2 Hw1 Hw2.
  assert (Hlt : forall a b : Q, Py.Qltb a b = true <-> (a < b)%Q).
  { intros a b. unfold Py.Qltb. rewrite Qlt_alt. destruct (a ?= b)%Q; split; congruence. }
  unfold ClearData.scale.
  assert (H1 : Py.Qltb v 1000 = true) by by apply Hlt.
  assert (H2 : Py.Qltb 0 v = true).
  { apply Hlt. eapply Qlt_le_trans; [|exact Hv1]. reflexivity. }
  assert (H3 : Py.Qltb w 1000 = false).
  { apply not_true_iff_false. rewrite Hlt. by apply Qle_not_lt. }
  rewrite H1, H2, H3. simpl.
  eapply Qlt_le_trans; [exact Hw2|].
  apply Qle_trans with (1 * 1000000)%Q; [discriminate|].
  apply Qmult_le_compat_r; [done | discriminate].
Qed.

Lemma scale_reverses_order_witness :
  (ClearData.scale 1500 < ClearData.scale (3 # 2))%Q.
Proof.
  apply scale_reverses_order; first [reflexivity | discriminate].
Defined.

(** * The keys of the per-period record *)

Lemma dict_of_dom_gen {V : Type} (l : list (string * V)) k :
  forall d : gmap string V,
  is_Some (fold_left (fun (d : gmap string V) kv => <[fst kv := snd kv]> d) l d !! k)
  <-> is_Some (d !! k) \/ In k (List.map fst l).
Proof.
  induction l as [|[k0 v0] l IH]; simpl; intros d; [tauto|].
  rewrite IH. destruct (decide (k0 = k)) as [->|Hne].
  - rewrite lookup_insert_eq. split; [auto | eauto].
  - rewrite lookup_insert_ne by done. intuition congruence.
Qed.

Lemma dict_of_dom {V : Type} (l : list (string * V)) k :
  is_Some (Py.dict_of l !! k) <-> In k (List.map fst l).
Proof.
  unfold Py.dict_of. rewrite dict_of_dom_gen, lookup_empty.
  split; [intros [[? ?]|?]; done | by right].
Qed.

(** X14: Whatever was extracted, the record has the same 18 keys. *)
Theorem record_has_fixed_keys period income_data balance_data cash_flow_data
  ticker k :
  is_Some (ClearData.prepare_data_for_csv_generic period income_data
             balance_data cash_flow_data ticker !! k) <->
  In k record_keys.
Proof.
  unfold ClearData.prepare_data_for_csv_generic. by rewrite dict_of_dom.
Qed.

Lemma record_has_fixed_keys_witness :
  is_Some (ClearData.prepare_data_for_csv_generic ∅ ∅ ∅ ∅ "MSFT" !! "revenue").
Proof.
  apply (record_has_fixed_keys ∅ ∅ ∅ ∅ "MSFT" "revenue").
  unfold record_keys. simpl. tauto.
Defined.

(** * Fields that no pattern matches *)

Lemma unmatched_absent findall content st field :
  unmatched findall content st field ->
  extract_of findall st content !! field = None.
Proof.
  intros (pl & Hin & Hnone).
  rewrite (extract_of_lookup _ _ _ _ _ Hin). by apply extract_field_none.
Qed.

(** C7: a field none of whose patterns matches is absent from the
    extracted dictionary.  In the record assembled from the three
    dictionaries, a column that holds such a field as it is holds 0;
    gross_profit and free_cash_flow hold the derived value when its two
    operands were extracted and 0 otherwise; the remaining fields have no
    column at all.  These are all the fields of the pattern tables. *)
Theorem C7_missing_metric_stored_as_zero findall content period ticker :
  let income_data := ClearData.extract_income_statement_generic findall content in
  let balance_data := ClearData.extract_balance_sheet_generic findall content in
  let cash_flow_data := ClearData.extract_cash_flow_generic findall content in
  let record :=
    ClearData.prepare_data_for_csv_generic period income_data balance_data
      cash_flow_data ticker in
  (forall st field,
     unmatched findall content st field ->
     extract_of findall st content !! field = None) /\
  (forall st field column,
     In (st, field, column) plain_columns ->
     unmatched findall content st field ->
     record !! column = Some (ClearData.PNum 0%Q)) /\
  (unmatched findall content Income "gross_profit" ->
   record !! "gross_profit" =
   Some (ClearData.PNum
           match income_data !! "revenue", income_data !! "cost_of_revenue" with
           | Some revenue, Some cost_of_revenue => (revenue - cost_of_revenue)%Q
           | _, _ => 0%Q
           end)) /\
  (unmatched findall content CashFlow "free_cash_flow" ->
   record !! "free_cash_flow" =
   Some (ClearData.PNum
           match cash_flow_data !! "operating_cash_flow",
                 cash_flow_data !! "capital_expenditures" with
           | Some operating_cash_flow, Some capital_expenditures =>
               (operating_cash_flow + capital_expenditures)%Q
           | _, _ => 0%Q
           end)) /\
  (forall st field,
     In (st, field) fields_without_column -> record !! field = None) /\
  (forall st field,
     In field (List.map fst (patterns_of st)) ->
     (exists column, In (st, field, column) plain_columns) \/
     In (st, field) fallback_fields \/ In (st, field) fields_without_column).
Proof.
  intros income_data balance_data cash_flow_data record.
  subst record income_data balance_data cash_flow_data.
  split; [|split; [|split; [|split; [|split]]]].
  - intros st field. apply unmatched_absent.
  - intros st field column Hin Hun. apply unmatched_absent in Hun.
    simpl in Hin.
    repeat (destruct Hin as [[= <- <- <-]|Hin];
            [ simpl in Hun;
              erewrite record_lookup;
              [reflexivity
              |unfold ClearData.get; rewrite Hun; simpl; tauto] |]).
    destruct Hin.
  - intros Hun. apply unmatched_absent in Hun. simpl in Hun.
    erewrite record_lookup; [|simpl; right; left; reflexivity].
    do 2 f_equal. unfold ClearData.get. rewrite Hun.
    cbn [default from_option id].
    unfold ClearData.extract_income_statement_generic.
    set (d := ClearData.extract_fields findall content ClearData.income_patterns).
    assert (Hn : d !! "gross_profit_calculated" = None).
    { apply extract_fields_absent. vm_compute. intuition discriminate. }
    destruct (d !! "revenue") as [r|] eqn:Er;
      [destruct (d !! "cost_of_revenue") as [c|] eqn:Ec|]; simpl.
    + rewrite lookup_insert_eq, !lookup_insert_ne by done. by rewrite Er, Ec.
    + by rewrite Hn, Er, Ec.
    + by rewrite Hn, Er.
  - intros Hun. apply unmatched_absent in Hun. simpl in Hun.
    erewrite record_lookup; [|simpl; do 8 right; left; reflexivity].
    do 2 f_equal. unfold ClearData.get. rewrite Hun.
    cbn [default from_option id].
    unfold ClearData.extract_cash_flow_generic in *.
    set (d := ClearData.extract_fields findall content ClearData.cash_flow_patterns) in *.
    assert (Hn : d !! "free_cash_flow_calculated" = None).
    { apply extract_fields_absent. vm_compute. intuition discriminate. }
    destruct (d !! "free_cash_flow") as [f|] eqn:Ef.
    { destruct (d !! "operating_cash_flow"), (d !! "capital_expenditures");
        simpl in Hun; congruence. }
    destruct (d !! "operating_cash_flow") as [o|] eqn:Eo;
      [destruct (d !! "capital_expenditures") as [c|] eqn:Ec|]; simpl.
    + rewrite lookup_insert_eq, !lookup_insert_ne by done. by rewrite Eo, Ec.
    + by rewrite Hn, Eo, Ec.
    + by rewrite Hn, Eo.
  - intros st field Hin. apply eq_None_not_Some.
    unfold ClearData.prepare_data_for_csv_generic. rewrite dict_of_dom.
    simpl in Hin.
    repeat (destruct Hin as [[= <- <-]|Hin]; [simpl; intuition discriminate|]).
    destruct Hin.
  - intros st field Hin.
    destruct st; simpl in Hin;
      repeat (destruct Hin as [<-|Hin];
              [first [ left; eexists; simpl; tauto
                     | right; left; simpl; tauto
                     | right; right; simpl; tauto ] |]);
      destruct Hin.
Qed.

Lemma C7_missing_metric_stored_as_zero_witness :
  unmatched reported_findall reported_content Income "net_income" /\
  ClearData.prepare_data_for_csv_generic ∅
    (ClearData.extract_income_statement_generic reported_findall reported_content)
    (ClearData.extract_balance_sheet_generic reported_findall reported_content)
    (ClearData.extract_cash_flow_generic reported_findall reported_content)
    "ACME" !! "net_income" = Some (ClearData.PNum 0%Q).
Proof.
  assert (H : unmatched reported_findall reported_content Income "net_income").
  { eexists. split; [simpl; repeat first [left; reflexivity | right]|].
    intros p [<-|[<-|[<-|[]]]]; vm_compute; reflexivity. }
  split; [exact H|].
  pose proof (C7_missing_metric_stored_as_zero reported_findall reported_content
                ∅ "ACME") as Hz.
  cbv zeta in Hz. destruct Hz as (_ & Hz & _).
  apply (Hz Income "net_income" "net_income"); [simpl; tauto | exact H].
Defined.

(** * Accounting notation in the tag search *)

Lemma str_rev_involutive s : DirectSearch.str_rev (DirectSearch.str_rev s) = s.
Proof.
  unfold DirectSearch.str_rev.
  by rewrite list_ascii_of_string_of_list_ascii, List.rev_involutive,
    string_of_list_ascii_of_string.
Qed.

Lemma list_ascii_app s t :
  list_ascii_of_string (s ++ t) =
  (list_ascii_of_string s ++ list_ascii_of_string t)%list.
Proof. induction s as [|c s IH]; simpl; [done|]. by rewrite IH. Qed.

Lemma str_rev_bracket c1 c2 s :
  DirectSearch.str_rev (String c1 (s ++ String c2 "")) =
  String c2 (DirectSearch.str_rev s ++ String c1 "").
Proof.
  unfold DirectSearch.str_rev. simpl.
  rewrite list_ascii_app. simpl. rewrite List.rev_app_distr. simpl.
  f_equal. induction (List.rev (list_ascii_of_string s)) as [|a l IH]; simpl; [done|].
  by rewrite IH.
Qed.

Lemma remove_commas_app s t :
  Py.remove_commas (s ++ t) = Py.remove_commas s ++ Py.remove_commas t.
Proof.
  induction s as [|c s IH]; simpl; [done|].
  destruct (Ascii.eqb c ","); simpl; by rewrite IH.
Qed.

Lemma strip_bracket s :
  DirectSearch.strip (String "(" (s ++ ")")) = String "(" (s ++ ")").
Proof.
  unfold DirectSearch.strip.
  change (DirectSearch.lstrip (String "(" (s ++ ")"))) with (String "(" (s ++ ")")).
  rewrite str_rev_bracket.
  change (DirectSearch.lstrip (String ")" ?t)) with (String ")" t).
  by rewrite <- str_rev_bracket, str_rev_involutive.
Qed.

Lemma slice_bracket c1 c2 s :
  DirectSearch.slice_1_m1 (String c1 (s ++ String c2 "")) = s.
Proof.
  unfold DirectSearch.slice_1_m1. simpl. rewrite list_ascii_app. simpl.
  by rewrite List.removelast_last, string_of_list_ascii_of_string.
Qed.

(** X15: A text in parentheses is read as the negative of what the
    parentheses hold, thousands separators ignored; (1,234) reads as
    -1234. *)
Theorem parentheses_read_as_negative :
  (forall (float : string -> option Q) s,
     DirectSearch.read_value float (String "(" (s ++ ")")) =
     Qopp <$> float (Py.remove_commas s)) /\
  DirectSearch.read_value Py.float "(1,234)" = Some (- 1234)%Q.
Proof.
  split; [|vm_compute; reflexivity].
  intros float s. unfold DirectSearch.read_value.
  rewrite strip_bracket. simpl negb. cbn [Py.truthy_str String.eqb negb].
  change (Py.remove_commas (String "(" (s ++ ")")))
    with (String "(" (Py.remove_commas (s ++ ")"))).
  rewrite remove_commas_app.
  change (Py.remove_commas ")") with ")".
  unfold DirectSearch.endswith. rewrite str_rev_bracket. simpl.
  rewrite slice_bracket. by destruct (float (Py.remove_commas s)).
Qed.

(** * Filing periods *)

Lemma dict_of_six {V : Type} (k1 k2 k3 k4 k5 k6 : string) (v1 v2 v3 v4 v5 v6 : V) :
  Py.dict_of [(k1, v1); (k2, v2); (k3, v3); (k4, v4); (k5, v5); (k6, v6)] =
  <[k6 := v6]> (<[k5 := v5]> (<[k4 := v4]> (<[k3 := v3]> (<[k2 := v2]>
    (<[k1 := v1]> (∅ : gmap string V)))))).
Proof. reflexivity. Qed.

Lemma fiscal_period_lookup strftime d ticker :
  Periods.calculate_fiscal_period_generic strftime d ticker !! "fiscal_year" =
    Some (Periods.str (Periods.year d)) /\
  Periods.calculate_fiscal_period_generic strftime d ticker !! "fiscal_quarter" =
    Some ("Q" +:+ Periods.str ((Periods.month d - 1) / 3 + 1)).
Proof.
  unfold Periods.calculate_fiscal_period_generic. cbv zeta.
  rewrite dict_of_six. split.
  - repeat (rewrite lookup_insert_ne by done). by rewrite lookup_insert_eq.
  - repeat (rewrite lookup_insert_ne by done). by rewrite lookup_insert_eq.
Qed.

(** X16: A quarterly filing gets the same quarter, between 1 and 4, and the
    same year from [determine_quarter] and from
    [calculate_fiscal_period_generic]; an annual filing is put in quarter
    4 by [determine_quarter] whatever its month. *)
Theorem filing_quarters_agree
  (strptime : string -> option Periods.datetime)
  (strftime : Periods.datetime -> string)
  (filing_date form_type ticker : string) (d : Periods.datetime) :
  strptime filing_date = Some d ->
  1 <= Periods.month d <= 12 ->
  exists q,
    Periods.determine_quarter strptime filing_date form_type =
      Some (q, Periods.year d) /\
    1 <= q <= 4 /\
    (form_type = "10-K" -> q = 4) /\
    (form_type <> "10-K" ->
     Periods.calculate_fiscal_period_generic strftime d ticker !! "fiscal_quarter" =
       Some ("Q" +:+ Periods.str q)) /\
    Periods.calculate_fiscal_period_generic strftime d ticker !! "fiscal_year" =
      Some (Periods.str (Periods.year d)).
Proof.
  intros Hd Hm.
  destruct (fiscal_period_lookup strftime d ticker) as [Hy Hq].
  unfold Periods.determine_quarter. rewrite Hd. cbv zeta.
  destruct (String.eqb_spec form_type "10-K") as [->|Hne].
  { exists 4. repeat split; try lia; try done. }
  assert (Hcase : (1 <= Periods.month d <= 3 /\ (Periods.month d - 1) / 3 + 1 = 1) \/
                  (4 <= Periods.month d <= 6 /\ (Periods.month d - 1) / 3 + 1 = 2) \/
                  (7 <= Periods.month d <= 9 /\ (Periods.month d - 1) / 3 + 1 = 3) \/
                  (10 <= Periods.month d <= 12 /\ (Periods.month d - 1) / 3 + 1 = 4)).
  { assert (Hdiv := Z.div_mod (Periods.month d - 1) 3 ltac:(lia)).
    assert (Hmod := Z.mod_pos_bound (Periods.month d - 1) 3 ltac:(lia)).
    lia. }
  assert (Hrest : forall q, (Periods.month d - 1) / 3 + 1 = q -> 1 <= q <= 4 ->
            1 <= q <= 4 /\
            (form_type = "10-K" -> q = 4) /\
            (form_type <> "10-K" ->
             Periods.calculate_fiscal_period_generic strftime d ticker !! "fiscal_quarter" =
               Some ("Q" +:+ Periods.str q)) /\
            Periods.calculate_fiscal_period_generic strftime d ticker !! "fiscal_year" =
              Some (Periods.str (Periods.year d))).
  { intros q <- Hr. split; [done|]. split; [by intros ?|]. by split. }
  destruct Hcase as [[H E]|[[H E]|[[H E]|[H E]]]].
  - exists 1. split; [|apply Hrest; [done | lia]].
    replace ((1 <=? Periods.month d) && (Periods.month d <=? 3)) with true
      by (symmetry; apply andb_true_iff; lia).
    reflexivity.
  - exists 2. split; [|apply Hrest; [done | lia]].
    replace ((1 <=? Periods.month d) && (Periods.month d <=? 3)) with false
      by (symmetry; apply andb_false_iff; lia).
    replace ((4 <=? Periods.month d) && (Periods.month d <=? 6)) with true
      by (symmetry; apply andb_true_iff; lia).
    reflexivity.
  - exists 3. split; [|apply Hrest; [done | lia]].
    replace ((1 <=? Periods.month d) && (Periods.month d <=? 3)) with false
      by (symmetry; apply andb_false_iff; lia).
    replace ((4 <=? Periods.month d) && (Periods.month d <=? 6)) with false
      by (symmetry; apply andb_false_iff; lia).
    replace ((7 <=? Periods.month d) && (Periods.month d <=? 9)) with true
      by (symmetry; apply andb_true_iff; lia).
    reflexivity.
  - exists 4. split; [|apply Hrest; [done | lia]].
    replace ((1 <=? Periods.month d) && (Periods.month d <=? 3)) with false
      by (symmetry; apply andb_false_iff; lia).
    replace ((4 <=? Periods.month d) && (Periods.month d <=? 6)) with false
      by (symmetry; apply andb_false_iff; lia).
    replace ((7 <=? Periods.month d) && (Periods.month d <=? 9)) with false
      by (symmetry; apply andb_false_iff; lia).
    reflexivity.
Qed.

Lemma filing_quarters_agree_witness :
  exists q,
    Periods.determine_quarter
      (fun _ => Some {| Periods.year := 2024; Periods.month := 5; Periods.day := 2 |})
      "2024-05-02" "10-Q" = Some (q, 2024) /\
    1 <= q <= 4 /\
    ("10-Q" = "10-K" -> q = 4) /\
    ("10-Q" <> "10-K" ->
     Periods.calculate_fiscal_period_generic (fun _ => "May 02, 2024")
       {| Periods.year := 2024; Periods.month := 5; Periods.day := 2 |} "MSFT"
       !! "fiscal_quarter" = Some ("Q" +:+ Periods.str q)) /\
    Periods.calculate_fiscal_period_generic (fun _ => "May 02, 2024")
      {| Periods.year := 2024; Periods.month := 5; Periods.day := 2 |} "MSFT"
      !! "fiscal_year" = Some (Periods.str 2024).
Proof.
  apply (filing_quarters_agree
           (fun _ => Some {| Periods.year := 2024; Periods.month := 5; Periods.day := 2 |})
           (fun _ => "May 02, 2024") "2024-05-02" "10-Q" "MSFT"
           {| Periods.year := 2024; Periods.month := 5; Periods.day := 2 |}).
  - reflexivity.
  - simpl. lia.
Defined.

(** An annual filing dated in the first nine months is put in quarter 4
    by [determine_quarter] and in the quarter of its month by
    [calculate_fiscal_period_generic]. *)
Lemma annual_filing_quarters_differ :
  let d := {| Periods.year := 2024; Periods.month := 2; Periods.day := 1 |} in
  Periods.determine_quarter (fun _ => Some d) "2024-02-01" "10-K" = Some (4, 2024) /\
  Periods.calculate_fiscal_period_generic (fun _ => "February 01, 2024") d "MSFT"
    !! "fiscal_quarter" = Some "Q1".
Proof. split; vm_compute; reflexivity. Qed.

(** X17: The record of a parsed statement carries the ticker of the file
    name and the year and the quarter of the filing date, never the
    defaults of [prepare_data_for_csv_generic]; a date that [strptime]
    rejects gives no record. *)
Theorem parsed_record_carries_filing_period
  (strptime : string -> option Periods.datetime)
  (strftime : Periods.datetime -> string)
  (findall : string -> string -> list string)
  (content : string) (file_info : Periods.file_info) :
  match strptime (Periods.filing_date file_info) with
  | None =>
      Periods.parse_financial_statement_generic strptime strftime findall
        content file_info = None
  | Some d =>
      exists p,
        Periods.parse_financial_statement_generic strptime strftime findall
          content file_info = Some p /\
        Periods.financial_data p !! "ticker" =
          Some (ClearData.PStr (Periods.ticker file_info)) /\
        Periods.financial_data p !! "year" =
          Some (ClearData.PStr (Periods.str (Periods.year d))) /\
        Periods.financial_data p !! "quarter" =
          Some (ClearData.PStr
                  ("Q" +:+ Periods.str ((Periods.month d - 1) / 3 + 1)))
  end.
Proof.
  unfold Periods.parse_financial_statement_generic.
  destruct (strptime (Periods.filing_date file_info)) as [d|]; [|done].
  eexists. split; [reflexivity|]. cbn [Periods.financial_data].
  destruct (fiscal_period_lookup strftime d (Periods.ticker file_info)) as [Hy Hq].
  unfold ClearData.prepare_data_for_csv_generic, ClearData.get. cbv zeta.
  rewrite Hy, Hq. cbn [default].
  unfold Py.dict_of. cbn [fold_left fst snd].
  repeat split; repeat (rewrite lookup_insert_ne by done); by rewrite lookup_insert_eq.
Qed.

(** * The income ratios of get_data.py *)

Lemma percent_of_number x revenue v :
  GetDataIncome.percent_of x revenue = Some v -> exists q, v = Some q.
Proof.
  unfold GetDataIncome.percent_of.
  destruct (GetDataIncome.positive revenue) as [[|]|]; [|intros [= <-]; eauto|done].
  destruct (GetDataIncome.caught _); [intros [= <-]; eauto | done].
Qed.

Lemma growth_number revenue previous v :
  GetDataIncome.growth revenue previous = Some v -> exists q, v = Some q.
Proof.
  unfold GetDataIncome.growth.
  destruct (GetDataIncome.has_previous previous) as [[|]|];
    [|intros [= <-]; eauto|done].
  destruct (previous ≫= _); [|done].
  destruct (GetDataIncome.caught _); [|done].
  destruct (GetDataIncome.caught _); [intros [= <-]; eauto | done].
Qed.

Lemma Qltb_pos r : (0 < r)%Q -> Py.Qltb 0 r = true.
Proof. unfold Py.Qltb. intros H. by rewrite (proj1 (Qlt_alt 0 r) H). Qed.

Lemma Qltb_neg r : (r < 0)%Q -> Py.Qltb 0 r = false.
Proof. unfold Py.Qltb. intros H. by rewrite (proj1 (Qgt_alt 0 r) H). Qed.

Lemma is_zero_pos r : (0 < r)%Q -> Qeq_bool r 0 = false.
Proof.
  intros H. destruct (Qeq_bool r 0) eqn:E; [|done].
  apply Qeq_bool_eq in E. rewrite E in H. by apply Qlt_irrefl in H.
Qed.

Lemma is_zero_neg r : (r < 0)%Q -> Qeq_bool r 0 = false.
Proof.
  intros H. destruct (Qeq_bool r 0) eqn:E; [|done].
  apply Qeq_bool_eq in E. rewrite E in H. by apply Qlt_irrefl in H.
Qed.

Ltac other_key Hk :=
  repeat (rewrite lookup_insert_ne by (intros ?; apply Hk; simpl; tauto)).

Lemma failed_ratios (d : GetDataIncome.dict) k :
  let out :=
    GetDataIncome.update d
      [ ("gross_profit_margin", Some 0%Q);
        ("operating_profit_margin", Some 0%Q);
        ("net_profit_margin", Some 0%Q);
        ("rd_percent_revenue", Some 0%Q);
        ("sga_percent_revenue", Some 0%Q);
        ("revenue_growth", Some 0%Q) ] in
  (In k Props3.ratio_keys -> out !! k = Some (Some 0%Q)) /\
  (~ In k Props3.ratio_keys -> out !! k = d !! k).
Proof.
  unfold GetDataIncome.update. cbn [fold_left fst snd]. split.
  - intros Hk. simpl in Hk.
    destruct Hk as [<-|[<-|[<-|[<-|[<-|[<-|[]]]]]]];
      repeat (rewrite lookup_insert_ne by done); by rewrite lookup_insert_eq.
  - intros Hk. by other_key Hk.
Qed.

(** What the [try] block leaves when the revenue is not zero: it writes
    the ratio keys only, and all six of them when it ends. *)
Lemma try_block_cases income previous :
  GetDataIncome.is_zero (Ratios.get income "revenue" (Some 0%Q)) = false ->
  (exists d, GetDataIncome.try_block income previous = GetDataIncome.Failed d /\
             forall k, ~ In k Props3.ratio_keys -> d !! k = income !! k) \/
  (exists d, GetDataIncome.try_block income previous = GetDataIncome.Done d /\
             (forall k, ~ In k Props3.ratio_keys -> d !! k = income !! k) /\
             forall k, In k Props3.ratio_keys -> exists q, d !! k = Some (Some q)).
Proof.
  intros Hz. unfold GetDataIncome.try_block. rewrite Hz. cbv zeta.
  destruct (GetDataIncome.percent_of (Ratios.get income "gross_profit" _) _)
    as [v1|] eqn:E1; cbn [GetDataIncome.assign GetDataIncome.next];
    [|left; eexists; split; [reflexivity|]; intros k Hk; by other_key Hk].
  destruct (GetDataIncome.percent_of (Ratios.get income "operating_income" _) _)
    as [v2|] eqn:E2; cbn [GetDataIncome.assign GetDataIncome.next];
    [|left; eexists; split; [reflexivity|]; intros k Hk; by other_key Hk].
  destruct (GetDataIncome.percent_of (Ratios.get income "net_income" _) _)
    as [v3|] eqn:E3; cbn [GetDataIncome.assign GetDataIncome.next];
    [|left; eexists; split; [reflexivity|]; intros k Hk; by other_key Hk].
  destruct (GetDataIncome.percent_of (Ratios.get income "rd_expense" _) _)
    as [v4|] eqn:E4; cbn [GetDataIncome.assign GetDataIncome.next];
    [|left; eexists; split; [reflexivity|]; intros k Hk; by other_key Hk].
  destruct (GetDataIncome.percent_of (Ratios.get income "sga_expense" _) _)
    as [v5|] eqn:E5; cbn [GetDataIncome.assign GetDataIncome.next];
    [|left; eexists; split; [reflexivity|]; intros k Hk; by other_key Hk].
  destruct (GetDataIncome.growth _ previous)
    as [v6|] eqn:E6; cbn [GetDataIncome.assign GetDataIncome.next];
    [|left; eexists; split; [reflexivity|]; intros k Hk; by other_key Hk].
  right. eexists. split; [reflexivity|]. split.
  { intros k Hk. by other_key Hk. }
  apply percent_of_number in E1 as [q1 ->], E2 as [q2 ->], E3 as [q3 ->],
    E4 as [q4 ->], E5 as [q5 ->].
  apply growth_number in E6 as [q6 ->].
  intros k Hk. simpl in Hk.
  destruct Hk as [<-|[<-|[<-|[<-|[<-|[<-|[]]]]]]];
    repeat (rewrite lookup_insert_ne by done); rewrite lookup_insert_eq; eauto.
Qed.

(** X18: [calculate_financial_ratios] writes no key but its six ratios.  With
    a revenue of zero, or none stored, it returns the dictionary as it
    got it, without the ratios; otherwise each of the six ratios is
    set to a number. *)
Theorem ratios_all_or_nothing (income : GetDataIncome.dict)
  (previous : option GetDataIncome.dict) :
  let revenue := Ratios.get income "revenue" (Some 0%Q) in
  let out := GetDataIncome.calculate_financial_ratios income previous in
  (forall k, ~ In k Props3.ratio_keys -> out !! k = income !! k) /\
  (GetDataIncome.is_zero revenue = true -> out = income) /\
  (GetDataIncome.is_zero revenue = false ->
   forall k, In k Props3.ratio_keys -> exists q, out !! k = Some (Some q)).
Proof.
  cbv zeta. unfold GetDataIncome.calculate_financial_ratios.
  destruct (GetDataIncome.is_zero (Ratios.get income "revenue" (Some 0%Q)))
    eqn:Hz.
  - unfold GetDataIncome.try_block. rewrite Hz. by repeat split.
  - destruct (try_block_cases income previous Hz)
      as [(d & -> & Hd)|(d & -> & Hd & Hall)].
    + split; [|split; [done|]].
      * intros k Hk. rewrite <- (Hd k Hk). by apply failed_ratios.
      * intros _ k Hk. exists 0%Q. by apply failed_ratios.
    + split; [done|]. split; [done|]. intros _. exact Hall.
Qed.

Lemma ratios_all_or_nothing_witness :
  exists q,
    GetDataIncome.calculate_financial_ratios
      (<["gross_profit" := Some 40%Q]> {["revenue" := Some 100%Q]}) None
      !! "gross_profit_margin" = Some (Some q).
Proof.
  destruct (ratios_all_or_nothing
              (<["gross_profit" := Some 40%Q]> {["revenue" := Some 100%Q]}) None)
    as (_ & _ & H).
  apply H.
  - vm_compute. reflexivity.
  - simpl. tauto.
Defined.

Lemma first_failure income previous field r :
  income !! "revenue" = Some (Some r) -> (0 < r)%Q ->
  In field Props3.field_keys -> income !! field = Some None ->
  exists d, GetDataIncome.try_block income previous = GetDataIncome.Failed d.
Proof.
  intros Hr Hpos Hin Hf.
  assert (Hnone : GetDataIncome.percent_of (Ratios.get income field (Some 0%Q))
                    (Ratios.get income "revenue" (Some 0%Q)) = None).
  { unfold Ratios.get. rewrite Hr, Hf. cbn [default from_option id].
    unfold GetDataIncome.percent_of, GetDataIncome.positive.
    by rewrite Qltb_pos. }
  unfold GetDataIncome.try_block.
  replace (GetDataIncome.is_zero (Ratios.get income "revenue" (Some 0%Q)))
    with false
    by (unfold Ratios.get; rewrite Hr; symmetry; by apply is_zero_pos).
  cbv zeta. simpl in Hin.
  destruct Hin as [<-|[<-|[<-|[<-|[<-|[]]]]]]; rewrite Hnone;
    repeat
      (cbn [GetDataIncome.assign GetDataIncome.next];
       lazymatch goal with
       | |- context [GetDataIncome.assign _ (GetDataIncome.percent_of ?a ?b) _] =>
           destruct (GetDataIncome.percent_of a b)
       | |- _ => idtac
       end);
    cbn [GetDataIncome.assign GetDataIncome.next]; eauto.
Qed.

(** X19: With a positive revenue, one field stored as [None] among the five
    that are divided by it sets all six ratios to 0, those of the other
    fields too. *)
Theorem one_missing_field_zeroes_every_ratio (income : GetDataIncome.dict)
  (previous : option GetDataIncome.dict) (field : string) (r : Q) :
  income !! "revenue" = Some (Some r) -> (0 < r)%Q ->
  In field Props3.field_keys -> income !! field = Some None ->
  forall k, In k Props3.ratio_keys ->
    GetDataIncome.calculate_financial_ratios income previous !! k =
    Some (Some 0%Q).
Proof.
  intros Hr Hpos Hin Hf k Hk.
  destruct (first_failure income previous field r Hr Hpos Hin Hf) as [d Hd].
  unfold GetDataIncome.calculate_financial_ratios. rewrite Hd.
  by apply failed_ratios.
Qed.

Lemma one_missing_field_zeroes_every_ratio_witness :
  GetDataIncome.calculate_financial_ratios
    (<["net_income" := None]>
       (<["gross_profit" := Some 40%Q]> {["revenue" := Some 100%Q]}))
    None !! "gross_profit_margin" = Some (Some 0%Q).
Proof.
  apply (one_missing_field_zeroes_every_ratio _ None "net_income" 100%Q).
  - vm_compute. reflexivity.
  - reflexivity.
  - simpl. tauto.
  - vm_compute. reflexivity.
  - simpl. tauto.
Defined.

(** X20: With a negative revenue, or one stored as [None], the five margins
    are 0: nothing is divided by such a revenue. *)
Theorem margins_zero_without_positive_revenue (income : GetDataIncome.dict)
  (previous : option GetDataIncome.dict) :
  income !! "revenue" = Some None \/
  (exists r, income !! "revenue" = Some (Some r) /\ (r < 0)%Q) ->
  forall k, In k Props3.margin_keys ->
    GetDataIncome.calculate_financial_ratios income previous !! k =
    Some (Some 0%Q).
Proof.
  intros Hrev k Hk.
  assert (Hk' : In k Props3.ratio_keys).
  { unfold Props3.ratio_keys. apply in_or_app. by left. }
  unfold GetDataIncome.calculate_financial_ratios, GetDataIncome.try_block.
  destruct Hrev as [Hr|(r & Hr & Hneg)]; unfold Ratios.get; rewrite Hr;
    cbn [default from_option id GetDataIncome.is_zero].
  - cbn [GetDataIncome.percent_of GetDataIncome.positive GetDataIncome.assign
         GetDataIncome.next].
    by apply failed_ratios.
  - rewrite (is_zero_neg r Hneg).
    unfold GetDataIncome.percent_of, GetDataIncome.positive.
    rewrite (Qltb_neg r Hneg).
    cbn [GetDataIncome.assign GetDataIncome.next].
    destruct (GetDataIncome.growth (Some r) previous);
      cbn [GetDataIncome.assign].
    + simpl in Hk.
      destruct Hk as [<-|[<-|[<-|[<-|[<-|[]]]]]];
        repeat (rewrite lookup_insert_ne by done); by rewrite lookup_insert_eq.
    + by apply failed_ratios.
Qed.

Lemma margins_zero_without_positive_revenue_witness :
  GetDataIncome.calculate_financial_ratios
    (<["gross_profit" := Some 40%Q]> {["revenue" := Some (-100)%Q]})
    None !! "gross_profit_margin" = Some (Some 0%Q).
Proof.
  apply (margins_zero_without_positive_revenue _ None).
  - right. exists (-100)%Q. split; [vm_compute; reflexivity | reflexivity].
  - simpl. tauto.
Defined.

(** * CIK numbers *)

Lemma str_append_cons c s t : String c s +:+ t = String c (s +:+ t).
Proof. reflexivity. Qed.

Lemma str_append_empty s : s +:+ "" = s.
Proof.
  induction s as [|c s IH]; [done|]. by rewrite str_append_cons, IH.
Qed.

Lemma str_append_assoc s t u : (s +:+ t) +:+ u = s +:+ (t +:+ u).
Proof.
  induction s as [|c s IH]; [done|]. by rewrite !str_append_cons, IH.
Qed.

Lemma str_length_append s t :
  String.length (s +:+ t) = (String.length s + String.length t)%nat.
Proof.
  induction s as [|c s IH]; [done|]. rewrite str_append_cons. simpl.
  by rewrite IH.
Qed.

Lemma zeros_length n : String.length (Cik.zeros n) = n.
Proof. induction n as [|n IH]; simpl; [done|]. by rewrite IH. Qed.

Lemma zeros_add a b : Cik.zeros (a + b) = Cik.zeros a +:+ Cik.zeros b.
Proof.
  induction a as [|a IH]; simpl; [done|]. by rewrite str_append_cons, IH.
Qed.

Lemma lstrip_zeros_zeros n s :
  Cik.lstrip_zeros (Cik.zeros n +:+ s) = Cik.lstrip_zeros s.
Proof.
  induction n as [|n IH]; simpl; [done|]. rewrite ?str_append_cons. by simpl.
Qed.

(** The text is its leading zeros followed by what [lstrip] keeps. *)
Lemma lstrip_zeros_split s :
  exists j, s = Cik.zeros j +:+ Cik.lstrip_zeros s.
Proof.
  induction s as [|c s [j IH]]; [by exists O|]. simpl.
  destruct (Ascii.eqb_spec c "0") as [->|_]; [|by exists O].
  exists (S j). simpl. by rewrite str_append_cons, <- IH.
Qed.

Lemma lstrip_zeros_digits s :
  Cik.all_digits s = true -> Cik.all_digits (Cik.lstrip_zeros s) = true.
Proof.
  induction s as [|c s IH]; simpl; [done|]. intros H.
  destruct (Ascii.eqb c "0"); [|done].
  apply andb_true_iff in H as [_ H]. by apply IH.
Qed.

(** No sign in front of digits: the zeros are put in front. *)
Lemma zfill_digits width s :
  Cik.all_digits s = true ->
  Cik.zfill width s = Cik.zeros (width - String.length s) +:+ s.
Proof.
  unfold Cik.zfill. destruct s as [|c s]; [by rewrite str_append_empty|].
  cbn [Cik.all_digits]. intros H. apply andb_true_iff in H as [Hc _].
  destruct (Ascii.eqb_spec c "+") as [->|_]; [done|].
  destruct (Ascii.eqb_spec c "-") as [->|_]; [done|]. done.
Qed.

(** X21: For a CIK of at most ten digits, [cik_padded] has ten characters, and
    [cik_short] is the CIK without its leading zeros: padding it gives
    [cik_padded] back.  It is empty exactly when the CIK holds zeros
    only. *)
Theorem cik_short_pads_back (cik : string) :
  Cik.isdigit cik = true -> (String.length cik <= 10)%nat ->
  Cik.cik_short cik = Cik.lstrip_zeros cik /\
  String.length (Cik.cik_padded cik) = 10%nat /\
  Cik.cik_padded (Cik.cik_short cik) = Cik.cik_padded cik /\
  (Cik.cik_short cik = "" <-> Cik.cik_padded cik = Cik.zeros 10).
Proof.
  unfold Cik.isdigit. intros Hd Hlen. apply andb_true_iff in Hd as [_ Hd].
  assert (Hpad : Cik.cik_padded cik =
                 Cik.zeros (10 - String.length cik) +:+ cik)
    by (by apply zfill_digits).
  assert (Hshort : Cik.cik_short cik = Cik.lstrip_zeros cik).
  { unfold Cik.cik_short. by rewrite Hpad, lstrip_zeros_zeros. }
  destruct (lstrip_zeros_split cik) as [j Hj].
  assert (Hl : String.length cik = (j + String.length (Cik.lstrip_zeros cik))%nat).
  { rewrite Hj at 1. by rewrite str_length_append, zeros_length. }
  assert (Hback : Cik.cik_padded (Cik.cik_short cik) = Cik.cik_padded cik).
  { rewrite Hshort. unfold Cik.cik_padded at 1.
    rewrite zfill_digits by (by apply lstrip_zeros_digits).
    rewrite Hpad.
    transitivity (Cik.zeros (10 - String.length cik) +:+
                  (Cik.zeros j +:+ Cik.lstrip_zeros cik));
      [|by rewrite <- Hj].
    rewrite <- str_append_assoc, <- zeros_add. f_equal. f_equal. lia. }
  split; [done|]. split; [|split; [done|]].
  - rewrite Hpad, str_length_append, zeros_length. lia.
  - split.
    + intros E. rewrite <- Hback, E. reflexivity.
    + intros E. unfold Cik.cik_short. rewrite E. reflexivity.
Qed.

Lemma cik_short_pads_back_witness :
  Cik.cik_short "0000789019" = Cik.lstrip_zeros "0000789019" /\
  String.length (Cik.cik_padded "0000789019") = 10%nat /\
  Cik.cik_padded (Cik.cik_short "0000789019") = Cik.cik_padded "0000789019" /\
  (Cik.cik_short "0000789019" = "" <->
   Cik.cik_padded "0000789019" = Cik.zeros 10).
Proof.
  apply (cik_short_pads_back "0000789019").
  - reflexivity.
  - simpl. lia.
Defined.

(** * From the tags to the table *)

Lemma conflict_true a b :
  Database.conflict a b = true <->
  Database.dp_cik a = Database.dp_cik b /\
  Database.dp_filing_date a = Database.dp_filing_date b /\
  Database.statement_type a = Database.statement_type b /\
  Database.metric_name a = Database.metric_name b /\
  Database.context_ref a = Database.context_ref b.
Proof.
  unfold Database.conflict. rewrite !andb_true_iff, !String.eqb_eq. tauto.
Qed.

Lemma conflict_left a b k :
  Database.conflict a b = true -> Database.conflict a k = Database.conflict b k.
Proof.
  intros H. apply conflict_true in H as (H1 & H2 & H3 & H4 & H5).
  unfold Database.conflict. by rewrite H1, H2, H3, H4, H5.
Qed.

Lemma conflict_right r p k :
  Database.conflict p k = true -> Database.conflict r p = Database.conflict r k.
Proof.
  intros H. apply conflict_true in H as (H1 & H2 & H3 & H4 & H5).
  unfold Database.conflict. by rewrite H1, H2, H3, H4, H5.
Qed.

(** After [save_to_database], the rows with a given unique key are the
    last data point with this key alone, or those of the table when no
    data point has it. *)
Lemma save_rows k data_points : forall table,
  List.filter (fun row => Database.conflict row k)
    (Database.save_to_database data_points table) =
  match last (List.filter (fun row => Database.conflict row k) data_points) with
  | Some data => [data]
  | None => List.filter (fun row => Database.conflict row k) table
  end.
Proof.
  induction data_points as [|data data_points IH] using rev_ind; intros table;
    [done|].
  unfold Database.save_to_database. rewrite fold_left_app. cbn [fold_left].
  fold (Database.save_to_database data_points table).
  unfold Database.insert_or_replace. rewrite !List.filter_app, filter_filter.
  cbn [List.filter].
  destruct (Database.conflict data k) eqn:E.
  - rewrite last_snoc. rewrite filter_none; [done|].
    apply List.Forall_forall. intros row _.
    rewrite (conflict_right row data k E). by destruct (Database.conflict row k).
  - rewrite !app_nil_r, <- IH. apply List.filter_ext. intros row.
    destruct (Database.conflict row data) eqn:E'; [|done].
    by rewrite (conflict_left row data k E'), E.
Qed.

Section Points.

Variable findall : string -> string -> list string.
Variable float : string -> option Q.
Variable content : string.
Variable i : Database.filing_info.

Lemma searched_tag tags tag :
  In tag tags ->
  DirectSearch.extract_values_direct_search findall float content tags !! tag =
  tag_result findall float content tag.
Proof.
  intros Hin. unfold DirectSearch.extract_values_direct_search.
  rewrite search_tags_lookup by done. rewrite lookup_empty.
  by destruct (tag_result findall float content tag).
Qed.

Lemma items_points statement_type metric (values : gmap string Q) l :
  (forall tag, In tag l -> values !! tag = tag_result findall float content tag) ->
  List.map (fun item => Props3.point i statement_type metric (snd item))
    (Database.items l values) =
  List.map (Props3.point i statement_type metric)
    (omap (tag_result findall float content) l).
Proof.
  unfold Database.items. induction l as [|tag l IH]; intros Hl; [done|].
  cbn [omap list_omap]. rewrite (Hl tag) by (by left).
  destruct (tag_result findall float content tag) as [value|]; cbn [List.map snd];
    rewrite IH by (intros t Ht; apply Hl; by right); done.
Qed.

(** The data points of a metric: one for each alias with a significant
    match, in the order of the aliases. *)
Lemma metric_data_points statement_type metric tags :
  Py.dict_of Database.FINANCIAL_TAGS !! metric = Some tags ->
  Database.metric_data findall float content i statement_type metric =
  List.map (Props3.point i statement_type metric)
    (omap (tag_result findall float content) tags).
Proof.
  intros Htags. unfold Database.metric_data. rewrite Htags. cbv zeta.
  apply (items_points statement_type metric). apply searched_tag.
Qed.

(** No list of [FINANCIAL_TAGS] names a tag twice, so that the keys of
    [values] come in the order of the list. *)
Lemma financial_tags_distinct :
  Forall (fun kv => NoDup (snd kv)) Database.FINANCIAL_TAGS.
Proof. apply (bool_decide_unpack _). vm_compute. reflexivity. Qed.

Lemma rows_of_app statement_type metric l1 l2 :
  Props3.rows_of i statement_type metric (l1 ++ l2) =
  (Props3.rows_of i statement_type metric l1 ++
   Props3.rows_of i statement_type metric l2)%list.
Proof. apply List.filter_app. Qed.

Lemma point_conflict st' m' v st m :
  Database.conflict (Props3.point i st' m' v) (Props3.point i st m 0%Q) =
  String.eqb st' st && String.eqb m' m.
Proof.
  unfold Database.conflict, Props3.point. cbn.
  rewrite !String.eqb_refl. cbn [andb].
  destruct (String.eqb_spec st' st) as [->|]; [|done].
  destruct (String.eqb_spec m' m) as [->|]; [|done].
  by rewrite String.eqb_refl.
Qed.

(** The data points of a metric have its key, and no other metric's. *)
Lemma rows_of_metric_data st m st' m' :
  Props3.rows_of i st m (Database.metric_data findall float content i st' m') =
  if String.eqb st' st && String.eqb m' m
  then Database.metric_data findall float content i st' m' else [].
Proof.
  unfold Props3.rows_of.
  destruct (Py.dict_of Database.FINANCIAL_TAGS !! m') as [tags|] eqn:Htags.
  - rewrite (metric_data_points st' m' tags Htags).
    destruct (String.eqb st' st && String.eqb m' m) eqn:E.
    + apply filter_all, List.Forall_forall. intros p Hp.
      apply in_map_iff in Hp as (v & <- & _). by rewrite point_conflict.
    + apply filter_none, List.Forall_forall. intros p Hp.
      apply in_map_iff in Hp as (v & <- & _). by rewrite point_conflict.
  - unfold Database.metric_data. rewrite Htags.
    by destruct (String.eqb st' st && String.eqb m' m).
Qed.

Ltac one_metric :=
  rewrite !rows_of_app, !rows_of_metric_data;
  cbn [String.eqb Ascii.eqb Bool.eqb andb app];
  rewrite ?app_nil_r; reflexivity.

(** Among the data points of a filing, those with the key of a listed
    metric are the data points of this metric. *)
Lemma rows_of_extract statement_type metrics metric :
  In (statement_type, metrics) Database.statements -> In metric metrics ->
  Props3.rows_of i statement_type metric
    (Database.extract_financial_data_robust findall float content i) =
  Database.metric_data findall float content i statement_type metric.
Proof.
  intros Hst Hm.
  unfold Database.extract_financial_data_robust, Database.statements.
  cbn [flat_map fst snd]. rewrite !app_nil_r.
  simpl in Hst.
  destruct Hst as [[= <- <-]|[[= <- <-]|[[= <- <-]|[]]]]; simpl in Hm;
    repeat (destruct Hm as [<-|Hm]; [one_metric|]); destruct Hm.
Qed.

Lemma listed_tags statement_type metrics metric :
  In (statement_type, metrics) Database.statements -> In metric metrics ->
  is_Some (Py.dict_of Database.FINANCIAL_TAGS !! metric).
Proof.
  intros Hst Hm. simpl in Hst.
  destruct Hst as [[= <- <-]|[[= <- <-]|[[= <- <-]|[]]]]; simpl in Hm;
    repeat (destruct Hm as [<-|Hm]; [vm_compute; eauto|]); destruct Hm.
Qed.

End Points.

(** X22: After the data points of a filing are saved, the table holds, with
    the key of a metric, one row and no more when some alias of the
    metric has a significant match: its value is that of the last such
    alias in the order of [FINANCIAL_TAGS].  With no such alias the rows
    of the table with this key are left as they were. *)
Theorem stored_value_is_last_alias
  (findall : string -> string -> list string) (float : string -> option Q)
  (content : string) (i : Database.filing_info)
  (table : list Database.data_point)
  (statement_type : string) (metrics : list string) (metric : string) :
  In (statement_type, metrics) Database.statements -> In metric metrics ->
  exists tags,
    Py.dict_of Database.FINANCIAL_TAGS !! metric = Some tags /\
    Props3.rows_of i statement_type metric
      (Database.save_to_database
         (Database.extract_financial_data_robust findall float content i) table) =
    match last (omap (tag_result findall float content) tags) with
    | Some value => [Props3.point i statement_type metric value]
    | None => Props3.rows_of i statement_type metric table
    end.
Proof.
  intros Hst Hm.
  destruct (listed_tags statement_type metrics metric Hst Hm) as [tags Htags].
  exists tags. split; [done|].
  unfold Props3.rows_of at 1. rewrite save_rows.
  fold (Props3.rows_of i statement_type metric
          (Database.extract_financial_data_robust findall float content i)).
  rewrite (rows_of_extract findall float content i statement_type metrics metric Hst Hm).
  rewrite (metric_data_points findall float content i statement_type metric tags Htags).
  change (List.map ?f ?l) with (f <$> l). rewrite fmap_last.
  by destruct (last (omap (tag_result findall float content) tags)).
Qed.

Lemma stored_value_is_last_alias_witness :
  exists tags,
    Py.dict_of Database.FINANCIAL_TAGS !! "Revenue" = Some tags /\
    Props3.rows_of Props3.msft_10q "Income Statement" "Revenue"
      (Database.save_to_database
         (Database.extract_financial_data_robust xbrl_findall Py.float
            xbrl_content Props3.msft_10q) []) =
    match last (omap (tag_result xbrl_findall Py.float xbrl_content) tags) with
    | Some value =>
        [Props3.point Props3.msft_10q "Income Statement" "Revenue" value]
    | None => Props3.rows_of Props3.msft_10q "Income Statement" "Revenue" []
    end.
Proof.
  apply (stored_value_is_last_alias xbrl_findall Py.float xbrl_content
           Props3.msft_10q [] "Income Statement"
           [ "Revenue"; "COGS"; "Gross_Profit"; "RD"; "SGA"; "Operating_Income";
             "Other_Income"; "Pretax_Income"; "Taxes"; "Net_Income"; "EPS" ]
           "Revenue").
  - simpl. tauto.
  - simpl. tauto.
Defined.

(** X23: Every data point of a filing belongs to a listed metric and carries a
    value of more than 0.01 in absolute value, read from a match of one
    of the metric's aliases. *)
Theorem data_points_are_significant
  (findall : string -> string -> list string) (float : string -> option Q)
  (content : string) (i : Database.filing_info) (p : Database.data_point) :
  In p (Database.extract_financial_data_robust findall float content i) ->
  exists statement_type metrics tags tag,
    In (statement_type, metrics) Database.statements /\
    In (Database.metric_name p) metrics /\
    Py.dict_of Database.FINANCIAL_TAGS !! Database.metric_name p = Some tags /\
    In tag tags /\
    has_significant findall float content tag (Database.metric_value p) /\
    p = Props3.point i statement_type (Database.metric_name p)
          (Database.metric_value p).
Proof.
  unfold Database.extract_financial_data_robust. intros Hp.
  apply in_flat_map in Hp as ([st ms] & Hst & Hp). cbn [fst snd] in Hp.
  apply in_flat_map in Hp as (m & Hm & Hp).
  destruct (listed_tags st ms m Hst Hm) as [tags Htags].
  rewrite (metric_data_points findall float content i st m tags Htags) in Hp.
  apply in_map_iff in Hp as (v & <- & Hv).
  apply list_elem_of_In, list_elem_of_omap in Hv as (tag & Htag & Hv).
  exists st, ms, tags, tag. cbn.
  repeat split; try done.
  - by apply list_elem_of_In.
  - by apply tag_result_Some.
Qed.

Lemma data_points_are_significant_witness :
  exists statement_type metrics tags tag,
    In (statement_type, metrics) Database.statements /\
    In "Revenue" metrics /\
    Py.dict_of Database.FINANCIAL_TAGS !! "Revenue" = Some tags /\
    In tag tags /\
    has_significant xbrl_findall Py.float xbrl_content tag 700%Q /\
    Props3.point Props3.msft_10q "Income Statement" "Revenue" 700%Q =
    Props3.point Props3.msft_10q statement_type "Revenue" 700%Q.
Proof.
  apply (data_points_are_significant xbrl_findall Py.float xbrl_content
           Props3.msft_10q
           (Props3.point Props3.msft_10q "Income Statement" "Revenue" 700%Q)).
  vm_compute. auto.
Defined.

(** * The two strategies side by side *)

Lemma html_no_conflict i statement_type metrics metric m' v' v :
  In (statement_type, metrics) Database.statements ->
  Database.conflict (Database.html_data_point i m' v')
    (Props3.point i statement_type metric v) = false.
Proof.
  intros Hst. unfold Database.conflict, Database.html_data_point, Props3.point.
  cbn [Database.dp_cik Database.dp_filing_date Database.statement_type
       Database.metric_name Database.context_ref].
  replace (String.eqb "HTML_Table" (statement_type +:+ "_" +:+ metric))
    with false; [by rewrite andb_false_r|].
  simpl in Hst. by destruct Hst as [[= <- <-]|[[= <- <-]|[[= <- <-]|[]]]].
Qed.

(** X24: The table search puts a listed metric in the category the tag search
    lists it in, but under another [context_ref]: its data points never
    replace those of the tags, so that a metric found by both is stored
    once for each. *)
Theorem html_rows_kept_beside_tag_rows (i : Database.filing_info)
  (statement_type : string) (metrics : list string) (metric : string) :
  In (statement_type, metrics) Database.statements -> In metric metrics ->
  Database.html_statement_type metric = statement_type /\
  forall (data_points : list Database.data_point) (html : list (string * Q))
         (table : list Database.data_point),
    Props3.rows_of i statement_type metric
      (Database.save_to_database
         (data_points ++
          List.map (fun mv => Database.html_data_point i (fst mv) (snd mv)) html)
         table) =
    Props3.rows_of i statement_type metric
      (Database.save_to_database data_points table).
Proof.
  intros Hst Hm. split.
  - simpl in Hst.
    destruct Hst as [[= <- <-]|[[= <- <-]|[[= <- <-]|[]]]]; simpl in Hm;
      repeat (destruct Hm as [<-|Hm]; [reflexivity|]); destruct Hm.
  - intros data_points html table. unfold Props3.rows_of.
    rewrite !save_rows, List.filter_app.
    rewrite (filter_none _ (List.map _ html)); [by rewrite app_nil_r|].
    apply List.Forall_forall. intros p Hp.
    apply in_map_iff in Hp as ([m' v'] & <- & _).
    by apply (html_no_conflict i statement_type metrics).
Qed.

Lemma html_rows_kept_beside_tag_rows_witness :
  Database.html_statement_type "Revenue" = "Income Statement" /\
  forall (data_points : list Database.data_point) (html : list (string * Q))
         (table : list Database.data_point),
    Props3.rows_of Props3.msft_10q "Income Statement" "Revenue"
      (Database.save_to_database
         (data_points ++
          List.map
            (fun mv => Database.html_data_point Props3.msft_10q (fst mv) (snd mv))
            html)
         table) =
    Props3.rows_of Props3.msft_10q "Income Statement" "Revenue"
      (Database.save_to_database data_points table).
Proof.
  apply (html_rows_kept_beside_tag_rows Props3.msft_10q "Income Statement"
           [ "Revenue"; "COGS"; "Gross_Profit"; "RD"; "SGA"; "Operating_Income";
             "Other_Income"; "Pretax_Income"; "Taxes"; "Net_Income"; "EPS" ]
           "Revenue").
  - simpl. tauto.
  - simpl. tauto.
Defined.

(** * The ratio dictionaries on complete data *)

Lemma get_some (balance_data : gmap string (option Q)) k dflt :
  Props3.no_null balance_data -> is_Some dflt ->
  is_Some (Ratios.get balance_data k dflt).
Proof.
  intros Hn Hd. unfold Ratios.get.
  destruct (balance_data !! k) as [[x|]|] eqn:E; simpl; [eauto| |done].
  by destruct (Hn k).
Qed.

Lemma eval_ratio_ok r n :
  Ratios.numerator r = Ok n -> exists v, Ratios.eval_ratio r = Ok v.
Proof.
  intros Hn. unfold Ratios.eval_ratio.
  destruct (Py.truthy_num (Ratios.denominator r)) eqn:Ht; [|eauto].
  rewrite Hn. destruct (Ratios.denominator r) as [d|]; [|done].
  simpl in Ht. apply negb_true_iff in Ht. simpl. rewrite Ht. simpl. eauto.
Qed.

Lemma eval_all_ok l :
  Forall (fun r => exists n, Ratios.numerator r = Ok n) l ->
  exists vs, Ratios.eval_all l = Ok vs /\
             List.map fst vs = List.map Ratios.name l /\
             Forall (fun kv => is_Some (snd kv)) vs.
Proof.
  induction 1 as [|r l [n Hn] _ (vs & Hvs & Hnames & Hsome)]; [by exists []|].
  destruct (eval_ratio_ok r n Hn) as [v Hv].
  exists ((Ratios.name r, Some v) :: vs). simpl. rewrite Hv, Hvs. simpl.
  split; [done|]. split; [by rewrite Hnames|]. constructor; [by eexists | done].
Qed.

Ltac read_balance Hn :=
  repeat
    match goal with
    | |- context [Ratios.get ?b ?k ?d] =>
        let x := fresh "x" in
        let H := fresh "H" in
        destruct (get_some b k d Hn) as [x H];
        [repeat (apply get_some; [exact Hn|]); eauto | rewrite H]
    end.

(** X25: On a row without a NULL and a balance sheet without a null, both
    ratio dictionaries are computed: neither raises, and each gives a
    number for every one of its 19 keys, in the order of the keys. *)
Theorem ratios_defined_on_numbers (row : Ratios.financial_row)
  (balance_data : gmap string (option Q)) :
  Props3.complete row -> Props3.no_null balance_data ->
  (exists l, Ratios.GetData.ratios row balance_data = Ok l /\
             List.map fst l = Props3.ratio_names /\
             Forall (fun kv => is_Some (snd kv)) l) /\
  (exists l, Ratios.DataToDb.ratios row balance_data = Ok l /\
             List.map fst l = Props3.ratio_names /\
             Forall (fun kv => is_Some (snd kv)) l).
Proof.
  intros Hc Hn. destruct row as [ta tl td rev gp eb ni ocf fcf].
  unfold Props3.complete in Hc. simpl in Hc.
  destruct Hc as ([ta' ->] & [tl' ->] & [td' ->] & [rev' ->] & [gp' ->] &
                  [eb' ->] & [ni' ->] & [ocf' ->] & [fcf' ->]).
  simpl in *. split.
  - unfold Ratios.GetData.ratios. cbv zeta.
    destruct (eval_all_ok (Ratios.GetData.ratio_exprs
                {| Ratios.total_assets := Some ta';
                   Ratios.total_liabilities := Some tl';
                   Ratios.total_debt := Some td';
                   Ratios.revenue := Some rev';
                   Ratios.gross_profit := Some gp';
                   Ratios.ebitda := Some eb';
                   Ratios.net_income := Some ni';
                   Ratios.operating_cash_flow := Some ocf';
                   Ratios.free_cash_flow := Some fcf' |} balance_data))
      as (vs & Hvs & Hnames & Hsome).
    { unfold Ratios.GetData.ratio_exprs. cbv zeta. simpl.
      read_balance Hn. repeat constructor; simpl; eauto. }
    rewrite Hvs. simpl. eexists. split; [reflexivity|].
    split.
    + rewrite List.map_app, Hnames. reflexivity.
    + apply Forall_app. split; [done|].
      repeat constructor; simpl; apply get_some; eauto.
  - unfold Ratios.DataToDb.ratios. cbv zeta.
    destruct (eval_all_ok (Ratios.DataToDb.ratio_exprs
                {| Ratios.total_assets := Some ta';
                   Ratios.total_liabilities := Some tl';
                   Ratios.total_debt := Some td';
                   Ratios.revenue := Some rev';
                   Ratios.gross_profit := Some gp';
                   Ratios.ebitda := Some eb';
                   Ratios.net_income := Some ni';
                   Ratios.operating_cash_flow := Some ocf';
                   Ratios.free_cash_flow := Some fcf' |} balance_data))
      as (vs & Hvs & Hnames & Hsome).
    { unfold Ratios.DataToDb.ratio_exprs. cbv zeta. simpl.
      read_balance Hn. repeat constructor; simpl; eauto. }
    rewrite Hvs. simpl. read_balance Hn. simpl.
    eexists. split; [reflexivity|]. split.
    + rewrite List.map_app, Hnames. reflexivity.
    + apply Forall_app. split; [done|]. repeat constructor; simpl; eauto.
Qed.

Lemma ratios_defined_on_numbers_witness :
  (exists l,
     Ratios.GetData.ratios
       {| Ratios.total_assets := Some 1%Q; Ratios.total_liabilities := Some 1%Q;
          Ratios.total_debt := Some 1%Q; Ratios.revenue := Some 0%Q;
          Ratios.gross_profit := Some 1%Q; Ratios.ebitda := Some 1%Q;
          Ratios.net_income := Some 1%Q; Ratios.operating_cash_flow := Some 1%Q;
          Ratios.free_cash_flow := Some 1%Q |} ∅ = Ok l /\
     List.map fst l = Props3.ratio_names /\
     Forall (fun kv => is_Some (snd kv)) l) /\
  (exists l,
     Ratios.DataToDb.ratios
       {| Ratios.total_assets := Some 1%Q; Ratios.total_liabilities := Some 1%Q;
          Ratios.total_debt := Some 1%Q; Ratios.revenue := Some 0%Q;
          Ratios.gross_profit := Some 1%Q; Ratios.ebitda := Some 1%Q;
          Ratios.net_income := Some 1%Q; Ratios.operating_cash_flow := Some 1%Q;
          Ratios.free_cash_flow := Some 1%Q |} ∅ = Ok l /\
     List.map fst l = Props3.ratio_names /\
     Forall (fun kv => is_Some (snd kv)) l).
Proof.
  apply ratios_defined_on_numbers.
  - unfold Props3.complete. simpl. repeat split; eauto.
  - intros k. by rewrite lookup_empty.
Defined.

(** * The ratio dictionaries on numbers *)








